(** * Checkpoint save / load of TeleTron: a shallow embedding

    Source: [src/teletron/train/checkpoint/checkpoint.py].

    The Python code is embedded as functions in a small state-and-exception
    monad over a [World] record holding everything the code reads or
    mutates: the global [args] object, the process-group queries, the file
    system, the module registry [sys.modules], the pseudo-random generators,
    the live model / optimizer / scheduler objects, and a trace of the calls
    made to collaborators (prints, barriers, directory creation, writes).

    Python dictionaries are [gmap string Value]; Python objects that this
    code only moves around (tensors, optimizer state, generator states) are
    values of the dynamically typed universe [Value]. *)

From stdpp Require Import base option list gmap strings pretty.
From Stdlib Require Import ZArith Lia Ascii.

#[local] Open Scope Z_scope.

(** ** Python values *)

(** The command-line namespace [args]; only the attributes that
    [checkpoint.py] reads or writes. *)
Record Args := mkArgs {
  a_save : string;
  a_load : string;
  a_pretrained_checkpoint : option string;
  a_use_dist_ckpt : bool;
  a_dist_ckpt_format : string;
  a_auto_detect_ckpt_format : bool;
  a_exit_on_missing_checkpoint : bool;
  a_ckpt_fully_parallel_save : bool;
  a_use_distributed_optimizer : bool;
  a_use_zero2 : bool;
  a_no_save_optim : bool;
  a_no_save_rng : bool;
  a_no_load_optim : bool;
  a_no_load_rng : bool;
  a_finetune : bool;
  a_data_parallel_random_init : bool;
  a_consumed_train_samples : Z;
  a_consumed_valid_samples : Z;
  a_retro_add_retriever : bool;
  a_lora : bool;
  a_fp16 : bool;
  a_bf16 : bool;
  a_tensor_model_parallel_size : Z;
  a_pipeline_model_parallel_size : Z
}.

(** [args.finetune = True] *)
Definition set_finetune (a : Args) (b : bool) : Args :=
  mkArgs (a_save a) (a_load a) (a_pretrained_checkpoint a) (a_use_dist_ckpt a)
    (a_dist_ckpt_format a) (a_auto_detect_ckpt_format a)
    (a_exit_on_missing_checkpoint a) (a_ckpt_fully_parallel_save a)
    (a_use_distributed_optimizer a) (a_use_zero2 a) (a_no_save_optim a)
    (a_no_save_rng a) (a_no_load_optim a) (a_no_load_rng a) b
    (a_data_parallel_random_init a) (a_consumed_train_samples a)
    (a_consumed_valid_samples a) (a_retro_add_retriever a) (a_lora a)
    (a_fp16 a) (a_bf16 a) (a_tensor_model_parallel_size a)
    (a_pipeline_model_parallel_size a).

(** [args.consumed_train_samples = n] *)
Definition set_consumed_train_samples (a : Args) (n : Z) : Args :=
  mkArgs (a_save a) (a_load a) (a_pretrained_checkpoint a) (a_use_dist_ckpt a)
    (a_dist_ckpt_format a) (a_auto_detect_ckpt_format a)
    (a_exit_on_missing_checkpoint a) (a_ckpt_fully_parallel_save a)
    (a_use_distributed_optimizer a) (a_use_zero2 a) (a_no_save_optim a)
    (a_no_save_rng a) (a_no_load_optim a) (a_no_load_rng a) (a_finetune a)
    (a_data_parallel_random_init a) n
    (a_consumed_valid_samples a) (a_retro_add_retriever a) (a_lora a)
    (a_fp16 a) (a_bf16 a) (a_tensor_model_parallel_size a)
    (a_pipeline_model_parallel_size a).

(** [args.consumed_valid_samples = n] *)
Definition set_consumed_valid_samples (a : Args) (n : Z) : Args :=
  mkArgs (a_save a) (a_load a) (a_pretrained_checkpoint a) (a_use_dist_ckpt a)
    (a_dist_ckpt_format a) (a_auto_detect_ckpt_format a)
    (a_exit_on_missing_checkpoint a) (a_ckpt_fully_parallel_save a)
    (a_use_distributed_optimizer a) (a_use_zero2 a) (a_no_save_optim a)
    (a_no_save_rng a) (a_no_load_optim a) (a_no_load_rng a) (a_finetune a)
    (a_data_parallel_random_init a) (a_consumed_train_samples a)
    n (a_retro_add_retriever a) (a_lora a)
    (a_fp16 a) (a_bf16 a) (a_tensor_model_parallel_size a)
    (a_pipeline_model_parallel_size a).

(** The dynamically typed values that flow through a checkpoint record.
    [VBlob] stands for an object this code never looks into (a tensor
    dictionary, an optimizer or scheduler state, a generator state);
    [VSharded] for the shard descriptor a collaborator returns from
    [sharded_state_dict], keeping the keyword arguments it was built with. *)
#[warnings="-register-all"]
Inductive Value :=
  | VNone
  | VBool (b : bool)
  | VInt (z : Z)
  | VFloat (num : Z) (den : positive)
  | VStr (s : string)
  | VArgs (a : Args)
  | VBlob (id : Z)
  | VList (l : list Value)
  | VDict (d : gmap string Value)
  | VSharded (payload : Value) (kwargs : gmap string Value).

(** The exceptions the code raises, catches or lets through. *)
Inductive Exn :=
  | KeyError
  | IndexError
  | TypeError
  | AttributeError
  | AssertionError
  | RuntimeError (msg : string)
  | NotImplementedError (msg : string)
  | FileNotFoundError (msg : string)
  | ModuleNotFoundError
  | UnpicklingError
  | SystemExit.

(** Python truthiness, as used by [if not rng_state['rng_tracker_states']]. *)
Definition truthy (v : Value) : bool :=
  match v with
  | VNone => false
  | VBool b => b
  | VInt z => negb (Z.eqb z 0)
  | VFloat n _ => negb (Z.eqb n 0)
  | VStr s => negb (String.eqb s "")
  | VList l => match l with [] => false | _ => true end
  | VDict d => negb (bool_decide (d = ∅))
  | VArgs _ | VBlob _ | VSharded _ _ => true
  end.

(** [v[key]] for a string key: a dictionary raises [KeyError] on a missing
    key, anything else is not subscriptable by a string. *)
Definition getitem (v : Value) (key : string) : Exn + Value :=
  match v with
  | VDict d => match d !! key with Some x => inr x | None => inl KeyError end
  | _ => inl TypeError
  end.

(** [v[i]] for a non-negative integer index: a list raises [IndexError] out
    of range; a dictionary (whose keys here are strings) has no such key. *)
Definition getindex (v : Value) (i : nat) : Exn + Value :=
  match v with
  | VList l => match l !! i with Some x => inr x | None => inl IndexError end
  | VDict _ => inl KeyError
  | _ => inl TypeError
  end.

(** [key in v] *)
Definition contains (v : Value) (key : string) : Exn + bool :=
  match v with
  | VDict d => inr (bool_decide (is_Some (d !! key)))
  | VList _ => inr false
  | _ => inl TypeError
  end.

(** [v.get(key, default)]; only dictionaries have [get]. *)
Definition dict_get (v : Value) (key : string) (default : Value) : Exn + Value :=
  match v with
  | VDict d => inr (match d !! key with Some x => x | None => default end)
  | _ => inl AttributeError
  end.

(** [v[key] = x] *)
Definition setitem (v : Value) (key : string) (x : Value) : Exn + Value :=
  match v with
  | VDict d => inr (VDict (<[key := x]> d))
  | _ => inl TypeError
  end.

(** ** Modules and [unwrap_model] *)

(** The classes an object wrapping a module can have.  [DDP] and
    [Float16Module] are the two of [ALL_MODULE_WRAPPER_CLASSNAMES]; any
    other object carrying a [.module] is an [OtherWrapper]. *)
Inductive WrapperClass :=
  | DDP
  | Float16Module
  | OtherWrapper (name : string).

#[global] Instance WrapperClass_eq_dec : EqDecision WrapperClass.
Proof. solve_decision. Defined.

(** A model chunk: a bare parameter container with its weights, or a
    wrapper instance whose [.module] is another chunk. *)
Inductive Module :=
  | Bare (weights : Value)
  | Wrapped (cls : WrapperClass) (module : Module).

(** What callers pass as [model]: one module or a Python list of them. *)
Inductive ModelArg :=
  | OneModule (m : Module)
  | ModuleList (l : list Module).

Definition ALL_MODULE_WRAPPER_CLASSNAMES : list WrapperClass :=
  [DDP; Float16Module].

(** [isinstance(m, module_instances)] *)
Definition isinstance (m : Module) (module_instances : list WrapperClass) : bool :=
  match m with
  | Wrapped c _ => bool_decide (c ∈ module_instances)
  | Bare _ => false
  end.

(** The inner loop
    [while isinstance(model_module, module_instances):
         model_module = model_module.module]. *)
Fixpoint unwrap_module (module_instances : list WrapperClass) (m : Module) : Module :=
  match m with
  | Wrapped c inner =>
      if bool_decide (c ∈ module_instances)
      then unwrap_module module_instances inner
      else m
  | Bare _ => m
  end.

(** [unwrap_model(model, module_instances)] *)
Definition unwrap_model (model : ModelArg) (module_instances : list WrapperClass)
  : ModelArg :=
  let '(model_list, return_list) :=
    match model with
    | ModuleList l => (l, true)
    | OneModule m => ([m], false)
    end in
  let unwrapped_model := map (unwrap_module module_instances) model_list in
  if negb return_list then
    match unwrapped_model with
    | m0 :: _ => OneModule m0
    | [] => model
    end
  else ModuleList unwrapped_model.

(** Big-step reading of the [while] loop: [unwraps_to cs m r] holds when [r]
    is reached from [m] by replacing a wrapper instance by its [.module] as
    long as the current object is an instance of [cs]. *)
Inductive unwraps_to (cs : list WrapperClass) : Module → Module → Prop :=
  | unwraps_stop m :
      isinstance m cs = false → unwraps_to cs m m
  | unwraps_step c inner r :
      isinstance (Wrapped c inner) cs = true →
      unwraps_to cs inner r →
      unwraps_to cs (Wrapped c inner) r.

(** ** The world the checkpoint code runs in *)

(** Answers of the process-group collaborators ([torch.distributed], [mpu])
    for the calling process. *)
Record Proc := mkProc {
  p_initialized : bool;            (* torch.distributed.is_initialized() *)
  p_rank : Z;                      (* torch.distributed.get_rank() *)
  p_dp_rank : nat;                 (* mpu.get_data_parallel_rank() *)
  p_cp_rank : nat;                 (* mpu.get_context_parallel_rank() *)
  p_dp_world : nat;                (* mpu.get_data_parallel_world_size() *)
  p_cp_world : nat;                (* mpu.get_context_parallel_world_size() *)
  p_dmep_rank : Z;                 (* mpu.get_data_modulo_expert_parallel_rank() *)
  p_tp_rank : Z;                   (* mpu.get_tensor_model_parallel_rank() *)
  p_pp_rank : Z;                   (* mpu.get_pipeline_model_parallel_rank() *)
  p_tp_world : Z;                  (* mpu.get_tensor_model_parallel_world_size() *)
  p_pp_world : Z                   (* mpu.get_pipeline_model_parallel_world_size() *)
}.

(** The five generators that RNG restoration sets, in the order of the
    source: [random], [np.random], [torch], [torch.cuda] and the states of
    [tensor_parallel.get_cuda_rng_tracker()]. *)
Record RngState := mkRng {
  random_rng_state : Value;
  np_rng_state : Value;
  torch_rng_state : Value;
  cuda_rng_state : Value;
  rng_tracker_states : Value
}.

(** The live optimizer object: what [state_dict()] returns and
    [load_state_dict] sets, the distributed optimizer's parameter state, and
    how often [reload_model_params()] was called. *)
Record Optimizer := mkOptimizer {
  opt_state : Value;
  opt_param_state : Value;
  opt_reloads : nat
}.

(** What a path of the file system holds: a text file, a file written by
    [torch.save] (with the module names its unpickling has to resolve), or a
    directory written by [dist_checkpointing.save]. *)
Inductive File :=
  | FText (content : string)
  | FPickle (obj : Value) (needs : list string)
  | FDistCkpt (obj : Value).

(** Calls to collaborators that leave no other mark on the world. *)
Inductive Event :=
  | EPrint (msg : string)                       (* print_rank_0(msg) *)
  | EBarrier                                    (* torch.distributed.barrier() *)
  | EEnsureDir (path : string) (check_parent : bool)
  | EWrite (path : string)                      (* torch.save, dist_checkpointing.save *)
  | EWriteText (path content : string)          (* open(path, 'w').write(content) *)
  | ESetVirtualRank (i : nat)   (* mpu.set_virtual_pipeline_model_parallel_rank(i) *)
  | EUpdateNumMicrobatches (consumed_samples : Z).

(** The [model], [optimizer] and [opt_param_scheduler] arguments of the
    source are references to live objects which the callee mutates; they are
    the fields [w_model], [w_optimizer] and [w_scheduler] here ([None] for an
    absent optimizer or scheduler). *)
Record World := mkWorld {
  w_args : Args;
  w_proc : Proc;
  w_fs : gmap string File;
  w_modules : gmap string string;               (* sys.modules *)
  w_rng : RngState;
  w_model : ModelArg;
  w_optimizer : option Optimizer;
  w_scheduler : option Value;
  w_trace : list Event
}.

Definition with_args (a : Args) (w : World) : World :=
  mkWorld a (w_proc w) (w_fs w) (w_modules w) (w_rng w) (w_model w)
    (w_optimizer w) (w_scheduler w) (w_trace w).
Definition with_fs (f : gmap string File) (w : World) : World :=
  mkWorld (w_args w) (w_proc w) f (w_modules w) (w_rng w) (w_model w)
    (w_optimizer w) (w_scheduler w) (w_trace w).
Definition with_modules (m : gmap string string) (w : World) : World :=
  mkWorld (w_args w) (w_proc w) (w_fs w) m (w_rng w) (w_model w)
    (w_optimizer w) (w_scheduler w) (w_trace w).
Definition with_rng (r : RngState) (w : World) : World :=
  mkWorld (w_args w) (w_proc w) (w_fs w) (w_modules w) r (w_model w)
    (w_optimizer w) (w_scheduler w) (w_trace w).
Definition with_model (m : ModelArg) (w : World) : World :=
  mkWorld (w_args w) (w_proc w) (w_fs w) (w_modules w) (w_rng w) m
    (w_optimizer w) (w_scheduler w) (w_trace w).
Definition with_optimizer (o : option Optimizer) (w : World) : World :=
  mkWorld (w_args w) (w_proc w) (w_fs w) (w_modules w) (w_rng w) (w_model w)
    o (w_scheduler w) (w_trace w).
Definition with_scheduler (s : option Value) (w : World) : World :=
  mkWorld (w_args w) (w_proc w) (w_fs w) (w_modules w) (w_rng w) (w_model w)
    (w_optimizer w) s (w_trace w).
Definition with_trace (t : list Event) (w : World) : World :=
  mkWorld (w_args w) (w_proc w) (w_fs w) (w_modules w) (w_rng w) (w_model w)
    (w_optimizer w) (w_scheduler w) t.

(** ** State and exceptions *)

(** A call either returns a value or raises; the world it leaves behind is
    kept in both cases (a raised exception does not undo mutations). *)
Inductive Outcome (A : Type) :=
  | Ok (a : A) (w : World)
  | Raise (e : Exn) (w : World).
Arguments Ok {A} a w.
Arguments Raise {A} e w.

Definition M (A : Type) : Type := World → Outcome A.

Definition ret {A} (a : A) : M A := λ w, Ok a w.

Definition bind {A B} (c : M A) (k : A → M B) : M B :=
  λ w, match c w with
       | Ok a w' => k a w'
       | Raise e w' => Raise e w'
       end.

Notation "'let*' x ':=' c 'in' k" := (bind c (λ x, k))
  (at level 10, x pattern, c at level 100, k at level 200).
Notation "c ';;;' k" := (bind c (λ _, k))
  (at level 100, k at level 200, right associativity).

Definition raise {A} (e : Exn) : M A := λ w, Raise e w.

(** [sys.exit()] raises [SystemExit]. *)
Definition sys_exit {A} : M A := raise SystemExit.

Definition lift {A} (r : Exn + A) : M A :=
  match r with
  | inl e => raise e
  | inr a => ret a
  end.

Definition get_world : M World := λ w, Ok w w.
Definition modify (f : World → World) : M unit := λ w, Ok tt (f w).

(** [try: body  except ...: handler]: [handler e] is [Some h] for the
    exceptions some clause matches; an exception raised by [h] itself is not
    handled by a sibling clause of the same [try]. *)
Definition try_except {A} (body : M A) (handler : Exn → option (M A)) : M A :=
  λ w, match body w with
       | Ok a w' => Ok a w'
       | Raise e w' =>
           match handler e with
           | Some h => h w'
           | None => Raise e w'
           end
       end.

(** [assert cond] *)
Definition py_assert (cond : bool) : M unit :=
  if cond then ret tt else raise AssertionError.

(** [for x in l: body x] *)
Fixpoint for_each {A} (l : list A) (body : A → M unit) : M unit :=
  match l with
  | [] => ret tt
  | x :: l' => body x ;;; for_each l' body
  end.

Definition emit (e : Event) : M unit :=
  modify (λ w, with_trace (w_trace w ++ [e]) w).

Definition get_args : M Args := λ w, Ok (w_args w) w.
Definition get_proc : M Proc := λ w, Ok (w_proc w) w.

(** Modelled from the spec: [print_rank_0] of [teletron.utils] is not in
    the sources; the spec has every message emitted "on a single designated
    logging rank".  The call is recorded with its message. *)
Definition print_rank_0 (msg : string) : M unit := emit (EPrint msg).

(** Modelled from the spec: [update_num_microbatches] of [teletron.utils] is
    not in the sources; the call is recorded. *)
Definition update_num_microbatches (consumed_samples : Z) : M unit :=
  emit (EUpdateNumMicrobatches consumed_samples).

(** Modelled from the spec: [ensure_directory_exists] of [.utils] is not in
    the sources; the spec (4.1) makes directory creation idempotent and never
    failing on an existing directory, so the call is only recorded. *)
Definition ensure_directory_exists (path : string) (check_parent : bool) : M unit :=
  emit (EEnsureDir path check_parent).

(** [torch.distributed.barrier()] *)
Definition barrier : M unit := emit EBarrier.

(** [mpu.set_virtual_pipeline_model_parallel_rank(i)] *)
Definition set_virtual_pipeline_model_parallel_rank (i : nat) : M unit :=
  emit (ESetVirtualRank i).

(** ** The serialization backend and the module registry *)

(** [torch.save(obj, path)]: a file written by the running code needs no
    module beyond those already resolvable. *)
Definition torch_save (obj : Value) (path : string) : M unit :=
  modify (λ w, with_fs (<[path := FPickle obj []]> (w_fs w)) w) ;;;
  emit (EWrite path).

(** Every module name of [needs] is a key of [sys.modules]. *)
Definition resolvable (w : World) (needs : list string) : bool :=
  forallb (λ n, bool_decide (is_Some (w_modules w !! n))) needs.

(** [torch.load(path, map_location='cpu', weights_only=False)]: unpickling
    resolves every module name the file refers to through [sys.modules]. *)
Definition torch_load (path : string) : M Value :=
  λ w, match w_fs w !! path with
       | None => Raise (FileNotFoundError path) w
       | Some (FPickle obj needs) =>
           if resolvable w needs
           then Ok obj w
           else Raise ModuleNotFoundError w
       | Some (FText _) => Raise UnpicklingError w
       | Some (FDistCkpt _) => Raise UnpicklingError w
       end.

(** [dist_checkpointing.save(state_dict, checkpoint_name, ...)] *)
Definition dist_checkpointing_save (state_dict : Value) (checkpoint_name : string)
  : M unit :=
  modify (λ w, with_fs (<[checkpoint_name := FDistCkpt state_dict]> (w_fs w)) w) ;;;
  emit (EWrite checkpoint_name).

(** [dist_checkpointing.check_is_distributed_checkpoint(checkpoint_name)] *)
Definition is_distributed_checkpoint (w : World) (checkpoint_name : string) : bool :=
  match w_fs w !! checkpoint_name with
  | Some (FDistCkpt _) => true
  | _ => false
  end.

Definition check_is_distributed_checkpoint (checkpoint_name : string) : M bool :=
  λ w, Ok (is_distributed_checkpoint w checkpoint_name) w.

(** [os.path.isfile(path)] *)
Definition is_file (w : World) (path : string) : bool :=
  match w_fs w !! path with
  | Some (FText _) | Some (FPickle _ _) => true
  | _ => false
  end.

Definition isfile (path : string) : M bool := λ w, Ok (is_file w path) w.

(** [with open(path, 'w') as f: f.write(content)] *)
Definition write_text (path content : string) : M unit :=
  modify (λ w, with_fs (<[path := FText content]> (w_fs w)) w) ;;;
  emit (EWriteText path content).

(** [sys.modules[alias] = sys.modules[target]] *)
Definition alias_module (alias target : string) : M unit :=
  λ w, match w_modules w !! target with
       | Some m => Ok tt (with_modules (<[alias := m]> (w_modules w)) w)
       | None => Raise KeyError w
       end.

(** [sys.modules.pop(name, None)] *)
Definition pop_module (name : string) : M unit :=
  modify (λ w, with_modules (delete name (w_modules w)) w).

(** ** Collaborator objects *)

(** The weights of the parameter container under any wrappers. *)
Fixpoint module_weights (m : Module) : Value :=
  match m with
  | Bare w => w
  | Wrapped _ inner => module_weights inner
  end.

(** [m.state_dict_for_save_checkpoint()] *)
Definition state_dict_for_save_checkpoint (m : Module) : Value := module_weights m.

(** [m.sharded_state_dict()] *)
Definition sharded_state_dict (m : Module) : Value := VSharded (module_weights m) ∅.

(** [m.load_state_dict(v, strict=strict)]: the weights of the container are
    replaced; the wrappers around it alias it and stay.  Key matching under
    [strict] is the collaborator's business and not modelled. *)
Fixpoint module_load_state_dict (m : Module) (v : Value) (strict : bool) : Module :=
  match m with
  | Bare _ => Bare v
  | Wrapped c inner => Wrapped c (module_load_state_dict inner v strict)
  end.

(** [model[i].load_state_dict(v, strict=strict)] on the live model. *)
Definition model_load_state_dict (i : nat) (v : Value) (strict : bool) : M unit :=
  modify (λ w,
    match w_model w with
    | ModuleList l =>
        with_model (ModuleList (alter (λ m, module_load_state_dict m v strict) i l)) w
    | OneModule m => w
    end).

(** [optimizer.load_state_dict(v)] (also with [load_from_fp32_weights=True]) *)
Definition optimizer_load_state_dict (v : Value) : M unit :=
  modify (λ w,
    match w_optimizer w with
    | Some o => with_optimizer (Some (mkOptimizer v (opt_param_state o) (opt_reloads o))) w
    | None => w
    end).

(** [optimizer.save_parameter_state(path)] *)
Definition optimizer_save_parameter_state (path : string) : M unit :=
  let* w := get_world in
  match w_optimizer w with
  | Some o => torch_save (opt_param_state o) path
  | None => raise AttributeError
  end.

(** [optimizer.load_parameter_state(path)] *)
Definition optimizer_load_parameter_state (path : string) : M unit :=
  let* w := get_world in
  match w_optimizer w with
  | Some o =>
      let* v := torch_load path in
      modify (with_optimizer (Some (mkOptimizer (opt_state o) v (opt_reloads o))))
  | None => raise AttributeError
  end.

(** [optimizer.reload_model_params()] *)
Definition optimizer_reload_model_params : M unit :=
  modify (λ w,
    match w_optimizer w with
    | Some o =>
        with_optimizer (Some (mkOptimizer (opt_state o) (opt_param_state o) (S (opt_reloads o)))) w
    | None => w
    end).

(** [opt_param_scheduler.load_state_dict(v)] *)
Definition scheduler_load_state_dict (v : Value) : M unit :=
  modify (λ w,
    match w_scheduler w with
    | Some _ => with_scheduler (Some v) w
    | None => w
    end).

(** The five setters of RNG restoration. *)
Definition random_setstate (v : Value) : M unit :=
  modify (λ w, let r := w_rng w in
    with_rng (mkRng v (np_rng_state r) (torch_rng_state r) (cuda_rng_state r)
                (rng_tracker_states r)) w).
Definition np_random_set_state (v : Value) : M unit :=
  modify (λ w, let r := w_rng w in
    with_rng (mkRng (random_rng_state r) v (torch_rng_state r) (cuda_rng_state r)
                (rng_tracker_states r)) w).
Definition torch_set_rng_state (v : Value) : M unit :=
  modify (λ w, let r := w_rng w in
    with_rng (mkRng (random_rng_state r) (np_rng_state r) v (cuda_rng_state r)
                (rng_tracker_states r)) w).
Definition torch_cuda_set_rng_state (v : Value) : M unit :=
  modify (λ w, let r := w_rng w in
    with_rng (mkRng (random_rng_state r) (np_rng_state r) (torch_rng_state r) v
                (rng_tracker_states r)) w).
Definition cuda_rng_tracker_set_states (v : Value) : M unit :=
  modify (λ w, let r := w_rng w in
    with_rng (mkRng (random_rng_state r) (np_rng_state r) (torch_rng_state r)
                (cuda_rng_state r) v) w).

(** ** Helpers of [.utils] that are not in the sources *)

(** The keyword arguments [load_checkpoint] collects in [load_kwargs]; both
    are set together, or neither. *)
Record LoadKwargs := mkLoadKwargs {
  kw_sharded_state_dict : option (gmap string Value);
  kw_exit_on_missing_checkpoint : option bool
}.

Definition no_kwargs : LoadKwargs := mkLoadKwargs None None.

(** The functions imported from [.utils]: the checkpoint code is embedded
    over any implementation of them.  [get_zero2_checkpoint_names] is
    [get_checkpoint_name(..., use_zero2=True)], which returns the list of
    optimizer shard names rather than one name.  [get_rng_state] and
    [checkpoint_exists] only read the world. *)
Class Helpers := mkHelpers {
  get_checkpoint_tracker_filename : string → string;
  get_checkpoint_name :
    Proc → string → Z → ∀ (release return_base_dir : bool), string;
  get_zero2_checkpoint_names :
    Proc → string → Z → ∀ (release : bool), list string;
  get_distributed_optimizer_checkpoint_name : string → string;
  get_rng_state : ∀ (use_dist_ckpt : bool), World → Value;
  read_metadata : string → M (Z * bool);
  checkpoint_exists : string → World → bool;
  _load_base_checkpoint :
    string → ∀ (rank0 : bool), LoadKwargs → M (Value * string * bool)
}.

(** ** String formatting *)

Fixpoint spaces (n : nat) : string :=
  match n with
  | O => ""
  | S n' => String " "%char (spaces n')
  end.

(** ['{:7d}'.format(z)] *)
Definition fmt_7d (z : Z) : string :=
  let s := pretty z in
  spaces (7 - String.length s)%nat +:+ s.

(** [str((a, b))] for a pair of integers *)
Definition fmt_pair (p : Z * Z) : string :=
  "(" +:+ pretty (fst p) +:+ ", " +:+ pretty (snd p) +:+ ")".

(** [os.path.dirname] (POSIX): everything before the last slash, without
    trailing slashes unless it consists of slashes only. *)
Fixpoint dirname_head (p : string) : option string :=
  match p with
  | EmptyString => None
  | String c r =>
      match dirname_head r with
      | Some h => Some (String c h)
      | None => if Ascii.eqb c "/"%char then Some (String c EmptyString) else None
      end
  end.

Fixpoint rstrip_slash (s : string) : string :=
  match s with
  | EmptyString => EmptyString
  | String c r =>
      match rstrip_slash r with
      | EmptyString => if Ascii.eqb c "/"%char then EmptyString else String c EmptyString
      | r' => String c r'
      end
  end.

Definition dirname (p : string) : string :=
  let head := default "" (dirname_head p) in
  match rstrip_slash head with
  | EmptyString => head
  | stripped => stripped
  end.

(** [os.path.join(a, b)] (POSIX) *)
Definition path_join (a b : string) : string :=
  match b with
  | String "/"%char _ => b
  | _ =>
      match a with
      | EmptyString => b
      | _ => if String.eqb (rstrip_slash a) a then a +:+ "/" +:+ b else a +:+ b
      end
  end.

(** [str(v)] inside a message; objects other than numbers and strings print
    as a placeholder. *)
Definition py_str (v : Value) : string :=
  match v with
  | VNone => "None"
  | VBool true => "True"
  | VBool false => "False"
  | VInt z => pretty z
  | VStr s => s
  | _ => "<object>"
  end.

Definition exn_str (e : Exn) : string :=
  match e with
  | KeyError => "KeyError"
  | IndexError => "IndexError"
  | TypeError => "TypeError"
  | AttributeError => "AttributeError"
  | AssertionError => "AssertionError"
  | RuntimeError msg => msg
  | NotImplementedError msg => msg
  | FileNotFoundError msg => msg
  | ModuleNotFoundError => "ModuleNotFoundError"
  | UnpicklingError => "UnpicklingError"
  | SystemExit => ""
  end.

(** ** [CheckPointMixin] *)

Section CheckPointMixin.
Context `{Helpers}.

(** [generate_state_dict]: the loop of the multi-stage branch,
    [for i in range(len(model)): ...], started at stage [i]. *)
Fixpoint generate_model_entries (use_dist_ckpt : bool) (i : nat)
    (stages : list Module) (state_dict : gmap string Value)
  : M (gmap string Value) :=
  match stages with
  | [] => ret state_dict
  | m :: rest =>
      set_virtual_pipeline_model_parallel_rank i ;;;
      generate_model_entries use_dist_ckpt (S i) rest
        (<["model" +:+ pretty i :=
             if use_dist_ckpt then sharded_state_dict m
             else state_dict_for_save_checkpoint m]> state_dict)
  end.

(** [CheckPointMixin.generate_state_dict(args, model, optimizer,
    opt_param_scheduler, rng_state, use_dist_ckpt, iteration, sampler,
    optim_sd_kwargs)]; [sampler] is unused by the source. *)
Definition generate_state_dict (args : Args) (model : ModelArg)
    (optimizer : option Optimizer) (opt_param_scheduler : option Value)
    (rng_state : Value) (use_dist_ckpt : bool) (iteration : option Z)
    (optim_sd_kwargs : option (gmap string Value))
  : M (gmap string Value) :=
  let state_dict : gmap string Value := ∅ in
  let state_dict := <["args" := VArgs args]> state_dict in
  let state_dict := <["checkpoint_version" := VFloat 3 1]> state_dict in
  let state_dict :=
    match iteration with
    | Some i => <["iteration" := VInt i]> state_dict
    | None => state_dict
    end in
  let* state_dict :=
    match model with
    | OneModule _ => raise TypeError          (* len(model) *)
    | ModuleList stages =>
        if Nat.eqb (length stages) 1 then
          match stages !! 0%nat with
          | Some m0 =>
              ret (<["model" :=
                       if use_dist_ckpt then sharded_state_dict m0
                       else state_dict_for_save_checkpoint m0]> state_dict)
          | None => raise IndexError
          end
        else generate_model_entries use_dist_ckpt 0 stages state_dict
    end in
  let state_dict :=
    if negb (a_no_save_optim args) then
      let state_dict :=
        match optimizer with
        | Some o =>
            if negb (a_use_zero2 args) then
              <["optimizer" :=
                  if use_dist_ckpt
                  then VSharded (opt_state o) (default ∅ optim_sd_kwargs)
                  else opt_state o]> state_dict
            else state_dict
        | None => state_dict
        end in
      match opt_param_scheduler with
      | Some s => <["opt_param_scheduler" := s]> state_dict
      | None => state_dict
      end
    else state_dict in
  let state_dict :=
    if negb (a_no_save_rng args)
    then <["rng_state" := rng_state]> state_dict
    else state_dict in
  ret state_dict.

(** [get_zero2_optimizer_checkpoint_name(model_checkpoint_name, dp_rank, cp_rank)] *)
Definition get_zero2_optimizer_checkpoint_name (model_checkpoint_name : string)
    (dp_rank cp_rank : nat) : string :=
  path_join (dirname model_checkpoint_name)
    ("zero2_optim_dp" +:+ pretty dp_rank +:+ "_cp" +:+ pretty cp_rank +:+ ".pt").

(** [zero2_optimizer_save(optimizer, optim_checkpoint_name)] *)
Definition zero2_optimizer_save (optim_checkpoint_name : string) : M unit :=
  let* w := get_world in
  match w_optimizer w with
  | Some o => torch_save (opt_state o) optim_checkpoint_name
  | None => raise AttributeError
  end.

(** [save_checkpoint], lines 56-111: everything up to and including the
    write of the record. *)
Definition save_state (iteration : Z)
    (num_floating_point_operations_so_far : Value) : M unit :=
  let* args := get_args in
  let* proc := get_proc in
  let* w0 := get_world in
  let optimizer := w_optimizer w0 in
  let opt_param_scheduler := w_scheduler w0 in
  let model := unwrap_model (w_model w0) ALL_MODULE_WRAPPER_CLASSNAMES in
  let ckpt_format :=
    if a_use_dist_ckpt args then a_dist_ckpt_format args else "torch" in
  print_rank_0 ("saving checkpoint at iteration " +:+ fmt_7d iteration +:+
                " to " +:+ a_save args +:+ " in " +:+ ckpt_format +:+ " format") ;;;
  let rng_state := get_rng_state (a_use_dist_ckpt args) w0 in
  let checkpoint_name :=
    get_checkpoint_name proc (a_save args) iteration false (a_use_dist_ckpt args) in
  (if a_use_distributed_optimizer args && negb (a_no_save_optim args)
      && bool_decide (is_Some optimizer) && negb (a_use_dist_ckpt args)
   then
     let optim_checkpoint_name :=
       get_distributed_optimizer_checkpoint_name checkpoint_name in
     ensure_directory_exists optim_checkpoint_name true ;;;
     optimizer_save_parameter_state optim_checkpoint_name
   else ret tt) ;;;
  (if a_use_zero2 args && negb (a_no_save_optim args)
      && bool_decide (is_Some optimizer)
   then
     let dp_rank := p_dp_rank proc in
     let cp_rank := p_cp_rank proc in
     let optim_checkpoint_name :=
       get_zero2_optimizer_checkpoint_name checkpoint_name dp_rank cp_rank in
     ensure_directory_exists optim_checkpoint_name true ;;;
     zero2_optimizer_save optim_checkpoint_name
   else ret tt) ;;;
  (if negb (p_initialized proc) || Z.eqb (p_dmep_rank proc) 0
      || a_use_dist_ckpt args
   then
     let* optim_sd_kwargs :=
       if a_use_dist_ckpt args && a_use_distributed_optimizer args then
         let sharding_type :=
           if a_ckpt_fully_parallel_save args
           then "fully_sharded_bucket_space" else "dp_zero_gather_scatter" in
         print_rank_0 ("Storing distributed optimizer sharded state of type "
                       +:+ sharding_type) ;;;
         ret (<["sharding_type" := VStr sharding_type]> (∅ : gmap string Value))
       else ret ∅ in
     let* state_dict :=
       generate_state_dict args model optimizer opt_param_scheduler rng_state
         (a_use_dist_ckpt args) (Some iteration) (Some optim_sd_kwargs) in
     let state_dict :=
       <["num_floating_point_operations_so_far" :=
           num_floating_point_operations_so_far]> state_dict in
     if a_use_dist_ckpt args then
       (if negb (p_initialized proc) || Z.eqb (p_rank proc) 0
        then ensure_directory_exists checkpoint_name false
        else ret tt) ;;;
       dist_checkpointing_save (VDict state_dict) checkpoint_name
     else
       ensure_directory_exists checkpoint_name true ;;;
       torch_save (VDict state_dict) checkpoint_name
   else ret tt).

(** [save_checkpoint], lines 113-129: the barrier, the tracker update and
    the second barrier. *)
Definition save_sync (iteration : Z) : M unit :=
  let* args := get_args in
  let* proc := get_proc in
  (* Wait so everyone is done (necessary) *)
  (if p_initialized proc then barrier else ret tt) ;;;
  print_rank_0 ("  successfully saved checkpoint at iteration "
                +:+ fmt_7d iteration +:+ " to " +:+ a_save args) ;;;
  (* And update the latest iteration *)
  (if negb (p_initialized proc) || Z.eqb (p_rank proc) 0 then
     let tracker_filename := get_checkpoint_tracker_filename (a_save args) in
     write_text tracker_filename (pretty iteration)
   else ret tt) ;;;
  (* Wait so everyone is done (not necessary) *)
  (if p_initialized proc then barrier else ret tt).

(** [save_checkpoint(iteration, model, optimizer, opt_param_scheduler,
    num_floating_point_operations_so_far)] *)
Definition save_checkpoint (iteration : Z)
    (num_floating_point_operations_so_far : Value) : M unit :=
  save_state iteration num_floating_point_operations_so_far ;;;
  save_sync iteration.

(** *** The Zero2 load path *)

(** The loop of [load_zero2_optimizer]:
    [for path in optimizer_state_dict_names: optimizer_state_list.append(torch.load(path))] *)
Fixpoint load_optimizer_state_list (optimizer_state_dict_names : list string)
  : M (list Value) :=
  match optimizer_state_dict_names with
  | [] => ret []
  | path :: rest =>
      let* optim_dict := torch_load path in
      let* tail := load_optimizer_state_list rest in
      ret (optim_dict :: tail)
  end.

(** [load_zero2_optimizer(optimizer_state_dict_names, state_dict)]; the
    source mutates [state_dict], the embedding returns the updated record. *)
Definition load_zero2_optimizer (optimizer_state_dict_names : list string)
    (state_dict : Value) : M Value :=
  let* optimizer_state_list :=
    load_optimizer_state_list optimizer_state_dict_names in
  lift (setitem state_dict "optimizer" (VList optimizer_state_list)).

(** The three aliases the [except ModuleNotFoundError] clause installs. *)
Definition legacy_aliases : list (string * string) :=
  [ ("fp16.loss_scaler", "megatron.legacy.fp16_deprecated.loss_scaler");
    ("megatron.fp16.loss_scaler", "megatron.legacy.fp16_deprecated.loss_scaler");
    ("megatron.model", "megatron.legacy.model") ].

(** [_load_zero2_checkpoint(load_dir, checkpoint_step=None)] *)
Definition _load_zero2_checkpoint (load_dir : string) (checkpoint_step : option Z)
  : M (Value * string * bool) :=
  let tracker_filename := get_checkpoint_tracker_filename load_dir in
  let* tracker_is_file := isfile tracker_filename in
  if negb tracker_is_file then
    print_rank_0 ("WARNING: could not find the metadata file "
                  +:+ tracker_filename +:+ " ") ;;;
    print_rank_0 "    will not load any checkpoints and will start from random" ;;;
    ret (VNone, "", false)
  else
    let* (iteration, release) :=
      match checkpoint_step with
      | Some step => ret (step, false)
      | None => read_metadata tracker_filename
      end in
    let* proc := get_proc in
    let checkpoint_name := get_checkpoint_name proc load_dir iteration release true in
    let* is_dist_ckpt := check_is_distributed_checkpoint checkpoint_name in
    py_assert (negb is_dist_ckpt) ;;;
    let model_checkpoint_name :=
      get_checkpoint_name proc load_dir iteration release false in
    let optimizer_state_dict_names :=
      get_zero2_checkpoint_names proc load_dir iteration release in
    let dist_infix := if is_dist_ckpt then "distributed " else "" in
    (if release then
       print_rank_0 (" loading release " +:+ dist_infix +:+ "checkpoint from "
                     +:+ load_dir)
     else
       print_rank_0 (" loading " +:+ dist_infix +:+ "checkpoint from " +:+ load_dir
                     +:+ " at iteration " +:+ pretty iteration)) ;;;
    let* state_dict :=
      try_except
        (let* state_dict := torch_load model_checkpoint_name in
         load_zero2_optimizer optimizer_state_dict_names state_dict)
        (λ e,
          match e with
          | ModuleNotFoundError => Some (
              alias_module "fp16.loss_scaler"
                "megatron.legacy.fp16_deprecated.loss_scaler" ;;;
              alias_module "megatron.fp16.loss_scaler"
                "megatron.legacy.fp16_deprecated.loss_scaler" ;;;
              alias_module "megatron.model" "megatron.legacy.model" ;;;
              let* state_dict := torch_load model_checkpoint_name in
              let* state_dict :=
                load_zero2_optimizer optimizer_state_dict_names state_dict in
              pop_module "fp16.loss_scaler" ;;;
              pop_module "megatron.fp16.loss_scaler" ;;;
              pop_module "megatron.model" ;;;
              ret state_dict)
          | _ => Some (
              print_rank_0 "could not load the checkpoint" ;;;
              print_rank_0 (exn_str e) ;;;
              sys_exit)
          end) in
    ret (state_dict, checkpoint_name, release).

(** *** [load_checkpoint], stage by stage *)

(** Lines 137-147: the load directory and the finetune fallback.
    [load_arg] names the attribute of [args] that holds the directory; it is
    the corresponding projection here (['load'] by default). *)
Definition resolve_load_dir (load_arg : Args → string) : M string :=
  let* args := get_args in
  let load_dir := load_arg args in
  match a_pretrained_checkpoint args with
  | Some pretrained_dir =>
      let* w := get_world in
      if negb (checkpoint_exists load_dir w) then
        print_rank_0 ("Checkpoint file not found in load directory " +:+ load_dir
                      +:+ " attempting to finetune with checkpoint in "
                      +:+ pretrained_dir) ;;;
        let load_dir := pretrained_dir in
        if negb (checkpoint_exists load_dir w) then
          raise (FileNotFoundError
                   "No checkpoint found in load directory or pretrained directory")
        else
          modify (λ w, with_args (set_finetune (w_args w) true) w) ;;;
          ret load_dir
      else ret load_dir
  | None => ret load_dir
  end.

(** [(state_dict['args'].tensor_model_parallel_size,
      state_dict['args'].pipeline_model_parallel_size)] *)
Definition ckpt_tp_pp_of (ckpt_args : Value) : Exn + (Z * Z) :=
  match ckpt_args with
  | VArgs a => inr (a_tensor_model_parallel_size a, a_pipeline_model_parallel_size a)
  | _ => inl AttributeError
  end.

(** [getattr(ckpt_args, name, False)] for a boolean attribute *)
Definition getattr_bool (proj : Args → bool) (ckpt_args : Value) : bool :=
  match ckpt_args with
  | VArgs a => proj a
  | _ => false
  end.

(** [getattr(ckpt_args, name, 0)] for an integer attribute *)
Definition getattr_int (proj : Args → Z) (ckpt_args : Value) : Z :=
  match ckpt_args with
  | VArgs a => proj a
  | _ => 0
  end.

Definition pair_eqb (p q : Z * Z) : bool :=
  Z.eqb (fst p) (fst q) && Z.eqb (snd p) (snd q).

Definition mismatch_msg (ckpt_tp_pp run_tp_pp : Z * Z) : string :=
  "(TP, PP) mismatch after resume (" +:+ fmt_pair ckpt_tp_pp +:+ " vs "
  +:+ fmt_pair run_tp_pp +:+ " from checkpoint)".

(** Lines 152-179: the format gate.  Returns [load_kwargs] and
    [is_dist_ckpt]. *)
Definition format_gate (load_dir : string) : M (LoadKwargs * bool) :=
  let* args := get_args in
  if a_auto_detect_ckpt_format args || a_use_dist_ckpt args then
    let* (state_dict, checkpoint_name, release) :=
      _load_base_checkpoint load_dir true
        (mkLoadKwargs None (Some (a_exit_on_missing_checkpoint args))) in
    let* is_dist_ckpt := check_is_distributed_checkpoint checkpoint_name in
    if is_dist_ckpt then
      let* ckpt_args := lift (getitem state_dict "args") in
      let* ckpt_tp_pp := lift (ckpt_tp_pp_of ckpt_args) in
      let* w1 := get_world in
      let args := w_args w1 in
      let proc := w_proc w1 in
      let model := unwrap_model (w_model w1) ALL_MODULE_WRAPPER_CLASSNAMES in
      let run_tp_pp := (p_tp_world proc, p_pp_world proc) in
      let msg := mismatch_msg ckpt_tp_pp run_tp_pp in
      let* rng_state :=
        if pair_eqb ckpt_tp_pp run_tp_pp && negb (getattr_bool a_no_save_rng ckpt_args)
        then ret (get_rng_state true w1)
        else print_rank_0 (msg +:+ ": RNG state will be ignored") ;;; ret VNone in
      if negb (pair_eqb ckpt_tp_pp run_tp_pp) && negb release
         && negb (a_finetune args) && negb (a_no_load_optim args)
         && a_use_distributed_optimizer args
      then raise (RuntimeError (msg +:+ ": not supported for DistributedOptimizer"))
      else
        let optim_sd_kwargs : gmap string Value := {[ "is_loading" := VBool true ]} in
        let optim_sd_kwargs :=
          if a_use_distributed_optimizer args then
            <["sharding_type" :=
                VStr (if getattr_bool a_ckpt_fully_parallel_save ckpt_args
                      then "fully_sharded_bucket_space"
                      else "dp_zero_gather_scatter")]> optim_sd_kwargs
          else optim_sd_kwargs in
        let* sharded :=
          generate_state_dict args model (w_optimizer w1) (w_scheduler w1)
            rng_state (a_use_dist_ckpt args) None (Some optim_sd_kwargs) in
        ret (mkLoadKwargs (Some sharded) (Some (a_exit_on_missing_checkpoint args)),
             true)
    else ret (no_kwargs, false)
  else ret (no_kwargs, false).

(** Lines 181-184: reading the record.  [_load_zero2_checkpoint] accepts no
    keyword other than [checkpoint_step], so a non-empty [load_kwargs] is a
    [TypeError] at the call. *)
Definition read_record (load_dir : string) (load_kwargs : LoadKwargs)
  : M (Value * string * bool) :=
  let* args := get_args in
  if a_use_zero2 args then
    match kw_sharded_state_dict load_kwargs, kw_exit_on_missing_checkpoint load_kwargs with
    | None, None => _load_zero2_checkpoint load_dir None
    | _, _ => raise TypeError
    end
  else _load_base_checkpoint load_dir false load_kwargs.

(** The two guidance messages of the fatal exits. *)
Definition optimizer_guidance (checkpoint_name : string) : string :=
  "Unable to load optimizer from checkpoint " +:+ checkpoint_name +:+ ". "
  +:+ "Specify --no-load-optim or --finetune to prevent "
  +:+ "attempting to load the optimizer state, "
  +:+ "exiting ...".

Definition rng_guidance (checkpoint_name : string) : string :=
  "Unable to load rng state from checkpoint " +:+ checkpoint_name +:+ ". "
  +:+ "Specify --no-load-rng or --finetune to prevent "
  +:+ "attempting to load the rng state, "
  +:+ "exiting ...".

(** [except KeyError: print_rank_0(msg); sys.exit()] *)
Definition on_KeyError_exit {A} (msg : string) (e : Exn) : option (M A) :=
  match e with
  | KeyError => Some (print_rank_0 msg ;;; sys_exit)
  | _ => None
  end.

(** Lines 194-206: set iteration. *)
Definition set_iteration (state_dict : Value) (checkpoint_name : string)
    (release : bool) : M Value :=
  let* args := get_args in
  if a_finetune args || release then ret (VInt 0)
  else
    try_except (lift (getitem state_dict "iteration"))
      (λ e,
        match e with
        | KeyError => Some (
            (* Backward compatible with older checkpoints *)
            try_except (lift (getitem state_dict "total_iters"))
              (on_KeyError_exit
                 ("A metadata file exists but unable to load "
                  +:+ "iteration from checkpoint " +:+ checkpoint_name
                  +:+ ", exiting")))
        | _ => None
        end).

(** Lines 209-221: check arguments. *)
Definition check_arguments (state_dict : Value) : M unit :=
  let* args := get_args in
  py_assert (Z.eqb (a_consumed_train_samples args) 0) ;;;
  py_assert (Z.eqb (a_consumed_valid_samples args) 0) ;;;
  let* has_args := lift (contains state_dict "args") in
  if has_args && negb (a_finetune args) then
    let* checkpoint_args := lift (getitem state_dict "args") in
    modify (λ w, with_args
      (set_consumed_train_samples (w_args w)
         (getattr_int a_consumed_train_samples checkpoint_args)) w) ;;;
    let* args := get_args in
    update_num_microbatches (a_consumed_train_samples args) ;;;
    modify (λ w, with_args
      (set_consumed_valid_samples (w_args w)
         (getattr_int a_consumed_valid_samples checkpoint_args)) w)
  else print_rank_0 "could not find arguments in the checkpoint ...".

(** Lines 223-265: model weights. *)
Definition restore_model (state_dict : Value) (strict : bool) : M unit :=
  let* args := get_args in
  let strict := if a_retro_add_retriever args then false else strict in
  if a_lora args then raise (NotImplementedError "Lora not implement yet")
  else
    let* w := get_world in
    match unwrap_model (w_model w) ALL_MODULE_WRAPPER_CLASSNAMES with
    | OneModule _ => raise TypeError          (* len(model) *)
    | ModuleList stages =>
        if Nat.eqb (length stages) 1 then
          let* v := lift (getitem state_dict "model") in
          model_load_state_dict 0 v strict
        else
          for_each (seq 0 (length stages)) (λ i,
            set_virtual_pipeline_model_parallel_rank i ;;;
            let* v := lift (getitem state_dict ("model" +:+ pretty i)) in
            model_load_state_dict i v strict)
    end.

(** Lines 272-308: optimizer and scheduler.  The distributed-optimizer
    branch assigns the locals [iteration] and [release] again from the
    tracker file, so both are returned. *)
Definition restore_optimizer (state_dict : Value) (load_dir checkpoint_name : string)
    (is_dist_ckpt : bool) (iteration : Value) (release : bool)
  : M (Value * bool) :=
  let* args := get_args in
  let* w := get_world in
  if negb release && negb (a_finetune args) && negb (a_no_load_optim args) then
    try_except
      ((* Load state dict. *)
       (match w_optimizer w with
        | Some _ =>
            let* v := lift (getitem state_dict "optimizer") in
            optimizer_load_state_dict v
        | None => ret tt
        end) ;;;
       (* Load distributed optimizer's custom parameter state. *)
       let* (iteration, release) :=
         if a_use_distributed_optimizer args && negb is_dist_ckpt then
           let tracker_filename := get_checkpoint_tracker_filename load_dir in
           let* (iteration, release) := read_metadata tracker_filename in
           let* proc := get_proc in
           let model_checkpoint_name :=
             get_checkpoint_name proc load_dir iteration release false in
           let optim_checkpoint_name :=
             get_distributed_optimizer_checkpoint_name model_checkpoint_name in
           optimizer_load_parameter_state optim_checkpoint_name ;;;
           ret (VInt iteration, release)
         else ret (iteration, release) in
       (* Load scheduler. *)
       (match w_scheduler w with
        | Some _ =>
            let* has_lr := lift (contains state_dict "lr_scheduler") in
            if has_lr then
              let* v := lift (getitem state_dict "lr_scheduler") in
              scheduler_load_state_dict v
            else
              let* v := lift (getitem state_dict "opt_param_scheduler") in
              scheduler_load_state_dict v
        | None => ret tt
        end) ;;;
       ret (iteration, release))
      (on_KeyError_exit (optimizer_guidance checkpoint_name))
  else
    (if (a_fp16 args || a_bf16 args) && bool_decide (is_Some (w_optimizer w))
     then optimizer_reload_model_params
     else ret tt) ;;;
    ret (iteration, release).

(** The five assignments of one branch of RNG restoration, reading the keys
    from [source] ([rng_state] or, for older checkpoints, [state_dict]). *)
Definition set_rng_from (source : Value) : M unit :=
  let* v := lift (getitem source "random_rng_state") in
  random_setstate v ;;;
  let* v := lift (getitem source "np_rng_state") in
  np_random_set_state v ;;;
  let* v := lift (getitem source "torch_rng_state") in
  torch_set_rng_state v ;;;
  let* v := lift (getitem source "cuda_rng_state") in
  torch_cuda_set_rng_state v ;;;
  (* Check for empty states array *)
  let* states := lift (getitem source "rng_tracker_states") in
  if negb (truthy states) then raise KeyError
  else
    let* states := lift (getitem source "rng_tracker_states") in
    cuda_rng_tracker_set_states states.

(** Lines 310-343: rng states. *)
Definition restore_rng (state_dict : Value) (checkpoint_name : string)
    (release : bool) : M unit :=
  let* args := get_args in
  if negb release && negb (a_finetune args) && negb (a_no_load_rng args) then
    try_except
      (let* has_rng := lift (contains state_dict "rng_state") in
       if has_rng then
         (* access rng_state for data parallel rank *)
         let* rng_states := lift (getitem state_dict "rng_state") in
         let* proc := get_proc in
         let* rng_state :=
           if a_data_parallel_random_init args
           then lift (getindex rng_states (p_dp_rank proc))
           else lift (getindex rng_states 0) in
         set_rng_from rng_state
       else (* backward compatability *)
         set_rng_from state_dict)
      (on_KeyError_exit (rng_guidance checkpoint_name))
  else ret tt.

(** Lines 349-358: the trailing barrier and message. *)
Definition finish_load (load_dir : string) (iteration : Value) : M unit :=
  let* proc := get_proc in
  (if p_initialized proc then barrier else ret tt) ;;;
  print_rank_0 ("  successfully loaded checkpoint from " +:+ load_dir +:+ " "
                +:+ "[ t " +:+ pretty (p_tp_rank proc) +:+ ", "
                +:+ "p " +:+ pretty (p_pp_rank proc) +:+ " ] "
                +:+ "at iteration " +:+ py_str iteration).

(** Lines 137-184: everything up to and including the read of the record. *)
Definition load_record (load_arg : Args → string)
  : M (string * bool * (Value * string * bool)) :=
  let* load_dir := resolve_load_dir load_arg in
  let* (load_kwargs, is_dist_ckpt) := format_gate load_dir in
  let* loaded := read_record load_dir load_kwargs in
  ret (load_dir, is_dist_ckpt, loaded).

(** Lines 191-308: from a record that is not [None] up to the optimizer. *)
Definition restore_state (load_dir : string) (is_dist_ckpt : bool)
    (state_dict : Value) (checkpoint_name : string) (release strict : bool)
  : M (Value * bool * Value) :=
  let* iteration := set_iteration state_dict checkpoint_name release in
  let* num_floating_point_operations_so_far :=
    lift (dict_get state_dict "num_floating_point_operations_so_far" (VInt 0)) in
  check_arguments state_dict ;;;
  restore_model state_dict strict ;;;
  let* (iteration, release) :=
    restore_optimizer state_dict load_dir checkpoint_name is_dist_ckpt
      iteration release in
  ret (iteration, release, num_floating_point_operations_so_far).

(** [load_checkpoint(model, optimizer, opt_param_scheduler, load_arg='load',
    strict=True)] *)
Definition load_checkpoint (load_arg : Args → string) (strict : bool)
  : M (Value * Value) :=
  let* (load_dir, is_dist_ckpt, (state_dict, checkpoint_name, release)) :=
    load_record load_arg in
  (* Checkpoint not loaded. *)
  match state_dict with
  | VNone => ret (VInt 0, VInt 0)
  | _ =>
      let* (iteration, release, num_floating_point_operations_so_far) :=
        restore_state load_dir is_dist_ckpt state_dict checkpoint_name
          release strict in
      restore_rng state_dict checkpoint_name release ;;;
      finish_load load_dir iteration ;;;
      ret (iteration, num_floating_point_operations_so_far)
  end.

End CheckPointMixin.

(** ** The helpers as the spec describes them

    The definitions of this part stand for the functions of [.utils], which
    are not among the sources.  They give the embedding above one concrete
    implementation to run on; the theorems below that quantify over
    [Helpers] do not depend on them. *)

Module SpecHelpers.

(** Modelled from the spec: [get_checkpoint_tracker_filename] is missing;
    section 6 gives the layout [<root>/latest_checkpointed_iteration.txt]. *)
Definition tracker_filename (checkpoints_path : string) : string :=
  path_join checkpoints_path "latest_checkpointed_iteration.txt".

(** Modelled from the spec: [get_checkpoint_name] is missing; sections 4.1
    and 6 have it produce [<root>/iter_<N>] (or the release directory) as the
    base directory of a sharded checkpoint and, for the monolithic format, a
    per-stage model file inside that directory, named here after the
    tensor- and pipeline-parallel ranks of the process. *)
Definition checkpoint_name (proc : Proc) (checkpoints_path : string)
    (iteration : Z) (release return_base_dir : bool) : string :=
  let directory := if release then "release" else "iter_" +:+ pretty iteration in
  let common_path := path_join checkpoints_path directory in
  if return_base_dir then common_path
  else path_join common_path
         ("model_tp" +:+ pretty (p_tp_rank proc) +:+ "_pp"
          +:+ pretty (p_pp_rank proc) +:+ ".pt").

(** Modelled from the spec: [get_checkpoint_name(..., use_zero2=True)] is
    missing; sections 4.1 and 8 have one Zero2 optimizer shard per
    (data-parallel rank, context-parallel rank), siblings of the model file,
    read back "in a deterministic (dp, cp) order". *)
Definition zero2_shard_names (dp_world cp_world : nat)
    (model_checkpoint_name : string) : list string :=
  dp_rank ← seq 0 dp_world;
  cp_rank ← seq 0 cp_world;
  [get_zero2_optimizer_checkpoint_name model_checkpoint_name dp_rank cp_rank].

Definition zero2_checkpoint_names (proc : Proc) (checkpoints_path : string)
    (iteration : Z) (release : bool) : list string :=
  zero2_shard_names (p_dp_world proc) (p_cp_world proc)
    (checkpoint_name proc checkpoints_path iteration release false).

(** Modelled from the spec: [get_distributed_optimizer_checkpoint_name] is
    missing; section 6 gives [<root>/iter_<N>/distrib_optim.pt], a sibling of
    the model file. *)
Definition distributed_optimizer_checkpoint_name (model_checkpoint_name : string)
  : string :=
  path_join (dirname model_checkpoint_name) "distrib_optim.pt".

(** Modelled from the spec: the [RngSnapshot] of section 3, "composite of
    independent generator states", under the keys [load_checkpoint] reads. *)
Definition rng_snapshot (r : RngState) : Value :=
  VDict (<["random_rng_state" := random_rng_state r]>
        (<["np_rng_state" := np_rng_state r]>
        (<["torch_rng_state" := torch_rng_state r]>
        (<["cuda_rng_state" := cuda_rng_state r]>
        (<["rng_tracker_states" := rng_tracker_states r]> ∅))))).

(** Modelled from the spec: [get_rng_state] is missing; section 4.2 has
    [capture] gather "every generator state ... from the current process"
    and return "a single per-process snapshot" under the sharded-format
    policy, "otherwise an array".  The array holds the snapshot of this
    process; the sharded variant is its shard descriptor. *)
Definition capture_rng_state (use_dist_ckpt : bool) (w : World) : Value :=
  let rng_state_list := VList [rng_snapshot (w_rng w)] in
  if use_dist_ckpt then VSharded rng_state_list ∅ else rng_state_list.

(** Decimal digits of a tracker file. *)
Definition digit_of (c : ascii) : option Z :=
  let n := Z.of_nat (nat_of_ascii c) in
  if (48 <=? n) && (n <=? 57) then Some (n - 48) else None.

Fixpoint parse_digits (s : string) (acc : Z) : option Z :=
  match s with
  | EmptyString => Some acc
  | String c r =>
      match digit_of c with
      | Some d => parse_digits r (10 * acc + d)
      | None => None
      end
  end.

Definition parse_int (s : string) : option Z :=
  match s with
  | EmptyString => None
  | String "-"%char (String c r) => Z.opp <$> parse_digits (String c r) 0
  | _ => parse_digits s 0
  end.

(** Modelled from the spec: [read_metadata] is missing; section 4.1 has the
    tracker read "parse an integer or the literal release token" and fail
    with [MalformedTrackerError] (fatal) "on any other content". *)
Definition read_tracker (tracker_filename : string) : M (Z * bool) :=
  let* w := get_world in
  match w_fs w !! tracker_filename with
  | Some (FText content) =>
      match parse_int content with
      | Some iteration => ret (iteration, false)
      | None =>
          if String.eqb content "release" then ret (0, true)
          else
            print_rank_0 ("ERROR: Invalid metadata file " +:+ tracker_filename
                          +:+ ". Exiting") ;;;
            sys_exit
      end
  | _ => raise (FileNotFoundError tracker_filename)
  end.

(** Modelled from the spec: [checkpoint_exists] is missing; a directory
    "has a checkpoint" (section 4.5, Resolving) when its tracker file is
    there. *)
Definition has_checkpoint (checkpoints_path : string) (w : World) : bool :=
  match w_fs w !! tracker_filename checkpoints_path with
  | Some (FText _) => true
  | _ => false
  end.

(** A shard descriptor resolved to what it describes. *)
Definition unshard (v : Value) : Value :=
  match v with
  | VSharded payload _ => payload
  | _ => v
  end.

(** Modelled from the spec: the deserialization of a monolithic file with
    the legacy aliases of section 4.4 installed "for the duration of the
    deserialization call" and removed "even if deserialization fails". *)
Definition load_with_legacy_aliases (path : string) : M Value :=
  try_except (torch_load path)
    (λ e,
      match e with
      | ModuleNotFoundError => Some (
          for_each legacy_aliases (λ '(alias, target), alias_module alias target) ;;;
          λ w,
            let remove := for_each legacy_aliases (λ '(alias, _), pop_module alias) in
            match torch_load path w with
            | Ok v w' => (remove ;;; ret v) w'
            | Raise e' w' => (remove ;;; raise e') w'
            end)
      | _ => Some (
          print_rank_0 "could not load the checkpoint" ;;;
          print_rank_0 (exn_str e) ;;;
          sys_exit)
      end).

(** Modelled from the spec: [_load_base_checkpoint] is missing; section 4.5
    has it read the tracker, resolve the checkpoint (classified by 4.4) and
    "read the full record", [rank0] being the peek of the format gate.  A
    missing tracker is reported as in the Zero2 variant of the sources; the
    spec gives no meaning to the keyword [exit_on_missing_checkpoint], which
    is accepted and ignored.  A sharded record is returned with its
    descriptors resolved. *)
Definition load_base_checkpoint (load_dir : string) (rank0 : bool)
    (kwargs : LoadKwargs) : M (Value * string * bool) :=
  let tracker := tracker_filename load_dir in
  let* tracker_is_file := isfile tracker in
  if negb tracker_is_file then
    (if negb rank0 then
       print_rank_0 ("WARNING: could not find the metadata file "
                     +:+ tracker +:+ " ") ;;;
       print_rank_0 "    will not load any checkpoints and will start from random"
     else ret tt) ;;;
    ret (VNone, "", false)
  else
    let* (iteration, release) := read_tracker tracker in
    let* proc := get_proc in
    let base_dir := checkpoint_name proc load_dir iteration release true in
    let* w := get_world in
    match w_fs w !! base_dir with
    | Some (FDistCkpt (VDict d)) => ret (VDict (unshard <$> d), base_dir, release)
    | Some (FDistCkpt obj) => ret (obj, base_dir, release)
    | _ =>
        let model_checkpoint_name :=
          checkpoint_name proc load_dir iteration release false in
        let* state_dict := load_with_legacy_aliases model_checkpoint_name in
        ret (state_dict, model_checkpoint_name, release)
    end.

Definition helpers : Helpers := {|
  get_checkpoint_tracker_filename := tracker_filename;
  get_checkpoint_name := checkpoint_name;
  get_zero2_checkpoint_names := zero2_checkpoint_names;
  get_distributed_optimizer_checkpoint_name := distributed_optimizer_checkpoint_name;
  get_rng_state := capture_rng_state;
  read_metadata := read_tracker;
  checkpoint_exists := has_checkpoint;
  _load_base_checkpoint := load_base_checkpoint
|}.

End SpecHelpers.

(** ** Concrete runs

    Small worlds on which the embedding is evaluated. *)

Module Examples.

(** A configuration with every switch off, saving to and loading from
    [/ckpt]. *)
Definition plain_args : Args :=
  {| a_save := "/ckpt"; a_load := "/ckpt"; a_pretrained_checkpoint := None;
     a_use_dist_ckpt := false; a_dist_ckpt_format := "torch_dist";
     a_auto_detect_ckpt_format := false; a_exit_on_missing_checkpoint := false;
     a_ckpt_fully_parallel_save := false; a_use_distributed_optimizer := false;
     a_use_zero2 := false; a_no_save_optim := false; a_no_save_rng := false;
     a_no_load_optim := false; a_no_load_rng := false; a_finetune := false;
     a_data_parallel_random_init := false; a_consumed_train_samples := 0;
     a_consumed_valid_samples := 0; a_retro_add_retriever := false;
     a_lora := false; a_fp16 := false; a_bf16 := true;
     a_tensor_model_parallel_size := 1; a_pipeline_model_parallel_size := 1 |}.

(** [plain_args] with [no_save_optim] set. *)
Definition no_save_optim_args : Args :=
  {| a_save := "/ckpt"; a_load := "/ckpt"; a_pretrained_checkpoint := None;
     a_use_dist_ckpt := false; a_dist_ckpt_format := "torch_dist";
     a_auto_detect_ckpt_format := false; a_exit_on_missing_checkpoint := false;
     a_ckpt_fully_parallel_save := false; a_use_distributed_optimizer := false;
     a_use_zero2 := false; a_no_save_optim := true; a_no_save_rng := false;
     a_no_load_optim := false; a_no_load_rng := false; a_finetune := false;
     a_data_parallel_random_init := false; a_consumed_train_samples := 0;
     a_consumed_valid_samples := 0; a_retro_add_retriever := false;
     a_lora := false; a_fp16 := false; a_bf16 := true;
     a_tensor_model_parallel_size := 1; a_pipeline_model_parallel_size := 1 |}.

(** A sole process, distributed execution not initialized. *)
Definition sole_process : Proc :=
  {| p_initialized := false; p_rank := 0; p_dp_rank := 0; p_cp_rank := 0;
     p_dp_world := 1; p_cp_world := 1; p_dmep_rank := 0; p_tp_rank := 0;
     p_pp_rank := 0; p_tp_world := 1; p_pp_world := 1 |}.

Definition live_rng : RngState :=
  {| random_rng_state := VBlob 1; np_rng_state := VBlob 2;
     torch_rng_state := VBlob 3; cuda_rng_state := VBlob 4;
     rng_tracker_states := VDict {[ "model-parallel-rng" := VBlob 5 ]} |}.

Definition live_optimizer : Optimizer :=
  {| opt_state := VBlob 20; opt_param_state := VBlob 21; opt_reloads := 0 |}.

(** One stage, wrapped as the training loop wraps it. *)
Definition live_model : ModelArg :=
  ModuleList [Wrapped DDP (Wrapped Float16Module (Bare (VBlob 10)))].

(** A world with an empty checkpoint directory. *)
Definition fresh_world (args : Args) (proc : Proc) : World :=
  {| w_args := args; w_proc := proc; w_fs := ∅;
     w_modules := {[ "megatron.legacy.model" := "megatron.legacy.model";
                     "megatron.legacy.fp16_deprecated.loss_scaler" :=
                       "megatron.legacy.fp16_deprecated.loss_scaler" ]};
     w_rng := live_rng; w_model := live_model;
     w_optimizer := Some live_optimizer; w_scheduler := Some (VBlob 30);
     w_trace := [] |}.

End Examples.

(** ** Vocabulary of the statements *)

(** Keys of the multi-stage model entries, ['model%d' % i]. *)
Definition is_stage_key (k : string) : Prop := ∃ i : nat, k = "model" +:+ pretty i.

(** How a stage of the model enters the record. *)
Definition stage_entry (use_dist_ckpt : bool) (m : Module) : Value :=
  if use_dist_ckpt then sharded_state_dict m else state_dict_for_save_checkpoint m.

(** The world an outcome leaves behind. *)
Definition world_of {A} (o : Outcome A) : World :=
  match o with
  | Ok _ w => w
  | Raise _ w => w
  end.

(** [preserves R c]: whatever [c] does, returning or raising, the world it
    leaves is [R]-related to the world it started in. *)
Definition preserves (R : World → World → Prop) {A} (c : M A) : Prop :=
  ∀ w, R w (world_of (c w)).

(** The trace grew by events that all satisfy [Q]; [args] and the process
    group are as before. *)
Definition extends_trace (Q : Event → Prop) (w w' : World) : Prop :=
  ∃ evs, Forall Q evs
         ∧ w_trace w' = w_trace w ++ evs
         ∧ w_args w' = w_args w
         ∧ w_proc w' = w_proc w.

(** Events other than a barrier and a text-file (tracker) write. *)
Definition quiet_event (e : Event) : Prop :=
  match e with
  | EBarrier | EWriteText _ _ => False
  | _ => True
  end.

(** The events of the synchronisation part of [save_checkpoint], lines
    113-129, for a process [proc]. *)
Definition sync_events `{H : Helpers} (args : Args) (proc : Proc) (iteration : Z)
  : list Event :=
  let saved :=
    EPrint ("  successfully saved checkpoint at iteration "
            +:+ fmt_7d iteration +:+ " to " +:+ a_save args) in
  let tracker :=
    EWriteText (get_checkpoint_tracker_filename (a_save args)) (pretty iteration) in
  if p_initialized proc then
    [EBarrier; saved] ++ (if Z.eqb (p_rank proc) 0 then [tracker] else []) ++ [EBarrier]
  else [saved; tracker].

(** [torch.load(path)] returns [v] in world [w]. *)
Definition loads_as (w : World) (path : string) (v : Value) : Prop :=
  ∃ needs, w_fs w !! path = Some (FPickle v needs) ∧ resolvable w needs = true.

(** How [_load_zero2_checkpoint] obtains the iteration and the release flag:
    from [checkpoint_step] when given, else from [read_metadata]. *)
Definition resolves_step `{H : Helpers} (load_dir : string) (checkpoint_step : option Z)
    (w : World) (iteration : Z) (release : bool) (w1 : World) : Prop :=
  match checkpoint_step with
  | Some step => iteration = step ∧ release = false ∧ w1 = w
  | None =>
      read_metadata (get_checkpoint_tracker_filename load_dir) w
      = Ok (iteration, release) w1
  end.

Module Zero2Example.

(** Zero2 across 4 data-parallel and 2 context-parallel ranks, seen from
    global rank 0. *)
Definition args : Args :=
  {| a_save := "/ckpt"; a_load := "/ckpt"; a_pretrained_checkpoint := None;
     a_use_dist_ckpt := false; a_dist_ckpt_format := "torch_dist";
     a_auto_detect_ckpt_format := false; a_exit_on_missing_checkpoint := false;
     a_ckpt_fully_parallel_save := false; a_use_distributed_optimizer := false;
     a_use_zero2 := true; a_no_save_optim := false; a_no_save_rng := false;
     a_no_load_optim := false; a_no_load_rng := false; a_finetune := false;
     a_data_parallel_random_init := false; a_consumed_train_samples := 0;
     a_consumed_valid_samples := 0; a_retro_add_retriever := false;
     a_lora := false; a_fp16 := false; a_bf16 := true;
     a_tensor_model_parallel_size := 1; a_pipeline_model_parallel_size := 1 |}.

Definition proc : Proc :=
  {| p_initialized := true; p_rank := 0; p_dp_rank := 0; p_cp_rank := 0;
     p_dp_world := 4; p_cp_world := 2; p_dmep_rank := 0; p_tp_rank := 0;
     p_pp_rank := 0; p_tp_world := 1; p_pp_world := 1 |}.

Definition model_file : string :=
  SpecHelpers.checkpoint_name proc "/ckpt" 7 false false.

Definition shard_files : list string :=
  SpecHelpers.zero2_shard_names 4 2 model_file.

(** The shard of position [k] holds the blob [100 + k]. *)
Definition shards : list Value := map (λ k, VBlob (100 + Z.of_nat k)) (seq 0 8).

Definition record : gmap string Value :=
  {[ "iteration" := VInt 7; "model" := VBlob 10 ]}.

Definition files : gmap string File :=
  <[SpecHelpers.tracker_filename "/ckpt" := FText "7"]>
    (<[model_file := FPickle (VDict record) []]>
       (list_to_map (zip shard_files (map (λ v, FPickle v []) shards)))).

Definition world : World :=
  with_fs files (Examples.fresh_world args proc).

End Zero2Example.

Module LegacyExample.

(** A legacy monolithic checkpoint loaded in Zero2 mode.  Its model file
    refers to the old module path [fp16.loss_scaler], which only the
    compatibility aliases resolve. *)
Definition files_without_shards : gmap string File :=
  <[SpecHelpers.tracker_filename "/ckpt" := FText "7"]>
    (<[Zero2Example.model_file :=
         FPickle (VDict Zero2Example.record) ["fp16.loss_scaler"]]> ∅).

(** The same, the model file referring also to a module that no alias
    provides. *)
Definition files_unresolvable : gmap string File :=
  <[SpecHelpers.tracker_filename "/ckpt" := FText "7"]>
    (<[Zero2Example.model_file :=
         FPickle (VDict Zero2Example.record) ["fp16.loss_scaler"; "megatron.mpu_legacy"]]> ∅).

Definition world_without_shards : World :=
  with_fs files_without_shards
    (Examples.fresh_world Zero2Example.args Zero2Example.proc).

Definition world_unresolvable : World :=
  with_fs files_unresolvable
    (Examples.fresh_world Zero2Example.args Zero2Example.proc).

End LegacyExample.

(** The keys RNG restoration reads, in the order of the source. *)
Definition rng_keys : list string :=
  ["random_rng_state"; "np_rng_state"; "torch_rng_state"; "cuda_rng_state";
   "rng_tracker_states"].

(** The dictionary RNG restoration reads its keys from: the snapshot selected
    from ['rng_state'] when the record has that entry (indexed by the
    data-parallel rank under [data_parallel_random_init], else index 0), the
    record itself for older checkpoints. *)
Definition rng_source (args : Args) (proc : Proc) (sd : gmap string Value)
  : Exn + Value :=
  match sd !! "rng_state" with
  | Some rng_states =>
      if a_data_parallel_random_init args
      then getindex rng_states (p_dp_rank proc)
      else getindex rng_states 0
  | None => inr (VDict sd)
  end.

(** An RNG key is missing, or the tracker-states entry is there but empty
    (falsy). *)
Definition rng_defect (src : gmap string Value) : Prop :=
  (∃ k, k ∈ rng_keys ∧ src !! k = None)
  ∨ (∃ states, src !! "rng_tracker_states" = Some states ∧ truthy states = false).

(** [needle] occurs in [s]. *)
Definition mentions (s needle : string) : Prop :=
  ∃ before after, s = before +:+ needle +:+ after.

Module EmptyTrackerExample.

(** A process whose CUDA RNG tracker has no registered state. *)
Definition rng : RngState :=
  {| random_rng_state := VBlob 1; np_rng_state := VBlob 2;
     torch_rng_state := VBlob 3; cuda_rng_state := VBlob 4;
     rng_tracker_states := VDict ∅ |}.

Definition world : World :=
  with_rng rng (Examples.fresh_world Examples.plain_args Examples.sole_process).

(** The world after [save_checkpoint] at iteration 5. *)
Definition saved : World :=
  world_of (save_checkpoint (H := SpecHelpers.helpers) 5 (VInt 1000) world).

End EmptyTrackerExample.

Module MismatchExample.

(** A sharded checkpoint recorded with (tp=2, pp=2) under the distributed
    optimizer ... *)
Definition saved_args : Args :=
  {| a_save := "/ckpt"; a_load := "/ckpt"; a_pretrained_checkpoint := None;
     a_use_dist_ckpt := true; a_dist_ckpt_format := "torch_dist";
     a_auto_detect_ckpt_format := false; a_exit_on_missing_checkpoint := false;
     a_ckpt_fully_parallel_save := false; a_use_distributed_optimizer := true;
     a_use_zero2 := false; a_no_save_optim := false; a_no_save_rng := false;
     a_no_load_optim := false; a_no_load_rng := false; a_finetune := false;
     a_data_parallel_random_init := false; a_consumed_train_samples := 0;
     a_consumed_valid_samples := 0; a_retro_add_retriever := false;
     a_lora := false; a_fp16 := false; a_bf16 := true;
     a_tensor_model_parallel_size := 2; a_pipeline_model_parallel_size := 2 |}.

Definition saved_proc : Proc :=
  {| p_initialized := true; p_rank := 0; p_dp_rank := 0; p_cp_rank := 0;
     p_dp_world := 1; p_cp_world := 1; p_dmep_rank := 0; p_tp_rank := 0;
     p_pp_rank := 0; p_tp_world := 2; p_pp_world := 2 |}.

Definition saved : World :=
  world_of (save_checkpoint (H := SpecHelpers.helpers) 5 (VInt 1000)
              (Examples.fresh_world saved_args saved_proc)).

(** ... loaded into a live run configured (tp=4, pp=1), still with the
    distributed optimizer, neither release nor finetune; [suppress] sets
    [no_load_optim] and [no_load_rng]. *)
Definition live_args (suppress : bool) : Args :=
  {| a_save := "/ckpt"; a_load := "/ckpt"; a_pretrained_checkpoint := None;
     a_use_dist_ckpt := true; a_dist_ckpt_format := "torch_dist";
     a_auto_detect_ckpt_format := false; a_exit_on_missing_checkpoint := false;
     a_ckpt_fully_parallel_save := false; a_use_distributed_optimizer := true;
     a_use_zero2 := false; a_no_save_optim := false; a_no_save_rng := false;
     a_no_load_optim := suppress; a_no_load_rng := suppress; a_finetune := false;
     a_data_parallel_random_init := false; a_consumed_train_samples := 0;
     a_consumed_valid_samples := 0; a_retro_add_retriever := false;
     a_lora := false; a_fp16 := false; a_bf16 := true;
     a_tensor_model_parallel_size := 4; a_pipeline_model_parallel_size := 1 |}.

Definition live_proc : Proc :=
  {| p_initialized := true; p_rank := 0; p_dp_rank := 0; p_cp_rank := 0;
     p_dp_world := 1; p_cp_world := 1; p_dmep_rank := 0; p_tp_rank := 0;
     p_pp_rank := 0; p_tp_world := 4; p_pp_world := 1 |}.

Definition live (suppress : bool) : World :=
  with_fs (w_fs saved) (Examples.fresh_world (live_args suppress) live_proc).

(** The record the peek of the gate reads back. *)
Definition record : gmap string Value :=
  match w_fs saved !! "/ckpt/iter_5" with
  | Some (FDistCkpt (VDict d)) => SpecHelpers.unshard <$> d
  | _ => ∅
  end.

End MismatchExample.

(** [args] with both consumed-sample counters reset: two namespaces agree on
    every switch iff they agree after this. *)
Definition zero_counters (a : Args) : Args :=
  set_consumed_valid_samples (set_consumed_train_samples a 0) 0.

(** What optimizer, scheduler and RNG restoration would change is as
    before: the generators, the scheduler state, the optimizer's state and
    parameter state; the switches of [args] are as before too. *)
Definition untouched_restorables (w w' : World) : Prop :=
  w_rng w' = w_rng w
  ∧ w_scheduler w' = w_scheduler w
  ∧ (λ o, (opt_state o, opt_param_state o)) <$> w_optimizer w'
    = (λ o, (opt_state o, opt_param_state o)) <$> w_optimizer w
  ∧ zero_counters (w_args w') = zero_counters (w_args w).

(** The record has a model entry for every stage of the live model, under
    the key the stage count asks for. *)
Definition model_entries_present (model : ModelArg) (sd : gmap string Value) : Prop :=
  ∃ stages, model = ModuleList stages
    ∧ if Nat.eqb (length stages) 1 then is_Some (sd !! "model")
      else ∀ i : nat, (i < length stages)%nat → is_Some (sd !! ("model" +:+ pretty i)).

(** Everything but the live model and the trace is as before, and the model
    is still a list of as many stages. *)
Definition only_model_changed (w w' : World) : Prop :=
  w_args w' = w_args w ∧ w_proc w' = w_proc w ∧ w_fs w' = w_fs w
  ∧ w_modules w' = w_modules w ∧ w_rng w' = w_rng w
  ∧ w_optimizer w' = w_optimizer w ∧ w_scheduler w' = w_scheduler w
  ∧ (∃ evs, w_trace w' = w_trace w ++ evs)
  ∧ ∀ stages, w_model w = ModuleList stages →
      ∃ stages', w_model w' = ModuleList stages' ∧ length stages' = length stages.

(** Everything but the consumed-sample counters of [args] and the trace is
    as before. *)
Definition only_counters_changed (w w' : World) : Prop :=
  zero_counters (w_args w') = zero_counters (w_args w)
  ∧ w_proc w' = w_proc w ∧ w_fs w' = w_fs w
  ∧ w_modules w' = w_modules w ∧ w_rng w' = w_rng w
  ∧ w_model w' = w_model w
  ∧ w_optimizer w' = w_optimizer w ∧ w_scheduler w' = w_scheduler w
  ∧ ∃ evs, w_trace w' = w_trace w ++ evs.

(** The iteration the record gives: its ['iteration'] field, else the older
    ['total_iters']. *)
Definition record_iteration (sd : gmap string Value) : option Value :=
  match sd !! "iteration" with
  | Some v => Some v
  | None => sd !! "total_iters"
  end.

(** ** Vocabulary of the further properties *)

(** [save_checkpoint_and_time(iteration, model, optimizer,
    opt_param_scheduler, num_floating_point_operations_so_far)] *)
Definition save_checkpoint_and_time `{H : Helpers} (iteration : Z)
    (num_floating_point_operations_so_far : Value) : M unit :=
  save_checkpoint iteration num_floating_point_operations_so_far.



(** The keyword arguments [save_checkpoint] builds for the optimizer's
    [sharded_state_dict]. *)
Definition save_optim_sd_kwargs (args : Args) : gmap string Value :=
  if a_use_dist_ckpt args && a_use_distributed_optimizer args then
    {[ "sharding_type" :=
         VStr (if a_ckpt_fully_parallel_save args
               then "fully_sharded_bucket_space" else "dp_zero_gather_scatter") ]}
  else ∅.

(** [sd] is a record as [save_checkpoint] builds it in world [w] at
    [iteration]: the entries of [generate_state_dict] for the unwrapped
    stages, plus the FLOPs counter. *)
Definition is_saved_record `{H : Helpers} (w : World) (stages : list Module)
    (iteration : Z) (flops : Value) (sd : gmap string Value) : Prop :=
  let args := w_args w in
  let d := a_use_dist_ckpt args in
  let unwrapped := map (unwrap_module ALL_MODULE_WRAPPER_CLASSNAMES) stages in
  sd !! "args" = Some (VArgs args)
  ∧ sd !! "iteration" = Some (VInt iteration)
  ∧ sd !! "total_iters" = None
  ∧ sd !! "lr_scheduler" = None
  ∧ sd !! "num_floating_point_operations_so_far" = Some flops
  ∧ sd !! "optimizer"
    = (if negb (a_no_save_optim args) && negb (a_use_zero2 args)
       then (λ o, if d then VSharded (opt_state o) (save_optim_sd_kwargs args)
                  else opt_state o) <$> w_optimizer w
       else None)
  ∧ sd !! "opt_param_scheduler"
    = (if negb (a_no_save_optim args) then w_scheduler w else None)
  ∧ sd !! "rng_state"
    = (if negb (a_no_save_rng args) then Some (get_rng_state d w) else None)
  ∧ (length stages = 1%nat →
       ∀ m, unwrapped !! 0%nat = Some m → sd !! "model" = Some (stage_entry d m))
  ∧ (length stages ≠ 1%nat →
       ∀ j m, unwrapped !! j = Some m →
         sd !! ("model" +:+ pretty j) = Some (stage_entry d m)).

(** The files after the first part of [save_checkpoint] (lines 56-111) in
    world [w], [record] being the record it builds: the distributed
    optimizer's parameter state, this rank's Zero2 shard, and the record
    itself on the ranks that write it. *)
Definition saved_files `{H : Helpers} (w : World) (iteration : Z)
    (record : gmap string Value) : gmap string File :=
  let args := w_args w in
  let proc := w_proc w in
  let checkpoint_name :=
    get_checkpoint_name proc (a_save args) iteration false (a_use_dist_ckpt args) in
  let fs := w_fs w in
  let fs :=
    match w_optimizer w with
    | Some o =>
        if a_use_distributed_optimizer args && negb (a_no_save_optim args)
           && negb (a_use_dist_ckpt args)
        then <[get_distributed_optimizer_checkpoint_name checkpoint_name :=
                 FPickle (opt_param_state o) []]> fs
        else fs
    | None => fs
    end in
  let fs :=
    match w_optimizer w with
    | Some o =>
        if a_use_zero2 args && negb (a_no_save_optim args)
        then <[get_zero2_optimizer_checkpoint_name checkpoint_name
                 (p_dp_rank proc) (p_cp_rank proc) := FPickle (opt_state o) []]> fs
        else fs
    | None => fs
    end in
  if negb (p_initialized proc) || Z.eqb (p_dmep_rank proc) 0 || a_use_dist_ckpt args
  then <[checkpoint_name :=
           if a_use_dist_ckpt args then FDistCkpt (VDict record)
           else FPickle (VDict record) []]> fs
  else fs.

(** The scheduler state a record offers: the older ['lr_scheduler'] entry
    when it is there, else ['opt_param_scheduler']. *)
Definition record_scheduler (sd : gmap string Value) : option Value :=
  match sd !! "lr_scheduler" with
  | Some v => Some v
  | None => sd !! "opt_param_scheduler"
  end.

(** The message [_load_zero2_checkpoint] prints before it reads. *)
Definition zero2_loading_message (load_dir : string) (iteration : Z) (release : bool)
  : string :=
  if release then " loading release checkpoint from " +:+ load_dir
  else " loading checkpoint from " +:+ load_dir +:+ " at iteration "
       +:+ pretty iteration.

(** The guarded read of [_load_zero2_checkpoint], lines 456-475. *)
Definition zero2_guarded_read (model_checkpoint_name : string)
    (optimizer_state_dict_names : list string) : M Value :=
  try_except
    (let* state_dict := torch_load model_checkpoint_name in
     load_zero2_optimizer optimizer_state_dict_names state_dict)
    (λ e,
      match e with
      | ModuleNotFoundError => Some (
          alias_module "fp16.loss_scaler"
            "megatron.legacy.fp16_deprecated.loss_scaler" ;;;
          alias_module "megatron.fp16.loss_scaler"
            "megatron.legacy.fp16_deprecated.loss_scaler" ;;;
          alias_module "megatron.model" "megatron.legacy.model" ;;;
          let* state_dict := torch_load model_checkpoint_name in
          let* state_dict :=
            load_zero2_optimizer optimizer_state_dict_names state_dict in
          pop_module "fp16.loss_scaler" ;;;
          pop_module "megatron.fp16.loss_scaler" ;;;
          pop_module "megatron.model" ;;;
          ret state_dict)
      | _ => Some (
          print_rank_0 "could not load the checkpoint" ;;;
          print_rank_0 (exn_str e) ;;;
          sys_exit)
      end).





Module RoundTripExample.

(** The world after [save_checkpoint] at iteration 5 by a sole process with
    every switch off. *)
Definition saved : World :=
  world_of (save_checkpoint (H := SpecHelpers.helpers) 5 (VInt 1000)
              (Examples.fresh_world Examples.plain_args Examples.sole_process)).

(** The record in the model file it wrote. *)
Definition record : gmap string Value :=
  match w_fs saved !! "/ckpt/iter_5/model_tp0_pp0.pt" with
  | Some (FPickle (VDict d) _) => d
  | _ => ∅
  end.


(** A process started afterwards on the same files, with freshly
    initialized model, optimizer, scheduler and generators. *)
Definition restarted (args : Args) : World :=
  {| w_args := args; w_proc := Examples.sole_process; w_fs := w_fs saved;
     w_modules := w_modules saved;
     w_rng := {| random_rng_state := VBlob 91; np_rng_state := VBlob 92;
                 torch_rng_state := VBlob 93; cuda_rng_state := VBlob 94;
                 rng_tracker_states := VDict {[ "model-parallel-rng" := VBlob 95 ]} |};
     w_model := ModuleList [Wrapped DDP (Wrapped Float16Module (Bare (VBlob 90)))];
     w_optimizer := Some {| opt_state := VBlob 96; opt_param_state := VBlob 97;
                            opt_reloads := 0 |};
     w_scheduler := Some (VBlob 98);
     w_trace := [] |}.

End RoundTripExample.

Module FurtherExamples.

(** [Examples.plain_args] with the given switches and training counter. *)
Definition args_with (use_dist_ckpt use_distributed_optimizer use_zero2 lora : bool)
    (consumed_train_samples : Z) : Args :=
  {| a_save := "/ckpt"; a_load := "/ckpt"; a_pretrained_checkpoint := None;
     a_use_dist_ckpt := use_dist_ckpt; a_dist_ckpt_format := "torch_dist";
     a_auto_detect_ckpt_format := false; a_exit_on_missing_checkpoint := false;
     a_ckpt_fully_parallel_save := false;
     a_use_distributed_optimizer := use_distributed_optimizer;
     a_use_zero2 := use_zero2; a_no_save_optim := false; a_no_save_rng := false;
     a_no_load_optim := false; a_no_load_rng := false; a_finetune := false;
     a_data_parallel_random_init := false;
     a_consumed_train_samples := consumed_train_samples;
     a_consumed_valid_samples := 0; a_retro_add_retriever := false;
     a_lora := lora; a_fp16 := false; a_bf16 := true;
     a_tensor_model_parallel_size := 1; a_pipeline_model_parallel_size := 1 |}.

(** A rank that is neither the first data-parallel replica nor global
    rank 0. *)
Definition idle_proc : Proc :=
  {| p_initialized := true; p_rank := 3; p_dp_rank := 1; p_cp_rank := 0;
     p_dp_world := 2; p_cp_world := 1; p_dmep_rank := 1; p_tp_rank := 1;
     p_pp_rank := 0; p_tp_world := 2; p_pp_world := 1 |}.

(** A record of an older layout, with both scheduler entries. *)
Definition older_record : gmap string Value :=
  {[ "iteration" := VInt 5; "optimizer" := VBlob 40;
     "lr_scheduler" := VBlob 41; "opt_param_scheduler" := VBlob 42 ]}.


(** A record saved after 1000 training samples were consumed. *)
Definition trained_record : gmap string Value :=
  {[ "iteration" := VInt 5; "model" := VBlob 10;
     "args" := VArgs (args_with false false false false 1000) ]}.

(** A Zero2 run pointed at the sharded checkpoint of [MismatchExample]. *)
Definition zero2_on_sharded : World :=
  with_fs (w_fs MismatchExample.saved)
    (Examples.fresh_world (args_with true false true false 0) Zero2Example.proc).

(** A Zero2 checkpoint directory with its tracker but no model file. *)
Definition zero2_without_model : World :=
  with_fs (<[SpecHelpers.tracker_filename "/ckpt" := FText "7"]> ∅)
    (Examples.fresh_world Zero2Example.args Zero2Example.proc).

(** The Zero2 checkpoint of [Zero2Example], its model file referring to
    the old module path [megatron.model]. *)
Definition zero2_legacy : World :=
  with_fs
    (<[Zero2Example.model_file :=
         FPickle (VDict Zero2Example.record) ["megatron.model"]]> Zero2Example.files)
    (Examples.fresh_world Zero2Example.args Zero2Example.proc).

(** A record with the model weights only, in a directory whose tracker
    holds a number. *)
Definition no_iteration_record : gmap string Value := {[ "model" := VBlob 10 ]}.

Definition no_iteration : World :=
  with_fs
    (<[SpecHelpers.tracker_filename "/ckpt" := FText "7"]>
       (<[Zero2Example.model_file := FPickle (VDict no_iteration_record) []]> ∅))
    (Examples.fresh_world Examples.plain_args Examples.sole_process).

(** Finetune mode with LoRA set. *)
Definition finetune_lora_args : Args :=
  set_finetune (args_with false false false true 0) true.


(** What the format gate hands on there. *)
Definition gate_kwargs : LoadKwargs :=
  match format_gate (H := SpecHelpers.helpers) "/ckpt" zero2_on_sharded with
  | Ok (kw, _) _ => kw
  | Raise _ _ => no_kwargs
  end.

Definition gate_world : World :=
  world_of (format_gate (H := SpecHelpers.helpers) "/ckpt" zero2_on_sharded).

(** The outcome of the Zero2 load of [zero2_legacy]. *)
Definition legacy_result : Value * string * bool :=
  match _load_zero2_checkpoint (H := SpecHelpers.helpers) "/ckpt" None zero2_legacy with
  | Ok r _ => r
  | Raise _ _ => (VNone, "", false)
  end.

Definition legacy_world : World :=
  world_of (_load_zero2_checkpoint (H := SpecHelpers.helpers) "/ckpt" None zero2_legacy).

End FurtherExamples.

(** * Properties *)

(** ** [unwrap_model] *)

Lemma unwrap_module_unwraps cs m : unwraps_to cs m (unwrap_module cs m).
Proof.
  induction m as [w | c inner IH]; simpl.
  - by apply unwraps_stop.
  - destruct (bool_decide (c ∈ cs)) eqn:Hc.
    + by apply unwraps_step.
    + by apply unwraps_stop.
Qed.

Lemma unwrap_module_not_instance cs m : isinstance (unwrap_module cs m) cs = false.
Proof.
  induction m as [w | c inner IH]; simpl; [done |].
  destruct (bool_decide (c ∈ cs)) eqn:Hc; [done |]. simpl. by rewrite Hc.
Qed.

Lemma unwraps_to_fun cs m r : unwraps_to cs m r → r = unwrap_module cs m.
Proof.
  induction 1 as [m Hm | c inner r Hc _ IH].
  - destruct m as [w | c inner]; simpl in *; [done |]. by rewrite Hm.
  - simpl in *. by rewrite Hc.
Qed.

Lemma unwrap_module_id cs m : isinstance m cs = false → unwrap_module cs m = m.
Proof.
  intros Hm. symmetry. apply unwraps_to_fun. by apply unwraps_stop.
Qed.

(** C10.  [unwrap_model] keeps the shape of its argument: a list gives a
    list of the same length whose [i]-th element is the unwrapping of the
    [i]-th input element, a single module gives a single module.  Each
    returned element is what the [while] loop reaches by replacing a wrapper
    instance by its [.module] until the object is no instance of the wrapper
    classes any more ([unwraps_to], which determines the result); it is
    therefore no wrapper instance, and an element that is not wrapped comes
    back unchanged. *)
Theorem unwrap_model_shape (cs : list WrapperClass) :
  (∀ l : list Module, ∃ l' : list Module,
      unwrap_model (ModuleList l) cs = ModuleList l'
      ∧ length l' = length l
      ∧ ∀ i : nat, l' !! i = unwrap_module cs <$> l !! i)
  ∧ (∀ m, unwrap_model (OneModule m) cs = OneModule (unwrap_module cs m))
  ∧ (∀ m, unwraps_to cs m (unwrap_module cs m)
          ∧ isinstance (unwrap_module cs m) cs = false)
  ∧ (∀ m r, unwraps_to cs m r → r = unwrap_module cs m)
  ∧ (∀ m, isinstance m cs = false → unwrap_module cs m = m).
Proof.
  repeat split.
  - intros l. exists (map (unwrap_module cs) l). repeat split.
    + by rewrite length_map.
    + intros i. by rewrite list_lookup_fmap.
  - apply unwrap_module_unwraps.
  - apply unwrap_module_not_instance.
  - apply unwraps_to_fun.
  - apply unwrap_module_id.
Qed.

(** ** [generate_state_dict] *)

Lemma stage_key_head (i : nat) :
  "model" +:+ pretty i
  = String "m" (String "o" (String "d" (String "e" (String "l" (pretty i))))).
Proof. reflexivity. Qed.

Lemma generate_model_entries_spec d stages :
  ∀ i sd w, ∃ sd' w',
    generate_model_entries d i stages sd w = Ok sd' w'
    ∧ (∀ k, ¬ is_stage_key k → sd' !! k = sd !! k)
    ∧ (∀ j m, stages !! j = Some m →
         sd' !! ("model" +:+ pretty (i + j)%nat)
         = Some (if d then sharded_state_dict m else state_dict_for_save_checkpoint m))
    ∧ w' = with_trace (w_trace w ++ map ESetVirtualRank (seq i (length stages))) w.
Proof.
  induction stages as [| m rest IH]; intros i sd w.
  - exists sd, w. simpl. split_and!; [done | done | | ].
    + intros j m' Hj. by rewrite lookup_nil in Hj.
    + destruct w; unfold with_trace; simpl. by rewrite app_nil_r.
  - simpl. unfold bind at 1. unfold set_virtual_pipeline_model_parallel_rank, emit, modify.
    destruct (IH (S i) (<["model" +:+ pretty i :=
                if d then sharded_state_dict m else state_dict_for_save_checkpoint m]> sd)
                (with_trace (w_trace w ++ [ESetVirtualRank i]) w))
      as (sd' & w' & Hrun & Hother & Hstage & Hw).
    exists sd', w'. split; [exact Hrun |]. split_and!.
    + intros k Hk. rewrite (Hother k Hk). apply lookup_insert_ne.
      intros <-. apply Hk. by exists i.
    + intros [| j] m' Hj; simpl in Hj.
      * injection Hj as <-. rewrite Nat.add_0_r.
        assert (Hfix : ∀ (l : list Module) (a : nat) sd0 w0 sd1 w1 (k : nat),
                   generate_model_entries d a l sd0 w0 = Ok sd1 w1 →
                   (k < a)%nat →
                   sd1 !! ("model" +:+ pretty k) = sd0 !! ("model" +:+ pretty k)).
        { clear. induction l as [| x l IHl]; intros a sd0 w0 sd1 w1 k Hrun Hk; simpl in Hrun.
          - unfold ret in Hrun. by injection Hrun as <- _.
          - unfold bind at 1 in Hrun. simpl in Hrun.
            rewrite (IHl _ _ _ _ _ k Hrun); [| lia].
            apply lookup_insert_ne. intros Heq.
            apply (inj (String.append "model")) in Heq.
            apply (inj pretty) in Heq. lia. }
        rewrite (Hfix _ _ _ _ _ _ i Hrun); [| lia]. apply lookup_insert_eq.
      * replace (i + S j)%nat with (S i + j)%nat by lia. by apply Hstage.
    + rewrite Hw. destruct w; unfold with_trace; simpl. by rewrite <- app_assoc.
Qed.

Ltac not_stage_key :=
  let i := fresh "i" in
  let Hi := fresh "Hi" in
  intros [i Hi]; rewrite stage_key_head in Hi; discriminate Hi.

Ltac stage_key_ne :=
  let Heq := fresh "Heq" in
  intros Heq; rewrite stage_key_head in Heq; discriminate Heq.

(** What [generate_state_dict] builds for a list of stages: it always
    returns, touches nothing but the trace, and the record is described key
    by key. *)
Lemma generate_state_dict_spec args stages optimizer sched rng d it kw w :
  ∃ sd evs,
    generate_state_dict args (ModuleList stages) optimizer sched rng d it kw w
      = Ok sd (with_trace (w_trace w ++ evs) w)
    ∧ sd !! "args" = Some (VArgs args)
    ∧ sd !! "iteration" = VInt <$> it
    ∧ sd !! "total_iters" = None
    ∧ sd !! "lr_scheduler" = None
    ∧ sd !! "num_floating_point_operations_so_far" = None
    ∧ sd !! "optimizer"
      = (if negb (a_no_save_optim args) && negb (a_use_zero2 args)
         then (λ o, if d then VSharded (opt_state o) (default ∅ kw) else opt_state o)
                <$> optimizer
         else None)
    ∧ sd !! "opt_param_scheduler" = (if negb (a_no_save_optim args) then sched else None)
    ∧ sd !! "rng_state" = (if negb (a_no_save_rng args) then Some rng else None)
    ∧ (length stages = 1%nat →
         ∀ m, stages !! 0%nat = Some m → sd !! "model" = Some (stage_entry d m))
    ∧ (length stages ≠ 1%nat →
         ∀ j m, stages !! j = Some m →
           sd !! ("model" +:+ pretty j) = Some (stage_entry d m)).
Proof.
  unfold generate_state_dict.
  destruct (Nat.eqb (length stages) 1) eqn:Hlen.
  - apply Nat.eqb_eq in Hlen.
    destruct stages as [| m0 [| ? ?]]; simpl in Hlen; try discriminate Hlen.
    exists (
      let sd0 : gmap string Value :=
        <["model" := stage_entry d m0]>
          (match it with
           | Some i => <["iteration" := VInt i]>
                         (<["checkpoint_version" := VFloat 3 1]> (<["args" := VArgs args]> ∅))
           | None => <["checkpoint_version" := VFloat 3 1]> (<["args" := VArgs args]> ∅)
           end) in
      let sd1 :=
        if negb (a_no_save_optim args) then
          let sd2 :=
            match optimizer with
            | Some o =>
                if negb (a_use_zero2 args) then
                  <["optimizer" := if d then VSharded (opt_state o) (default ∅ kw)
                                   else opt_state o]> sd0
                else sd0
            | None => sd0
            end in
          match sched with
          | Some s => <["opt_param_scheduler" := s]> sd2
          | None => sd2
          end
        else sd0 in
      if negb (a_no_save_rng args) then <["rng_state" := rng]> sd1 else sd1), [].
    split.
    { unfold bind, ret; simpl. destruct w; unfold with_trace; simpl.
      by rewrite app_nil_r. }
    split_and!;
      try (intros Hne; simpl in Hne; congruence);
      try (intros _ m Hm; simpl in Hm; injection Hm as <-);
      destruct (a_no_save_optim args), (a_use_zero2 args), (a_no_save_rng args),
        optimizer, sched, it; simpl; by simplify_map_eq.
  - apply Nat.eqb_neq in Hlen.
    unfold bind at 1.
    destruct (generate_model_entries_spec d stages 0
                (match it with
                 | Some i => <["iteration" := VInt i]>
                               (<["checkpoint_version" := VFloat 3 1]>
                                  (<["args" := VArgs args]> ∅))
                 | None => <["checkpoint_version" := VFloat 3 1]>
                             (<["args" := VArgs args]> ∅)
                 end) w) as (sd0 & w' & Hrun & Hother & Hstage & Hw).
    rewrite Hrun. subst w'.
    eexists _, _. split; [reflexivity |].
    assert (Hk : ∀ k, ¬ is_stage_key k →
              k ≠ "iteration" → k ≠ "args" → k ≠ "checkpoint_version" →
              sd0 !! k = None).
    { intros k Hk H1 H2 H3. rewrite (Hother k Hk).
      destruct it; by simplify_map_eq. }
    split_and!;
      try (intros Hone; congruence);
      try (intros _ j m Hj; specialize (Hstage j m Hj); simpl in Hstage;
           fold (stage_entry d m) in Hstage);
      destruct (a_no_save_optim args), (a_use_zero2 args), (a_no_save_rng args),
        optimizer, sched; simpl;
      repeat (rewrite lookup_insert_ne; [| first [done | stage_key_ne]]);
      rewrite ?lookup_insert_eq; try done;
      try (rewrite Hk; [done | not_stage_key | done ..]);
      try (rewrite (Hother _); [destruct it; by simplify_map_eq | not_stage_key]).
Qed.

(** C8 (as amended).  [generate_state_dict] has two suppression flags, not
    three.  [no_save_optim] removes the optimizer entry and the scheduler
    entry together; [no_save_rng] removes the RNG entry only; the two flags
    do not affect each other's entries.  Precisely: the optimizer entry is
    present iff [no_save_optim] is off, an optimizer is given and Zero2 is
    off; the scheduler entry iff [no_save_optim] is off and a scheduler is
    given; the RNG entry iff [no_save_rng] is off. *)
Theorem generate_state_dict_suppression args stages optimizer sched rng d it kw w :
  ∃ sd w',
    generate_state_dict args (ModuleList stages) optimizer sched rng d it kw w
      = Ok sd w'
    ∧ (is_Some (sd !! "optimizer")
       ↔ a_no_save_optim args = false ∧ is_Some optimizer ∧ a_use_zero2 args = false)
    ∧ (is_Some (sd !! "opt_param_scheduler")
       ↔ a_no_save_optim args = false ∧ is_Some sched)
    ∧ (is_Some (sd !! "rng_state") ↔ a_no_save_rng args = false).
Proof.
  destruct (generate_state_dict_spec args stages optimizer sched rng d it kw w)
    as (sd & evs & Hrun & _ & _ & _ & _ & _ & Hopt & Hsched & Hrng & _).
  exists sd, (with_trace (w_trace w ++ evs) w). split; [exact Hrun |].
  rewrite Hopt, Hsched, Hrng.
  destruct (a_no_save_optim args), (a_use_zero2 args), (a_no_save_rng args),
    optimizer, sched; simpl; split_and!; split;
    rewrite ?is_Some_alt; intuition (try discriminate; eauto).
Qed.

(** C8, the claim as stated fails: with an optimizer and a scheduler given,
    turning on the optimizer suppression flag [no_save_optim] also removes
    the scheduler entry, which is present when the flag is off. *)
Lemma suppression_flags_not_independent :
  let w := Examples.fresh_world Examples.plain_args Examples.sole_process in
  let build args :=
    generate_state_dict args (ModuleList [Bare (VBlob 10)])
      (Some Examples.live_optimizer) (Some (VBlob 30)) VNone false (Some 1) None w in
  (∃ sd w', build Examples.plain_args = Ok sd w'
            ∧ is_Some (sd !! "optimizer") ∧ is_Some (sd !! "opt_param_scheduler"))
  ∧ (∃ sd w', build Examples.no_save_optim_args = Ok sd w'
              ∧ sd !! "optimizer" = None ∧ sd !! "opt_param_scheduler" = None).
Proof.
  split; eexists _, _; (split; [reflexivity |]); split; vm_compute; eauto.
Qed.

(** ** Frame reasoning for the monad *)

Section Preservation.
Variable R : World → World → Prop.
Hypothesis R_refl : ∀ w, R w w.
Hypothesis R_trans : ∀ w1 w2 w3, R w1 w2 → R w2 w3 → R w1 w3.

Lemma preserves_ret {A} (a : A) : preserves R (ret a).
Proof. intros w. apply R_refl. Qed.

Lemma preserves_raise {A} e : preserves R (@raise A e).
Proof. intros w. apply R_refl. Qed.

Lemma preserves_lift {A} (r : Exn + A) : preserves R (lift r).
Proof. destruct r; [apply preserves_raise | apply preserves_ret]. Qed.

Lemma preserves_get_world : preserves R get_world.
Proof. intros w. apply R_refl. Qed.

Lemma preserves_get_args : preserves R get_args.
Proof. intros w. apply R_refl. Qed.

Lemma preserves_get_proc : preserves R get_proc.
Proof. intros w. apply R_refl. Qed.

Lemma preserves_bind {A B} (c : M A) (k : A → M B) :
  preserves R c → (∀ a, preserves R (k a)) → preserves R (bind c k).
Proof.
  intros Hc Hk w. unfold bind. specialize (Hc w).
  destruct (c w) as [a w' | e w']; simpl in *; [| exact Hc].
  eapply R_trans; [exact Hc | apply Hk].
Qed.

Lemma preserves_try_except {A} (body : M A) handler :
  preserves R body →
  (∀ e h, handler e = Some h → preserves R h) →
  preserves R (try_except body handler).
Proof.
  intros Hb Hh w. unfold try_except. specialize (Hb w).
  destruct (body w) as [a w' | e w']; simpl in *; [exact Hb |].
  destruct (handler e) as [h |] eqn:He; simpl; [| exact Hb].
  eapply R_trans; [exact Hb | by eapply Hh].
Qed.

Lemma preserves_py_assert b : preserves R (py_assert b).
Proof. destruct b; [apply preserves_ret | apply preserves_raise]. Qed.

Lemma preserves_for_each {A} (l : list A) body :
  (∀ x, preserves R (body x)) → preserves R (for_each l body).
Proof.
  intros Hb. induction l as [| x l IH]; simpl.
  - apply preserves_ret.
  - apply preserves_bind; [apply Hb | intros _; exact IH].
Qed.

Lemma preserves_modify (f : World → World) :
  (∀ w, R w (f w)) → preserves R (modify f).
Proof. intros Hf w. apply Hf. Qed.
End Preservation.

(** ** The trace of [save_checkpoint] *)

Lemma extends_trace_refl Q w : extends_trace Q w w.
Proof. exists []. rewrite app_nil_r. by split_and!. Qed.

Lemma extends_trace_trans Q w1 w2 w3 :
  extends_trace Q w1 w2 → extends_trace Q w2 w3 → extends_trace Q w1 w3.
Proof.
  intros (e1 & Q1 & T1 & A1 & P1) (e2 & Q2 & T2 & A2 & P2).
  exists (e1 ++ e2). split_and!; [by apply Forall_app | | congruence ..].
  by rewrite T2, T1, <- app_assoc.
Qed.

Lemma extends_trace_emit Q e : Q e → preserves (extends_trace Q) (emit e).
Proof. intros He w. exists [e]. split_and!; [by constructor | done ..]. Qed.

Lemma extends_trace_silent Q (f : World → World) :
  (∀ w, w_trace (f w) = w_trace w ∧ w_args (f w) = w_args w ∧ w_proc (f w) = w_proc w) →
  preserves (extends_trace Q) (modify f).
Proof.
  intros Hf w. destruct (Hf w) as (T & A & P). exists [].
  simpl. rewrite app_nil_r. by split_and!.
Qed.

Ltac quiet_step :=
  let R := constr:(extends_trace quiet_event) in
  let Rrefl := constr:(extends_trace_refl quiet_event) in
  let Rtrans := constr:(extends_trace_trans quiet_event) in
  first
    [ apply (preserves_ret R Rrefl)
    | apply (preserves_raise R Rrefl)
    | apply (preserves_lift R Rrefl)
    | apply (preserves_get_world R Rrefl)
    | apply (preserves_get_args R Rrefl)
    | apply (preserves_get_proc R Rrefl)
    | apply (extends_trace_emit quiet_event); exact I
    | apply (extends_trace_silent quiet_event); intros []; by split_and!
    | apply (preserves_bind R Rtrans); [| intros ?] ].

Lemma quiet_torch_save obj path :
  preserves (extends_trace quiet_event) (torch_save obj path).
Proof. unfold torch_save. repeat quiet_step. Qed.

Lemma quiet_generate_model_entries d stages :
  ∀ i sd, preserves (extends_trace quiet_event) (generate_model_entries d i stages sd).
Proof.
  induction stages as [| m rest IH]; intros i sd; simpl.
  - quiet_step.
  - unfold set_virtual_pipeline_model_parallel_rank. repeat quiet_step. apply IH.
Qed.

Lemma quiet_generate_state_dict args model optimizer sched rng d it kw :
  preserves (extends_trace quiet_event)
    (generate_state_dict args model optimizer sched rng d it kw).
Proof.
  unfold generate_state_dict.
  apply (preserves_bind _ (extends_trace_trans quiet_event)); [| intros ?; quiet_step].
  destruct model as [m | stages]; [quiet_step |].
  destruct (Nat.eqb (length stages) 1).
  - destruct (stages !! 0%nat); quiet_step.
  - apply quiet_generate_model_entries.
Qed.

Lemma quiet_save_state `{H : Helpers} iteration flops :
  preserves (extends_trace quiet_event) (save_state iteration flops).
Proof.
  unfold save_state, print_rank_0, ensure_directory_exists,
    optimizer_save_parameter_state, zero2_optimizer_save, dist_checkpointing_save.
  repeat first
    [ apply quiet_torch_save
    | apply quiet_generate_state_dict
    | quiet_step
    | match goal with
      | |- preserves _ (if ?b then _ else _) => destruct b
      | |- preserves _ (match ?o with Some _ => _ | None => _ end) => destruct o
      end ].
Qed.

(** What the synchronisation part does: it never fails and appends exactly
    [sync_events]. *)
Lemma save_sync_run `{H : Helpers} iteration w :
  ∃ w', save_sync iteration w = Ok tt w'
        ∧ w_trace w' = w_trace w ++ sync_events (w_args w) (w_proc w) iteration.
Proof.
  unfold save_sync, sync_events, bind, get_args, get_proc, barrier, print_rank_0,
    write_text, emit, modify, ret.
  destruct (p_initialized (w_proc w)), (Z.eqb (p_rank (w_proc w)) 0); simpl;
    eexists; (split; [reflexivity |]); simpl; by rewrite <- ?app_assoc.
Qed.

(** C4 (as amended).  Up to the write of the record, [save_checkpoint] emits
    neither a barrier nor a tracker write ([pre] is quiet); if that part does
    not raise, the call returns and the remaining events are exactly
    [sync_events]: when distributed execution is initialized, the barrier,
    the success message, the tracker write on global rank 0 only and a second
    barrier; when it is not initialized, the success message and the tracker
    write by the sole process, without any barrier. *)
Theorem save_checkpoint_tracker_order `{H : Helpers} iteration flops w :
  ∃ pre, Forall quiet_event pre
    ∧ match save_checkpoint iteration flops w with
      | Ok _ w' =>
          w_trace w' = w_trace w ++ pre ++ sync_events (w_args w) (w_proc w) iteration
      | Raise e w' =>
          w_trace w' = w_trace w ++ pre
          ∧ save_state iteration flops w = Raise e w'
      end.
Proof.
  destruct (quiet_save_state iteration flops w) as (pre & Hq & Ht & Ha & Hp).
  exists pre. split; [exact Hq |].
  unfold save_checkpoint, bind.
  destruct (save_state iteration flops w) as [[] w1 | e w1]; simpl in *; [| done].
  destruct (save_sync_run iteration w1) as (w' & -> & Hs).
  by rewrite Hs, Ht, Ha, Hp, <- app_assoc.
Qed.

(** C4, the claim as stated fails for the sole process: with distributed
    execution not initialized, [save_checkpoint] writes the tracker although
    no barrier is executed, neither before nor after the write. *)
Lemma sole_process_save_has_no_barrier :
  let w := Examples.fresh_world Examples.plain_args Examples.sole_process in
  ∃ w', save_checkpoint (H := SpecHelpers.helpers) 5 (VInt 1000) w = Ok tt w'
        ∧ In (EWriteText "/ckpt/latest_checkpointed_iteration.txt" "5") (w_trace w')
        ∧ ¬ In EBarrier (w_trace w').
Proof.
  eexists. split; [vm_compute; reflexivity |].
  split; [vm_compute; tauto |].
  vm_compute. intuition discriminate.
Qed.

(** ** The Zero2 load path *)

Lemma torch_load_ok w path v : loads_as w path v → torch_load path w = Ok v w.
Proof. intros (needs & Hf & Hr). unfold torch_load. by rewrite Hf, Hr. Qed.

Lemma load_optimizer_state_list_ok w names vs :
  Forall2 (loads_as w) names vs →
  load_optimizer_state_list names w = Ok vs w.
Proof.
  induction 1 as [| n v names vs Hn _ IH]; simpl; [done |].
  unfold bind. rewrite (torch_load_ok _ _ _ Hn), IH. done.
Qed.

(** The shard names of the spec's layout, position by position. *)
Lemma zero2_shard_names_lookup dp_world cp_world model_name dp cp :
  (dp < dp_world)%nat → (cp < cp_world)%nat →
  SpecHelpers.zero2_shard_names dp_world cp_world model_name !! (dp * cp_world + cp)%nat
  = Some (get_zero2_optimizer_checkpoint_name model_name dp cp).
Proof.
  unfold SpecHelpers.zero2_shard_names. intros Hdp Hcp.
  assert (Hrow : ∀ d,
    (seq 0 cp_world ≫= λ c, [get_zero2_optimizer_checkpoint_name model_name d c])
    = map (get_zero2_optimizer_checkpoint_name model_name d) (seq 0 cp_world)).
  { intros d. induction (seq 0 cp_world) as [| c l IH]; [done |].
    rewrite bind_cons, IH. done. }
  assert (Hgen : ∀ n d start, (d < n)%nat →
    (seq start n ≫= λ d,
       seq 0 cp_world ≫= λ c, [get_zero2_optimizer_checkpoint_name model_name d c])
      !! (d * cp_world + cp)%nat
    = Some (get_zero2_optimizer_checkpoint_name model_name (start + d) cp)).
  { induction n as [| n IH]; intros d start Hlt; [lia |].
    cbn [seq]. rewrite bind_cons, Hrow. destruct d as [| d].
    - rewrite lookup_app_l by (rewrite length_map, length_seq; lia).
      rewrite list_lookup_fmap, lookup_seq_lt by lia. simpl.
      by rewrite Nat.add_0_r.
    - rewrite lookup_app_r by (rewrite length_map, length_seq; lia).
      rewrite length_map, length_seq.
      replace (S d * cp_world + cp - cp_world)%nat with (d * cp_world + cp)%nat by lia.
      rewrite IH by lia. do 2 f_equal. lia. }
  by rewrite (Hgen dp_world dp 0%nat Hdp).
Qed.

Lemma zero2_shard_names_length dp_world cp_world model_name :
  length (SpecHelpers.zero2_shard_names dp_world cp_world model_name)
  = (dp_world * cp_world)%nat.
Proof.
  unfold SpecHelpers.zero2_shard_names.
  assert (Hrow : ∀ d,
    (seq 0 cp_world ≫= λ c, [get_zero2_optimizer_checkpoint_name model_name d c])
    = map (get_zero2_optimizer_checkpoint_name model_name d) (seq 0 cp_world)).
  { intros d. induction (seq 0 cp_world) as [| c l IH]; [done |].
    rewrite bind_cons, IH. done. }
  assert (Hgen : ∀ n start,
    length (seq start n ≫= λ d,
              seq 0 cp_world ≫= λ c,
                [get_zero2_optimizer_checkpoint_name model_name d c])
    = (n * cp_world)%nat).
  { induction n as [| n IH]; intros start; [done |].
    cbn [seq]. rewrite bind_cons, length_app, Hrow, length_map, length_seq, IH.
    done. }
  apply Hgen.
Qed.

(** C5.  Once the tracker file is there and the iteration is resolved,
    [_load_zero2_checkpoint] raises [AssertionError] when the checkpoint it
    resolves is in distributed format.  Otherwise, if the shared model file
    and every optimizer shard file deserialize, it returns the record of the
    model file with, under ['optimizer'], the list of the loaded shards: one
    element per shard name, in the order of the names.  With the shard names
    of the spec's layout, that list has [dp_world * cp_world] elements and
    the shard of ranks [(dp, cp)] sits at position [dp * cp_world + cp]. *)
Theorem zero2_load_path `{H : Helpers} load_dir checkpoint_step w iteration release w1 :
  is_file w (get_checkpoint_tracker_filename load_dir) = true →
  resolves_step load_dir checkpoint_step w iteration release w1 →
  let proc := w_proc w1 in
  let checkpoint_name := get_checkpoint_name proc load_dir iteration release true in
  let model_checkpoint_name :=
    get_checkpoint_name proc load_dir iteration release false in
  let names := get_zero2_checkpoint_names proc load_dir iteration release in
  (is_distributed_checkpoint w1 checkpoint_name = true →
     _load_zero2_checkpoint load_dir checkpoint_step w = Raise AssertionError w1)
  ∧ (is_distributed_checkpoint w1 checkpoint_name = false →
     ∀ sd vs,
       loads_as w1 model_checkpoint_name (VDict sd) →
       Forall2 (loads_as w1) names vs →
       (∃ w2,
          _load_zero2_checkpoint load_dir checkpoint_step w
          = Ok (VDict (<["optimizer" := VList vs]> sd), checkpoint_name, release) w2
          ∧ w_fs w2 = w_fs w1 ∧ w_modules w2 = w_modules w1)
       ∧ length vs = length names
       ∧ ∀ dp_world cp_world,
           names = SpecHelpers.zero2_shard_names dp_world cp_world model_checkpoint_name →
           length vs = (dp_world * cp_world)%nat
           ∧ ∀ dp cp, (dp < dp_world)%nat → (cp < cp_world)%nat →
               ∃ v, vs !! (dp * cp_world + cp)%nat = Some v
                    ∧ loads_as w1
                        (get_zero2_optimizer_checkpoint_name model_checkpoint_name dp cp) v).
Proof.
  intros Htracker Hstep proc checkpoint_name model_checkpoint_name names.
  assert (Hhead : ∀ B (k : Z * bool → M B),
    bind (match checkpoint_step with
          | Some step => ret (step, false)
          | None => read_metadata (get_checkpoint_tracker_filename load_dir)
          end) k w
    = k (iteration, release) w1).
  { intros B k. unfold bind. destruct checkpoint_step as [step |]; simpl in Hstep.
    - destruct Hstep as (-> & -> & ->). done.
    - by rewrite Hstep. }
  split.
  - intros Hdist. unfold _load_zero2_checkpoint.
    unfold bind at 1. unfold isfile. rewrite Htracker. simpl.
    rewrite Hhead.
    unfold bind, get_proc, check_is_distributed_checkpoint.
    fold proc. fold checkpoint_name. rewrite Hdist. done.
  - intros Hdist sd vs Hmodel Hshards. split_and!.
    + unfold _load_zero2_checkpoint.
      unfold bind at 1. unfold isfile. rewrite Htracker. simpl.
      rewrite Hhead.
      unfold bind at 1. unfold get_proc. fold proc.
      unfold bind at 1. unfold check_is_distributed_checkpoint.
      fold checkpoint_name. rewrite Hdist. simpl.
      unfold bind at 1. simpl. unfold bind at 1.
      match goal with
      | |- context [(if release then print_rank_0 ?a else print_rank_0 ?b) w1] =>
          replace ((if release then print_rank_0 a else print_rank_0 b) w1)
            with (Ok tt (with_trace (w_trace w1 ++ [EPrint (if release then a else b)]) w1))
            by (by destruct release);
          set (w1' := with_trace (w_trace w1 ++ [EPrint (if release then a else b)]) w1)
      end.
      assert (Hfs : w_fs w1' = w_fs w1) by done.
      assert (Hmods : w_modules w1' = w_modules w1) by done.
      assert (Hproc : w_proc w1' = w_proc w1) by done.
      clearbody w1'.
      assert (Hloads : ∀ p v, loads_as w1 p v → loads_as w1' p v).
      { intros p v (needs & Hf & Hr). exists needs. unfold resolvable in *.
        by rewrite Hfs, Hmods. }
      unfold bind at 1, try_except. unfold bind at 1.
      fold model_checkpoint_name. fold names.
      rewrite (torch_load_ok _ _ _ (Hloads _ _ Hmodel)).
      unfold load_zero2_optimizer, bind.
      rewrite (load_optimizer_state_list_ok w1' names vs).
      * simpl. exists w1'. by split_and!.
      * eapply Forall2_impl; [exact Hshards | intros p v; apply Hloads].
    + symmetry. by eapply Forall2_length.
    + intros dp_world cp_world Hnames. split.
      * rewrite <- (Forall2_length _ _ _ Hshards), Hnames.
        apply zero2_shard_names_length.
      * intros dp cp Hdp Hcp.
        pose proof (zero2_shard_names_lookup dp_world cp_world
                      model_checkpoint_name dp cp Hdp Hcp) as Hlk.
        rewrite <- Hnames in Hlk.
        destruct (Forall2_lookup_l _ _ _ _ _ Hshards Hlk) as (v & Hv & Hl).
        by exists v.
Qed.

(** C5, a run: the eight shard files of 4 data-parallel and 2
    context-parallel ranks come back as a list of length 8 in (dp, cp)
    order. *)
Lemma zero2_load_eight_shards :
  ∃ w2,
    _load_zero2_checkpoint (H := SpecHelpers.helpers) "/ckpt" None Zero2Example.world
    = Ok (VDict (<["optimizer" := VList Zero2Example.shards]> Zero2Example.record),
          "/ckpt/iter_7", false) w2
    ∧ length Zero2Example.shards = 8%nat.
Proof.
  pose proof (zero2_load_path (H := SpecHelpers.helpers) "/ckpt" None
                Zero2Example.world 7 false Zero2Example.world) as Hpath.
  destruct Hpath as [_ Hload]; [vm_compute; reflexivity | vm_compute; reflexivity |].
  destruct (Hload eq_refl Zero2Example.record Zero2Example.shards)
    as ((w2 & Hrun & _) & _ & _).
  - exists []. split; vm_compute; reflexivity.
  - change (@get_zero2_checkpoint_names SpecHelpers.helpers
              (w_proc Zero2Example.world) "/ckpt" 7 false)
      with Zero2Example.shard_files.
    repeat (apply List.Forall2_cons; [exists []; split; vm_compute; reflexivity |]).
    apply List.Forall2_nil.
  - exists w2. split; [exact Hrun | reflexivity].
Defined.

(** C6, the code at two failing inputs.  The first deserialization raises
    [ModuleNotFoundError], the [except] clause installs the three aliases and
    retries; when the retry raises (the model file still does not
    deserialize, or an optimizer shard file is missing) the exception leaves
    [_load_zero2_checkpoint] from inside the clause, the three [pop] calls
    are never reached, and the registry keeps the aliases it did not have
    before. *)
Theorem zero2_aliases_survive_failure :
  let installed (w : World) :=
    Forall (λ alias, is_Some (w_modules w !! alias))
      ["fp16.loss_scaler"; "megatron.fp16.loss_scaler"; "megatron.model"] in
  let absent (w : World) :=
    Forall (λ alias, w_modules w !! alias = None)
      ["fp16.loss_scaler"; "megatron.fp16.loss_scaler"; "megatron.model"] in
  (absent LegacyExample.world_unresolvable
   ∧ ∃ w', _load_zero2_checkpoint (H := SpecHelpers.helpers) "/ckpt" None
             LegacyExample.world_unresolvable
           = Raise ModuleNotFoundError w'
           ∧ installed w')
  ∧ (absent LegacyExample.world_without_shards
     ∧ ∃ w', _load_zero2_checkpoint (H := SpecHelpers.helpers) "/ckpt" None
               LegacyExample.world_without_shards
             = Raise (FileNotFoundError "/ckpt/iter_7/zero2_optim_dp0_cp0.pt") w'
             ∧ installed w').
Proof.
  split; (split; [repeat constructor |]); eexists;
    (split; [vm_compute; reflexivity |]);
    repeat constructor; vm_compute; eauto.
Qed.

(** ** RNG restoration *)

Lemma string_app_assoc (s1 s2 s3 : string) :
  (s1 +:+ s2) +:+ s3 = s1 +:+ (s2 +:+ s3).
Proof.
  induction s1 as [| c s1 IH]; [reflexivity |].
  change (String c ((s1 +:+ s2) +:+ s3) = String c (s1 +:+ (s2 +:+ s3))).
  by rewrite IH.
Qed.

Lemma rng_guidance_names_flag checkpoint_name :
  mentions (rng_guidance checkpoint_name) "--no-load-rng".
Proof.
  exists ("Unable to load rng state from checkpoint " +:+ checkpoint_name
          +:+ ". Specify "),
         (" or --finetune to prevent attempting to load the rng state, exiting ...").
  unfold rng_guidance. rewrite !string_app_assoc. reflexivity.
Qed.

(** A defective snapshot makes the five assignments raise [KeyError]; the
    trace and [args] are untouched (generators set before the failing key
    keep their new state). *)
Lemma set_rng_from_defect src w :
  rng_defect src →
  ∃ w', set_rng_from (VDict src) w = Raise KeyError w'
        ∧ w_trace w' = w_trace w ∧ w_args w' = w_args w ∧ w_proc w' = w_proc w.
Proof.
  intros Hdef. unfold set_rng_from, bind, lift, getitem, raise, ret,
    random_setstate, np_random_set_state, torch_set_rng_state,
    torch_cuda_set_rng_state, cuda_rng_tracker_set_states, modify.
  destruct (src !! "random_rng_state") as [v1 |] eqn:H1; [| by eexists].
  destruct (src !! "np_rng_state") as [v2 |] eqn:H2; [| by eexists].
  destruct (src !! "torch_rng_state") as [v3 |] eqn:H3; [| by eexists].
  destruct (src !! "cuda_rng_state") as [v4 |] eqn:H4; [| by eexists].
  destruct (src !! "rng_tracker_states") as [v5 |] eqn:H5; [| by eexists].
  destruct Hdef as [(k & Hk & Hnone) | (states & Hs & Hfalse)].
  - unfold rng_keys in Hk. set_unfold.
    destruct Hk as [-> | [-> | [-> | [-> | [-> | []]]]]]; congruence.
  - assert (v5 = states) as -> by congruence. rewrite Hfalse. simpl. by eexists.
Qed.

Lemma restore_rng_fatal sd checkpoint_name release w src :
  release = false →
  a_finetune (w_args w) = false →
  a_no_load_rng (w_args w) = false →
  rng_source (w_args w) (w_proc w) sd = inr (VDict src) →
  rng_defect src →
  ∃ w', restore_rng (VDict sd) checkpoint_name release w = Raise SystemExit w'
        ∧ w_trace w' = w_trace w ++ [EPrint (rng_guidance checkpoint_name)].
Proof.
  intros -> Hft Hnl Hsrc Hdef.
  unfold restore_rng. unfold bind at 1. unfold get_args. rewrite Hft, Hnl. simpl.
  unfold try_except. unfold bind at 1. unfold lift at 1, contains. simpl.
  unfold rng_source in Hsrc.
  destruct (sd !! "rng_state") as [rng_states |] eqn:Hrs.
  - rewrite bool_decide_true by eauto.
    unfold bind at 1. unfold ret at 1.
    unfold bind at 1. unfold get_proc. unfold bind at 1.
    replace ((if a_data_parallel_random_init (w_args w)
              then lift (getindex rng_states (p_dp_rank (w_proc w)))
              else lift (getindex rng_states 0)) w)
      with (Ok (VDict src) w)
      by (destruct (a_data_parallel_random_init (w_args w)); by rewrite Hsrc).
    destruct (set_rng_from_defect src w Hdef) as (w' & -> & Ht & _).
    simpl. eexists. split; [reflexivity |]. simpl. by rewrite Ht.
  - rewrite bool_decide_false by (intros [? ?]; congruence).
    injection Hsrc as <-.
    destruct (set_rng_from_defect sd w Hdef) as (w' & -> & Ht & _).
    simpl. eexists. split; [reflexivity |]. simpl. by rewrite Ht.
Qed.

(** C7.  When a load has read a record and restored model and optimizer,
    and RNG restoration applies (not release, not finetune, [no_load_rng]
    off), a snapshot whose tracker-states entry is present but empty, or
    which lacks any of the five RNG keys, makes [load_checkpoint] terminate
    with [SystemExit] right after the message that names [--no-load-rng]. *)
Theorem rng_fatal_with_guidance `{H : Helpers} load_arg strict w
    load_dir is_dist_ckpt sd checkpoint_name release0 w1
    iteration release flops w2 src :
  load_record load_arg w
    = Ok (load_dir, is_dist_ckpt, (VDict sd, checkpoint_name, release0)) w1 →
  restore_state load_dir is_dist_ckpt (VDict sd) checkpoint_name release0 strict w1
    = Ok (iteration, release, flops) w2 →
  release = false →
  a_finetune (w_args w2) = false →
  a_no_load_rng (w_args w2) = false →
  rng_source (w_args w2) (w_proc w2) sd = inr (VDict src) →
  rng_defect src →
  ∃ w3, load_checkpoint load_arg strict w = Raise SystemExit w3
        ∧ w_trace w3 = w_trace w2 ++ [EPrint (rng_guidance checkpoint_name)]
        ∧ mentions (rng_guidance checkpoint_name) "--no-load-rng".
Proof.
  intros Hrec Hstate Hrel Hft Hnl Hsrc Hdef.
  destruct (restore_rng_fatal sd checkpoint_name release w2 src Hrel Hft Hnl Hsrc Hdef)
    as (w3 & Hrng & Ht).
  exists w3. split_and!; [| exact Ht | apply rng_guidance_names_flag].
  unfold load_checkpoint. unfold bind at 1. rewrite Hrec.
  unfold bind at 1. rewrite Hstate. unfold bind at 1. by rewrite Hrng.
Qed.

(** C7, a run: a record saved while the tracker held no state makes the
    following load exit with the guidance message. *)
Lemma rng_fatal_on_empty_tracker_states :
  ∃ w3, load_checkpoint (H := SpecHelpers.helpers) a_load true EmptyTrackerExample.saved
        = Raise SystemExit w3
        ∧ mentions (rng_guidance "/ckpt/iter_5/model_tp0_pp0.pt") "--no-load-rng".
Proof.
  edestruct (rng_fatal_with_guidance (H := SpecHelpers.helpers) a_load true
               EmptyTrackerExample.saved) as (w3 & Hrun & _ & Hmsg).
  - vm_compute. reflexivity.
  - vm_compute. reflexivity.
  - reflexivity.
  - reflexivity.
  - reflexivity.
  - vm_compute. reflexivity.
  - right. exists (VDict ∅). split; [vm_compute; reflexivity | reflexivity].
  - exists w3. split; [exact Hrun | exact Hmsg].
Defined.

(** ** The format gate *)

(** C2 (as amended).  Let the peek of the format gate find a sharded
    checkpoint whose recorded (TP, PP) sizes differ from the live ones.  The
    warning that the RNG state will be ignored is emitted in every such
    case.  The gate then raises the mismatch [RuntimeError] exactly when the
    load is no release load, [finetune] is off, optimizer loading is not
    suppressed ([no_load_optim] off) and the distributed optimizer is in use;
    in every other mismatch case it returns, and the sharded template it
    hands to the loader asks for no RNG state ([None] under ['rng_state'], or
    no such entry under [no_save_rng]). *)
Theorem gate_on_mismatch `{H : Helpers} load_dir w sd ckpt_args checkpoint_name
    release w1 :
  a_auto_detect_ckpt_format (w_args w) || a_use_dist_ckpt (w_args w) = true →
  _load_base_checkpoint load_dir true
    (mkLoadKwargs None (Some (a_exit_on_missing_checkpoint (w_args w)))) w
    = Ok (VDict sd, checkpoint_name, release) w1 →
  is_distributed_checkpoint w1 checkpoint_name = true →
  sd !! "args" = Some (VArgs ckpt_args) →
  let args := w_args w1 in
  let ckpt_tp_pp :=
    (a_tensor_model_parallel_size ckpt_args, a_pipeline_model_parallel_size ckpt_args) in
  let run_tp_pp := (p_tp_world (w_proc w1), p_pp_world (w_proc w1)) in
  pair_eqb ckpt_tp_pp run_tp_pp = false →
  let warning :=
    EPrint (mismatch_msg ckpt_tp_pp run_tp_pp +:+ ": RNG state will be ignored") in
  if negb release && negb (a_finetune args) && negb (a_no_load_optim args)
     && a_use_distributed_optimizer args
  then
    format_gate load_dir w
    = Raise (RuntimeError (mismatch_msg ckpt_tp_pp run_tp_pp
                           +:+ ": not supported for DistributedOptimizer"))
        (with_trace (w_trace w1 ++ [warning]) w1)
  else
    ∀ stages, w_model w1 = ModuleList stages →
      ∃ sharded evs,
        format_gate load_dir w
        = Ok (mkLoadKwargs (Some sharded) (Some (a_exit_on_missing_checkpoint args)),
              true)
            (with_trace (w_trace w1 ++ warning :: evs) w1)
        ∧ sharded !! "rng_state" = (if a_no_save_rng args then None else Some VNone).
Proof.
  intros Hgate Hpeek Hdist Hargs args ckpt_tp_pp run_tp_pp Hmis warning.
  assert (Hrun :
    format_gate load_dir w
    = (let* rng_state :=
         (print_rank_0 (mismatch_msg ckpt_tp_pp run_tp_pp
                        +:+ ": RNG state will be ignored") ;;; ret VNone) in
       if negb (pair_eqb ckpt_tp_pp run_tp_pp) && negb release
          && negb (a_finetune args) && negb (a_no_load_optim args)
          && a_use_distributed_optimizer args
       then raise (RuntimeError (mismatch_msg ckpt_tp_pp run_tp_pp
                                 +:+ ": not supported for DistributedOptimizer"))
       else
         let optim_sd_kwargs : gmap string Value := {[ "is_loading" := VBool true ]} in
         let optim_sd_kwargs :=
           if a_use_distributed_optimizer args then
             <["sharding_type" :=
                 VStr (if getattr_bool a_ckpt_fully_parallel_save (VArgs ckpt_args)
                       then "fully_sharded_bucket_space"
                       else "dp_zero_gather_scatter")]> optim_sd_kwargs
           else optim_sd_kwargs in
         let* sharded :=
           generate_state_dict args
             (unwrap_model (w_model w1) ALL_MODULE_WRAPPER_CLASSNAMES)
             (w_optimizer w1) (w_scheduler w1)
             rng_state (a_use_dist_ckpt args) None (Some optim_sd_kwargs) in
         ret (mkLoadKwargs (Some sharded) (Some (a_exit_on_missing_checkpoint args)),
              true)) w1).
  { unfold format_gate. unfold bind at 1. unfold get_args at 1.
    rewrite Hgate. unfold bind at 1. rewrite Hpeek.
    unfold bind at 1. unfold check_is_distributed_checkpoint. rewrite Hdist.
    unfold bind at 1. unfold lift at 1, getitem. rewrite Hargs. unfold ret at 1.
    unfold bind at 1. unfold lift at 1, ckpt_tp_pp_of. unfold ret at 1.
    unfold bind at 1. unfold get_world at 1.
    fold args. fold ckpt_tp_pp. fold run_tp_pp. rewrite Hmis. reflexivity. }
  rewrite Hrun. clear Hrun.
  unfold bind at 1. unfold bind at 1. unfold print_rank_0, emit, modify. unfold ret at 1.
  rewrite Hmis. cbn [negb andb].
  destruct (negb release && negb (a_finetune args) && negb (a_no_load_optim args)
            && a_use_distributed_optimizer args) eqn:Hfatal.
  - reflexivity.
  - intros stages Hmodel. rewrite Hmodel.
    change (unwrap_model (ModuleList stages) ALL_MODULE_WRAPPER_CLASSNAMES)
      with (ModuleList (map (unwrap_module ALL_MODULE_WRAPPER_CLASSNAMES) stages)).
    unfold bind at 1. unfold bind at 1. unfold ret at 1.
    fold warning. unfold bind at 1.
    match goal with
    | |- context [generate_state_dict ?a (ModuleList ?m) ?o ?s ?r ?d ?it ?kw ?w0] =>
        destruct (generate_state_dict_spec a m o s r d it kw w0)
          as (sharded & evs & Hgen & _ & _ & _ & _ & _ & _ & _ & Hrng & _)
    end.
    exists sharded, evs. split.
    + rewrite Hgen. unfold ret. f_equal.
      destruct w1; unfold with_trace; simpl. by rewrite <- app_assoc.
    + rewrite Hrng. by destruct (a_no_save_rng args).
Qed.

(** C2, a run of the fatal case: (tp=2, pp=2) recorded, (tp=4, pp=1) live,
    distributed optimizer, nothing suppressed. *)
Lemma gate_mismatch_is_fatal :
  ∃ w',
    format_gate (H := SpecHelpers.helpers) "/ckpt" (MismatchExample.live false)
    = Raise (RuntimeError
               ("(TP, PP) mismatch after resume ((2, 2) vs (4, 1) from checkpoint)"
                +:+ ": not supported for DistributedOptimizer")) w'.
Proof.
  eexists.
  refine (gate_on_mismatch (H := SpecHelpers.helpers) "/ckpt"
            (MismatchExample.live false) MismatchExample.record
            MismatchExample.saved_args "/ckpt/iter_5" false
            (MismatchExample.live false) _ _ _ _ _).
  - reflexivity.
  - vm_compute. reflexivity.
  - vm_compute. reflexivity.
  - vm_compute. reflexivity.
  - vm_compute. reflexivity.
Defined.

(** C2, the claim as stated fails: with the same mismatch, the distributed
    optimizer in use and a load that is neither release nor finetune, the
    gate does not raise once [no_load_optim] is set, and the whole load
    returns. *)
Lemma mismatch_not_fatal_under_no_load_optim :
  let w := MismatchExample.live true in
  a_use_distributed_optimizer (w_args w) = true
  ∧ a_finetune (w_args w) = false
  ∧ (∃ kwargs w', format_gate (H := SpecHelpers.helpers) "/ckpt" w
                  = Ok (kwargs, true) w')
  ∧ (∃ w', load_checkpoint (H := SpecHelpers.helpers) a_load true w
           = Ok (VInt 5, VInt 1000) w').
Proof.
  split_and!; [reflexivity | reflexivity | |].
  - eexists _, _. vm_compute. reflexivity.
  - eexists. vm_compute. reflexivity.
Qed.

(** ** Release and finetune loads, and the iteration *)

Lemma untouched_refl w : untouched_restorables w w.
Proof. by split_and!. Qed.

Lemma untouched_trans w1 w2 w3 :
  untouched_restorables w1 w2 → untouched_restorables w2 w3 →
  untouched_restorables w1 w3.
Proof. intros (?&?&?&?) (?&?&?&?). split_and!; congruence. Qed.

Lemma only_model_changed_refl w : only_model_changed w w.
Proof.
  split_and!; try done.
  - exists []. by rewrite app_nil_r.
  - intros stages Hm. by exists stages.
Qed.

Lemma only_model_changed_trans w1 w2 w3 :
  only_model_changed w1 w2 → only_model_changed w2 w3 → only_model_changed w1 w3.
Proof.
  intros (A1&P1&F1&M1&R1&O1&S1&(e1&T1)&L1) (A2&P2&F2&M2&R2&O2&S2&(e2&T2)&L2).
  split_and!; try congruence.
  - exists (e1 ++ e2). by rewrite T2, T1, <- app_assoc.
  - intros stages Hm. destruct (L1 _ Hm) as (s' & Hm' & Hl').
    destruct (L2 _ Hm') as (s'' & Hm'' & Hl''). exists s''. split; [done | congruence].
Qed.

Lemma only_model_changed_untouched w w' :
  only_model_changed w w' → untouched_restorables w w'.
Proof. intros (A&P&F&M&R&O&S&_). split_and!; congruence. Qed.

Lemma model_load_state_dict_frame i v strict :
  preserves only_model_changed (model_load_state_dict i v strict).
Proof.
  intros w. unfold model_load_state_dict, modify. simpl.
  destruct (w_model w) as [m | l] eqn:Hm.
  - apply only_model_changed_refl.
  - split_and!; try done.
    + exists []. simpl. by rewrite app_nil_r.
    + intros stages Hs. simpl. eexists. split; [reflexivity |].
      rewrite length_alter. congruence.
Qed.

Lemma emit_frame e : preserves only_model_changed (emit e).
Proof.
  intros w. unfold emit, modify. simpl. split_and!; try done.
  - by exists [e].
  - intros stages Hs. by exists stages.
Qed.

(** The model stage returns when LoRA is off and the record has the entries
    of the live stages; it changes the live model only. *)
Lemma restore_model_ok sd strict w :
  a_lora (w_args w) = false →
  model_entries_present (w_model w) sd →
  ∃ w', restore_model (VDict sd) strict w = Ok tt w' ∧ only_model_changed w w'.
Proof.
  intros Hlora (stages & Hmodel & Hentries).
  unfold restore_model. unfold bind at 1. unfold get_args. rewrite Hlora.
  unfold bind at 1. unfold get_world. rewrite Hmodel.
  change (unwrap_model (ModuleList stages) ALL_MODULE_WRAPPER_CLASSNAMES)
    with (ModuleList (map (unwrap_module ALL_MODULE_WRAPPER_CLASSNAMES) stages)).
  cbv iota beta. rewrite length_map.
  destruct (Nat.eqb (length stages) 1) eqn:Hlen.
  - destruct Hentries as [v Hv]. unfold bind, lift, getitem. rewrite Hv. simpl.
    eexists. split; [reflexivity |].
    apply (model_load_state_dict_frame 0 v _ w).
  - set (body := λ i : nat,
        set_virtual_pipeline_model_parallel_rank i ;;;
        (let* v := lift (getitem (VDict sd) ("model" +:+ pretty i)) in
         model_load_state_dict i v (if a_retro_add_retriever (w_args w) then false else strict))).
    assert (Hloop : ∀ l w0,
      (∀ i, i ∈ l → is_Some (sd !! ("model" +:+ pretty i))) →
      ∃ w', for_each l body w0 = Ok tt w' ∧ only_model_changed w0 w').
    { induction l as [| i l IH]; intros w0 Hl; simpl.
      - exists w0. split; [done | apply only_model_changed_refl].
      - destruct (Hl i) as [v Hv]; [set_solver |].
        unfold bind at 1. unfold body at 1.
        unfold bind at 1. unfold set_virtual_pipeline_model_parallel_rank at 1.
        unfold emit at 1, modify at 1.
        unfold bind at 1. unfold lift at 1, getitem at 1. rewrite Hv. unfold ret at 1.
        unfold model_load_state_dict at 1. unfold modify at 1.
        match goal with |- context [for_each l body ?w1] =>
          destruct (IH w1) as (w' & Hrun & Hfr); [intros j Hj; apply Hl; set_solver |];
          pose proof (only_model_changed_trans w0 _ _
            (only_model_changed_trans _ _ _ (emit_frame (ESetVirtualRank i) w0)
               (model_load_state_dict_frame i v
                  (if a_retro_add_retriever (w_args w) then false else strict) _))
            Hfr) as Hall
        end.
        exists w'. split; [exact Hrun | exact Hall]. }
    apply Hloop. intros i Hi. apply Hentries.
    apply elem_of_seq in Hi. lia.
Qed.

Lemma restore_model_untouched sd strict :
  preserves untouched_restorables (restore_model sd strict).
Proof.
  unfold restore_model.
  apply (preserves_bind _ untouched_trans); [apply (preserves_get_args _ untouched_refl) |].
  intros args. destruct (a_lora args); [apply (preserves_raise _ untouched_refl) |].
  apply (preserves_bind _ untouched_trans); [apply (preserves_get_world _ untouched_refl) |].
  intros w0. destruct (unwrap_model _ _); [apply (preserves_raise _ untouched_refl) |].
  assert (Hload : ∀ i v s, preserves untouched_restorables (model_load_state_dict i v s)).
  { intros i v s w. apply only_model_changed_untouched, model_load_state_dict_frame. }
  destruct (Nat.eqb _ _).
  - apply (preserves_bind _ untouched_trans); [apply (preserves_lift _ untouched_refl) |].
    intros v. apply Hload.
  - apply (preserves_for_each _ untouched_refl untouched_trans). intros i.
    apply (preserves_bind _ untouched_trans).
    + intros w. apply only_model_changed_untouched, emit_frame.
    + intros _. apply (preserves_bind _ untouched_trans);
        [apply (preserves_lift _ untouched_refl) | intros v; apply Hload].
Qed.

Lemma zero_counters_finetune a a' :
  zero_counters a' = zero_counters a → a_finetune a' = a_finetune a.
Proof. intros Heq. by apply (f_equal a_finetune) in Heq. Qed.

Lemma only_counters_changed_untouched w w' :
  only_counters_changed w w' → untouched_restorables w w'.
Proof. intros (A&P&F&M&R&Mo&O&S&_). split_and!; congruence. Qed.

(** The argument check returns when both live counters are zero. *)
Lemma check_arguments_ok sd w :
  a_consumed_train_samples (w_args w) = 0 →
  a_consumed_valid_samples (w_args w) = 0 →
  ∃ w', check_arguments (VDict sd) w = Ok tt w' ∧ only_counters_changed w w'.
Proof.
  intros Ht Hv.
  unfold check_arguments, bind, get_args, py_assert, lift, contains, getitem,
    ret, raise, print_rank_0, update_num_microbatches, emit, modify.
  rewrite Ht, Hv. simpl.
  destruct (sd !! "args") as [v |] eqn:Hargs;
    [rewrite bool_decide_true by eauto
    | rewrite bool_decide_false by (intros [? ?]; congruence)];
    destruct (a_finetune (w_args w)) eqn:Hft; simpl;
    (eexists; split; [reflexivity |]);
    split_and!; try done; simpl;
    try (by destruct (w_args w));
    try (eexists; by rewrite <- ?app_assoc).
Qed.

Lemma check_arguments_untouched sd :
  preserves untouched_restorables (check_arguments sd).
Proof.
  assert (Hsilent : ∀ f : World → World,
    (∀ w, untouched_restorables w (f w)) → preserves untouched_restorables (modify f)).
  { intros f Hf w. apply Hf. }
  unfold check_arguments, print_rank_0, update_num_microbatches, emit.
  repeat first
    [ apply (preserves_py_assert _ untouched_refl)
    | apply (preserves_lift _ untouched_refl)
    | apply (preserves_get_args _ untouched_refl)
    | apply Hsilent; intros []; by split_and!
    | apply (preserves_bind _ untouched_trans); [| intros ?]
    | match goal with
      | |- preserves _ (if ?b then _ else _) => destruct b
      end ].
Qed.

(** In a release or finetune load the optimizer stage restores nothing and
    hands the iteration and the release flag through. *)
Lemma restore_optimizer_skipped `{H : Helpers} sd load_dir checkpoint_name
    is_dist_ckpt iteration release w :
  a_finetune (w_args w) || release = true →
  ∃ w', restore_optimizer sd load_dir checkpoint_name is_dist_ckpt iteration release w
        = Ok (iteration, release) w'
        ∧ untouched_restorables w w'
        ∧ w_args w' = w_args w ∧ w_proc w' = w_proc w
        ∧ w_trace w' = w_trace w.
Proof.
  intros Hskip. unfold restore_optimizer. unfold bind at 1. unfold get_args.
  unfold bind at 1. unfold get_world.
  assert (negb release && negb (a_finetune (w_args w)) && negb (a_no_load_optim (w_args w))
          = false) as ->.
  { destruct release, (a_finetune (w_args w)); simpl in *; done. }
  unfold bind, optimizer_reload_model_params, modify, ret.
  destruct ((a_fp16 (w_args w) || a_bf16 (w_args w))
            && bool_decide (is_Some (w_optimizer w)));
    (eexists; split; [reflexivity |]);
    destruct (w_optimizer w) as [o |] eqn:Ho;
    unfold untouched_restorables; simpl; rewrite ?Ho; by split_and!.
Qed.

Lemma restore_rng_skipped sd checkpoint_name release w :
  a_finetune (w_args w) || release = true →
  restore_rng sd checkpoint_name release w = Ok tt w.
Proof.
  intros Hskip. unfold restore_rng, bind, get_args.
  assert (negb release && negb (a_finetune (w_args w)) && negb (a_no_load_rng (w_args w))
          = false) as ->.
  { destruct release, (a_finetune (w_args w)); simpl in *; done. }
  done.
Qed.

Lemma with_trace_twice t t' w : with_trace t (with_trace t' w) = with_trace t w.
Proof. reflexivity. Qed.

Lemma finish_load_ok load_dir iteration w :
  ∃ evs, finish_load load_dir iteration w = Ok tt (with_trace (w_trace w ++ evs) w).
Proof.
  unfold finish_load, bind, get_proc, barrier, print_rank_0, emit, modify, ret.
  destruct (p_initialized (w_proc w)).
  - eexists (EBarrier :: [_]). f_equal.
    rewrite with_trace_twice. simpl. by rewrite <- app_assoc.
  - by eexists [_].
Qed.

(** The three outcomes of the iteration step. *)
Lemma set_iteration_skip sd checkpoint_name release w :
  a_finetune (w_args w) || release = true →
  set_iteration sd checkpoint_name release w = Ok (VInt 0) w.
Proof. intros Hskip. unfold set_iteration, bind, get_args. by rewrite Hskip. Qed.

Lemma set_iteration_record sd checkpoint_name release w :
  a_finetune (w_args w) || release = false →
  match record_iteration sd with
  | Some v => set_iteration (VDict sd) checkpoint_name release w = Ok v w
  | None =>
      set_iteration (VDict sd) checkpoint_name release w
      = Raise SystemExit
          (with_trace
             (w_trace w ++
              [EPrint ("A metadata file exists but unable to load "
                       +:+ "iteration from checkpoint " +:+ checkpoint_name
                       +:+ ", exiting")]) w)
  end.
Proof.
  intros Hskip. unfold record_iteration, set_iteration, bind, get_args.
  rewrite Hskip. unfold try_except, lift, getitem.
  destruct (sd !! "iteration") as [v |]; [done |].
  destruct (sd !! "total_iters") as [v |]; done.
Qed.

(** * Further properties of the checkpoint code *)

(** ** [unwrap_model], once more *)

Lemma unwrap_module_idempotent cs m :
  unwrap_module cs (unwrap_module cs m) = unwrap_module cs m.
Proof. apply unwrap_module_id, unwrap_module_not_instance. Qed.

(** Unwrapping an unwrapped model changes nothing, for one module and for a
    list alike. *)
Theorem unwrap_model_idempotent cs model :
  unwrap_model (unwrap_model model cs) cs = unwrap_model model cs.
Proof.
  destruct model as [m | l]; unfold unwrap_model; simpl.
  - by rewrite unwrap_module_idempotent.
  - f_equal. rewrite map_map. apply map_ext. intros m.
    apply unwrap_module_idempotent.
Qed.

(** ** Names of the Zero2 optimizer shards *)









(** ** What [save_checkpoint] writes *)

Lemma generate_model_entries_any_world d stages :
  ∀ i sd w sd' w', generate_model_entries d i stages sd w = Ok sd' w' →
    ∀ w0, ∃ w0', generate_model_entries d i stages sd w0 = Ok sd' w0'.
Proof.
  induction stages as [| m rest IH]; intros i sd w sd' w' Hrun w0; simpl in *.
  - unfold ret in *. injection Hrun as <- _. by eexists.
  - unfold bind at 1 in Hrun. unfold bind at 1. simpl in *.
    eapply IH. exact Hrun.
Qed.

(** The record [generate_state_dict] builds does not depend on the world it
    runs in. *)
Lemma generate_state_dict_any_world args model optimizer sched rng d it kw w sd w' :
  generate_state_dict args model optimizer sched rng d it kw w = Ok sd w' →
  ∀ w0, ∃ evs,
    generate_state_dict args model optimizer sched rng d it kw w0
    = Ok sd (with_trace (w_trace w0 ++ evs) w0).
Proof.
  intros Hrun w0.
  destruct model as [m | stages].
  { unfold generate_state_dict, bind, raise in Hrun. discriminate Hrun. }
  destruct (generate_state_dict_spec args stages optimizer sched rng d it kw w0)
    as (sd0 & evs & Hrun0 & _).
  exists evs. rewrite Hrun0. f_equal.
  unfold generate_state_dict, bind in Hrun, Hrun0.
  destruct (Nat.eqb (length stages) 1).
  - destruct (stages !! 0%nat); [| discriminate Hrun].
    unfold ret in *. congruence.
  - match type of Hrun with
    | context [generate_model_entries ?d' ?i ?l ?s w] =>
        destruct (generate_model_entries d' i l s w) as [sdm wm |] eqn:Hm;
          [| discriminate Hrun];
        destruct (generate_model_entries_any_world _ _ _ _ _ _ _ Hm w0) as (wm0 & Hm0);
        rewrite Hm0 in Hrun0
    end.
    unfold ret in *. congruence.
Qed.

Lemma with_trace_with_fs t f w :
  with_trace t (with_fs f w) = with_fs f (with_trace t w).
Proof. reflexivity. Qed.

(** The first part of [save_checkpoint] on a model given as a list: it
    returns, the files are [saved_files] for a record [sd] with the entries
    of [is_saved_record], and nothing else changes but the trace. *)
(** Projections and setters of the world, for rewriting. *)
Lemma w_trace_with_trace t w : w_trace (with_trace t w) = t.
Proof. reflexivity. Qed.
Lemma w_trace_with_fs f w : w_trace (with_fs f w) = w_trace w.
Proof. reflexivity. Qed.
Lemma w_fs_with_trace t w : w_fs (with_trace t w) = w_fs w.
Proof. reflexivity. Qed.
Lemma w_fs_with_fs f w : w_fs (with_fs f w) = f.
Proof. reflexivity. Qed.
Lemma with_fs_twice f f' w : with_fs f (with_fs f' w) = with_fs f w.
Proof. reflexivity. Qed.
Lemma with_fs_with_trace f t w :
  with_fs f (with_trace t w) = with_trace t (with_fs f w).
Proof. reflexivity. Qed.
Lemma with_fs_same w : with_fs (w_fs w) w = w.
Proof. by destruct w. Qed.

Create Rewrite HintDb world.
#[local] Hint Rewrite w_trace_with_trace w_trace_with_fs w_fs_with_trace w_fs_with_fs
  with_fs_twice with_fs_with_trace with_trace_twice : world.

Lemma torch_save_run obj path w :
  torch_save obj path w
  = Ok tt (with_trace (w_trace w ++ [EWrite path])
             (with_fs (<[path := FPickle obj []]> (w_fs w)) w)).
Proof. reflexivity. Qed.

Lemma dist_checkpointing_save_run sd path w :
  dist_checkpointing_save sd path w
  = Ok tt (with_trace (w_trace w ++ [EWrite path])
             (with_fs (<[path := FDistCkpt sd]> (w_fs w)) w)).
Proof. reflexivity. Qed.

Lemma silent_run w : w = with_trace (w_trace w ++ []) (with_fs (w_fs w) w).
Proof. rewrite app_nil_r. by destruct w. Qed.

Lemma w_optimizer_with_trace t w : w_optimizer (with_trace t w) = w_optimizer w.
Proof. reflexivity. Qed.

Lemma save_state_run `{H : Helpers} iteration flops w stages :
  w_model w = ModuleList stages →
  ∃ sd evs,
    save_state iteration flops w
    = Ok tt (with_trace (w_trace w ++ evs) (with_fs (saved_files w iteration sd) w))
    ∧ is_saved_record w stages iteration flops sd.
Proof.
  intros Hmodel.
  destruct (generate_state_dict_spec (w_args w)
              (map (unwrap_module ALL_MODULE_WRAPPER_CLASSNAMES) stages)
              (w_optimizer w) (w_scheduler w)
              (get_rng_state (a_use_dist_ckpt (w_args w)) w)
              (a_use_dist_ckpt (w_args w)) (Some iteration)
              (Some (save_optim_sd_kwargs (w_args w))) w)
    as (sd & evsg & Hrung & Hargs & Hit & Hti & Hlr & Hfl & Hopt & Hsch & Hrng & H1 & Hn).
  exists (<["num_floating_point_operations_so_far" := flops]> sd).
  assert (Hrec : is_saved_record w stages iteration flops
                   (<["num_floating_point_operations_so_far" := flops]> sd)).
  { unfold is_saved_record. rewrite length_map in H1, Hn.
    split_and!;
      first
        [ rewrite lookup_insert_ne by done; assumption
        | apply lookup_insert_eq
        | intros Hl m Hm; rewrite lookup_insert_ne by done; by apply H1
        | intros Hl j m Hm; rewrite lookup_insert_ne by stage_key_ne; by apply Hn ]. }
  pose proof (generate_state_dict_any_world _ _ _ _ _ _ _ _ _ _ _ Hrung) as Hgen.
  clear Hrung Hargs Hit Hti Hlr Hfl Hopt Hsch Hrng H1 Hn.
  enough (Hcps : ∀ P : Outcome unit → Prop,
            (∀ evs, P (Ok tt (with_trace (w_trace w ++ evs)
                         (with_fs (saved_files w iteration
                            (<["num_floating_point_operations_so_far" := flops]> sd)) w)))) →
            P (save_state iteration flops w)).
  { apply (Hcps (λ r, ∃ evs, r = Ok tt (with_trace (w_trace w ++ evs)
                         (with_fs (saved_files w iteration
                            (<["num_floating_point_operations_so_far" := flops]> sd)) w))
                      ∧ is_saved_record w stages iteration flops
                          (<["num_floating_point_operations_so_far" := flops]> sd))).
    intros evs. by exists evs. }
  clear Hrec. intros P HP.
  unfold saved_files in HP.
  unfold save_state.
  unfold bind at 1. unfold get_args at 1.
  unfold bind at 1. unfold get_proc at 1.
  unfold bind at 1. unfold get_world at 1.
  rewrite Hmodel.
  change (unwrap_model (ModuleList stages) ALL_MODULE_WRAPPER_CLASSNAMES)
    with (ModuleList (map (unwrap_module ALL_MODULE_WRAPPER_CLASSNAMES) stages)).
  set (ckpt := get_checkpoint_name (w_proc w) (a_save (w_args w)) iteration false
                 (a_use_dist_ckpt (w_args w))) in *.
  unfold bind at 1. unfold print_rank_0 at 1, emit at 1, modify at 1.
  (* the distributed optimizer's parameter state *)
  unfold bind at 1.
  lazymatch goal with
  | |- P (match ?x with _ => _ end) =>
      lazymatch x with ?c ?w1 =>
      assert (∀ w0, w_optimizer w0 = w_optimizer w → ∃ evs, c w0
        = Ok tt (with_trace (w_trace w0 ++ evs)
            (with_fs
               (match w_optimizer w with
                | Some o =>
                    if a_use_distributed_optimizer (w_args w)
                       && negb (a_no_save_optim (w_args w))
                       && negb (a_use_dist_ckpt (w_args w))
                    then <[get_distributed_optimizer_checkpoint_name ckpt :=
                             FPickle (opt_param_state o) []]> (w_fs w0)
                    else w_fs w0
                | None => w_fs w0
                end) w0))) as Hpart1;
      [| destruct (Hpart1 w1 eq_refl) as (evs1 & ->); clear Hpart1]
      end
  end.
  { intros w0 Hw0.
    destruct (w_optimizer w) as [o |] eqn:Ho;
      [rewrite !bool_decide_true by eauto
      | rewrite !bool_decide_false by (intros [? ?]; congruence)];
      rewrite ?andb_true_r, ?andb_false_r;
      try (exists []; apply (f_equal (Ok tt)), silent_run).
    destruct (a_use_distributed_optimizer (w_args w) && negb (a_no_save_optim (w_args w))
              && negb (a_use_dist_ckpt (w_args w)));
      [| exists []; apply (f_equal (Ok tt)), silent_run].
    unfold ensure_directory_exists, optimizer_save_parameter_state,
      bind, emit, modify, get_world. rewrite w_optimizer_with_trace, Hw0.
    rewrite torch_save_run. autorewrite with world.
    eexists [_; _]. by rewrite <- app_assoc. }
  cbv beta iota. autorewrite with world.
  (* this rank's Zero2 shard *)
  unfold bind at 1.
  lazymatch goal with
  | |- P (match ?x with _ => _ end) =>
      lazymatch x with ?c ?w1 =>
      assert (∀ w0, w_optimizer w0 = w_optimizer w → ∃ evs, c w0
        = Ok tt (with_trace (w_trace w0 ++ evs)
            (with_fs
               (match w_optimizer w with
                | Some o =>
                    if a_use_zero2 (w_args w) && negb (a_no_save_optim (w_args w))
                    then <[get_zero2_optimizer_checkpoint_name ckpt
                             (p_dp_rank (w_proc w)) (p_cp_rank (w_proc w)) :=
                             FPickle (opt_state o) []]> (w_fs w0)
                    else w_fs w0
                | None => w_fs w0
                end) w0))) as Hpart2;
      [| destruct (Hpart2 w1 eq_refl) as (evs2 & ->); clear Hpart2]
      end
  end.
  { intros w0 Hw0.
    destruct (w_optimizer w) as [o |] eqn:Ho;
      [rewrite !bool_decide_true by eauto
      | rewrite !bool_decide_false by (intros [? ?]; congruence)];
      rewrite ?andb_true_r, ?andb_false_r;
      try (exists []; apply (f_equal (Ok tt)), silent_run).
    destruct (a_use_zero2 (w_args w) && negb (a_no_save_optim (w_args w)));
      [| exists []; apply (f_equal (Ok tt)), silent_run].
    unfold ensure_directory_exists, zero2_optimizer_save,
      bind, emit, modify, get_world. rewrite w_optimizer_with_trace, Hw0.
    rewrite torch_save_run. autorewrite with world.
    eexists [_; _]. by rewrite <- app_assoc. }
  cbv beta iota. autorewrite with world.
  (* the record *)
  set (record := <["num_floating_point_operations_so_far" := flops]> sd) in *.
  lazymatch goal with
  | |- P (?c ?w1) =>
      assert (∀ w0, ∃ evs, c w0
        = Ok tt (with_trace (w_trace w0 ++ evs)
            (with_fs
               (if negb (p_initialized (w_proc w)) || Z.eqb (p_dmep_rank (w_proc w)) 0
                   || a_use_dist_ckpt (w_args w)
                then <[ckpt :=
                         if a_use_dist_ckpt (w_args w)
                         then FDistCkpt (VDict record)
                         else FPickle (VDict record) []]> (w_fs w0)
                else w_fs w0) w0))) as Hpart3;
      [| destruct (Hpart3 w1) as (evs3 & ->); clear Hpart3]
  end.
  { intros w0.
    destruct (negb (p_initialized (w_proc w)) || Z.eqb (p_dmep_rank (w_proc w)) 0
              || a_use_dist_ckpt (w_args w));
      [| exists []; apply (f_equal (Ok tt)), silent_run].
    unfold save_optim_sd_kwargs in Hgen. rewrite <- insert_empty in Hgen.
    unfold bind at 1.
    destruct (a_use_dist_ckpt (w_args w) && a_use_distributed_optimizer (w_args w)) eqn:Hk;
      rewrite ?Hk in Hgen.
    - unfold bind at 1, print_rank_0 at 1, emit at 1, modify at 1, ret at 1.
      unfold bind at 1.
      match goal with
      | |- context [generate_state_dict ?a ?m ?oo ?s ?r ?d ?i ?k ?w0'] =>
          destruct (Hgen w0') as (evs0 & ->)
      end.
      fold record.
      destruct (a_use_dist_ckpt (w_args w)); [| discriminate Hk].
      unfold ensure_directory_exists, bind, emit, modify, ret.
      destruct (negb (p_initialized (w_proc w)) || Z.eqb (p_rank (w_proc w)) 0);
        rewrite dist_checkpointing_save_run; autorewrite with world;
        eexists; rewrite <- !app_assoc; reflexivity.
    - unfold ret at 1. unfold bind at 1.
      match goal with
      | |- context [generate_state_dict ?a ?m ?oo ?s ?r ?d ?i ?k ?w0'] =>
          destruct (Hgen w0') as (evs0 & ->)
      end.
      fold record.
      unfold ensure_directory_exists, bind, emit, modify, ret.
      destruct (a_use_dist_ckpt (w_args w));
        [destruct (negb (p_initialized (w_proc w)) || Z.eqb (p_rank (w_proc w)) 0) |];
        rewrite ?dist_checkpointing_save_run, ?torch_save_run; autorewrite with world;
        eexists; rewrite <- !app_assoc; reflexivity. }
  autorewrite with world. rewrite <- !app_assoc. apply HP.
Qed.

(** What the synchronisation part does to the world: a tracker write on the
    writing rank, and trace events. *)
Lemma save_sync_files `{H : Helpers} iteration w :
  ∃ evs, save_sync iteration w
    = Ok tt (with_trace (w_trace w ++ evs)
               (with_fs (if negb (p_initialized (w_proc w)) || Z.eqb (p_rank (w_proc w)) 0
                         then <[get_checkpoint_tracker_filename (a_save (w_args w))
                                  := FText (pretty iteration)]> (w_fs w)
                         else w_fs w) w)).
Proof.
  unfold save_sync, bind, get_args, get_proc, barrier, print_rank_0,
    write_text, emit, modify, ret.
  destruct (p_initialized (w_proc w)), (Z.eqb (p_rank (w_proc w)) 0); simpl;
    eexists; f_equal; unfold with_trace, with_fs; simpl; f_equal;
    rewrite <- ?app_assoc; try reflexivity.
  all: try (destruct w; reflexivity).
Qed.

(** [save_checkpoint] as a whole on a model given as a list. *)
Lemma save_checkpoint_run `{H : Helpers} iteration flops w stages :
  w_model w = ModuleList stages →
  ∃ sd evs,
    save_checkpoint iteration flops w
    = Ok tt (with_trace (w_trace w ++ evs)
               (with_fs (if negb (p_initialized (w_proc w)) || Z.eqb (p_rank (w_proc w)) 0
                         then <[get_checkpoint_tracker_filename (a_save (w_args w))
                                  := FText (pretty iteration)]>
                                (saved_files w iteration sd)
                         else saved_files w iteration sd) w))
    ∧ is_saved_record w stages iteration flops sd.
Proof.
  intros Hmodel.
  destruct (save_state_run iteration flops w stages Hmodel) as (sd & evs & Hrun & Hrec).
  exists sd. unfold save_checkpoint, bind. rewrite Hrun.
  match goal with |- context [save_sync iteration ?w1] =>
    destruct (save_sync_files iteration w1) as (evs' & ->)
  end.
  exists (evs ++ evs'). split; [| exact Hrec].
  f_equal. simpl. by rewrite <- app_assoc.
Qed.

(** Saving a model given as a list never fails, and changes nothing of the
    live run but the files and the trace: the arguments, the process
    identity, the module registry, the generators, the model, the optimizer
    and the scheduler are as before. *)
Theorem save_checkpoint_and_time_frame `{H : Helpers} iteration flops w stages :
  w_model w = ModuleList stages →
  ∃ w', save_checkpoint_and_time iteration flops w = Ok tt w'
    ∧ w_args w' = w_args w ∧ w_proc w' = w_proc w
    ∧ w_modules w' = w_modules w ∧ w_rng w' = w_rng w
    ∧ w_model w' = w_model w ∧ w_optimizer w' = w_optimizer w
    ∧ w_scheduler w' = w_scheduler w.
Proof.
  intros Hmodel.
  destruct (save_checkpoint_run iteration flops w stages Hmodel) as (sd & evs & Hrun & _).
  unfold save_checkpoint_and_time. rewrite Hrun. eexists. split; [reflexivity |].
  by split_and!.
Qed.

(** A rank that writes neither the record nor the tracker (distributed
    execution initialized, data-modulo-expert-parallel rank and global rank
    both nonzero, monolithic format) and saves no optimizer state leaves the
    files exactly as they were. *)
Theorem save_checkpoint_idle_rank `{H : Helpers} iteration flops w stages :
  w_model w = ModuleList stages →
  p_initialized (w_proc w) = true →
  p_dmep_rank (w_proc w) ≠ 0 →
  p_rank (w_proc w) ≠ 0 →
  a_use_dist_ckpt (w_args w) = false →
  a_no_save_optim (w_args w) = true →
  ∃ w', save_checkpoint iteration flops w = Ok tt w' ∧ w_fs w' = w_fs w.
Proof.
  intros Hmodel Hi Hdm Hr Hd Hns.
  destruct (save_checkpoint_run iteration flops w stages Hmodel) as (sd & evs & Hrun & _).
  rewrite Hrun. eexists. split; [reflexivity |]. simpl.
  unfold saved_files. rewrite Hi, Hd, Hns.
  apply Z.eqb_neq in Hdm, Hr. rewrite Hdm, Hr. simpl.
  rewrite !andb_false_r. by destruct (w_optimizer w).
Qed.

(** Under Zero2 the optimizer state travels apart from the record: on a rank
    that writes the record in the monolithic format, the record file has no
    ['optimizer'] entry and the rank's own shard file holds
    [optimizer.state_dict()]. *)
Theorem save_zero2_optimizer_in_shard `{H : Helpers} iteration flops w stages o :
  w_model w = ModuleList stages →
  w_optimizer w = Some o →
  a_use_zero2 (w_args w) = true →
  a_no_save_optim (w_args w) = false →
  a_use_dist_ckpt (w_args w) = false →
  negb (p_initialized (w_proc w)) || Z.eqb (p_dmep_rank (w_proc w)) 0 = true →
  let checkpoint_name :=
    get_checkpoint_name (w_proc w) (a_save (w_args w)) iteration false false in
  let shard :=
    get_zero2_optimizer_checkpoint_name checkpoint_name
      (p_dp_rank (w_proc w)) (p_cp_rank (w_proc w)) in
  shard ≠ checkpoint_name →
  ∃ w' sd,
    save_state iteration flops w = Ok tt w'
    ∧ w_fs w' !! checkpoint_name = Some (FPickle (VDict sd) [])
    ∧ sd !! "optimizer" = None
    ∧ w_fs w' !! shard = Some (FPickle (opt_state o) []).
Proof.
  intros Hmodel Ho Hz Hns Hd Hwr checkpoint_name shard Hne.
  destruct (save_state_run iteration flops w stages Hmodel)
    as (sd & evs & Hrun & Hrec).
  eexists. exists sd. split; [exact Hrun |].
  destruct Hrec as (_ & _ & _ & _ & _ & Hopt & _).
  rewrite Hz, Hns in Hopt. simpl in Hopt.
  rewrite w_fs_with_trace, w_fs_with_fs.
  unfold saved_files. rewrite Ho, Hz, Hns, Hd, orb_false_r, Hwr.
  fold checkpoint_name. fold shard. cbn [negb andb].
  split_and!.
  - apply lookup_insert_eq.
  - exact Hopt.
  - rewrite lookup_insert_ne by done. apply lookup_insert_eq.
Qed.

(** ** Release and finetune loads *)

Lemma zero_counters_lora a a' :
  zero_counters a' = zero_counters a → a_lora a' = a_lora a.
Proof. intros Heq. by apply (f_equal a_lora) in Heq. Qed.

(** A release load or a finetune load of a record that has the entries of
    the live stages. *)
Lemma release_or_finetune_run `{H : Helpers} load_arg strict w
    load_dir is_dist_ckpt sd checkpoint_name release w1 :
  load_record load_arg w
    = Ok (load_dir, is_dist_ckpt, (VDict sd, checkpoint_name, release)) w1 →
  a_finetune (w_args w1) || release = true →
  a_consumed_train_samples (w_args w1) = 0 →
  a_consumed_valid_samples (w_args w1) = 0 →
  a_lora (w_args w1) = false →
  model_entries_present (w_model w1) sd →
  ∃ w', load_checkpoint load_arg strict w
        = Ok (VInt 0,
              default (VInt 0) (sd !! "num_floating_point_operations_so_far")) w'
        ∧ untouched_restorables w1 w'.
Proof.
  intros Hrec Hskip Ht Hv Hlora Hentries.
  unfold load_checkpoint, restore_state, bind, lift, dict_get, ret.
  rewrite Hrec. cbv beta iota.
  rewrite (set_iteration_skip _ _ _ _ Hskip). cbv beta iota.
  destruct (check_arguments_ok sd w1 Ht Hv) as (w2 & -> & Hcnt). cbv beta iota.
  pose proof Hcnt as (Hz & _ & _ & _ & _ & Hmodel & _).
  assert (Hlora2 : a_lora (w_args w2) = false)
    by (rewrite <- Hlora; by apply zero_counters_lora).
  assert (Hskip2 : a_finetune (w_args w2) || release = true)
    by (rewrite (zero_counters_finetune _ _ Hz); exact Hskip).
  assert (Hentries2 : model_entries_present (w_model w2) sd) by (by rewrite Hmodel).
  destruct (restore_model_ok sd strict w2 Hlora2 Hentries2) as (w3 & -> & Hmod). cbv beta iota.
  pose proof Hmod as (Hargs3 & _).
  assert (Hskip3 : a_finetune (w_args w3) || release = true) by (by rewrite Hargs3).
  destruct (restore_optimizer_skipped (VDict sd) load_dir checkpoint_name is_dist_ckpt
              (VInt 0) release w3 Hskip3) as (w4 & -> & Hopt & Hargs4 & _). cbv beta iota.
  assert (Hskip4 : a_finetune (w_args w4) || release = true) by (by rewrite Hargs4).
  rewrite (restore_rng_skipped _ _ _ _ Hskip4). cbv beta iota.
  destruct (finish_load_ok load_dir (VInt 0) w4) as (evs & ->). cbv beta iota.
  eexists. split.
  - by destruct (sd !! "num_floating_point_operations_so_far").
  - eapply untouched_trans; [apply only_counters_changed_untouched, Hcnt |].
    eapply untouched_trans; [apply only_model_changed_untouched, Hmod |].
    eapply untouched_trans; [exact Hopt |].
    by split_and!.
Qed.

(** ** The iteration *)

(** Outside release and finetune loads a record that has neither an
    ['iteration'] nor a ['total_iters'] entry is fatal. *)
Lemma load_without_iteration_run `{H : Helpers} load_arg strict w
    load_dir is_dist_ckpt sd checkpoint_name release w1 :
  load_record load_arg w
    = Ok (load_dir, is_dist_ckpt, (VDict sd, checkpoint_name, release)) w1 →
  a_finetune (w_args w1) || release = false →
  sd !! "iteration" = None →
  sd !! "total_iters" = None →
  load_checkpoint load_arg strict w
  = Raise SystemExit
      (with_trace
         (w_trace w1 ++
          [EPrint ("A metadata file exists but unable to load "
                   +:+ "iteration from checkpoint " +:+ checkpoint_name
                   +:+ ", exiting")]) w1).
Proof.
  intros Hrec Hskip Hit Hti.
  pose proof (set_iteration_record sd checkpoint_name release w1 Hskip) as Hset.
  unfold record_iteration in Hset. rewrite Hit, Hti in Hset.
  unfold load_checkpoint, restore_state, bind.
  rewrite Hrec. cbv beta iota. by rewrite Hset.
Qed.

(** ** Optimizer and scheduler restoration *)

(** Without the distributed optimizer's separate parameter file (the
    distributed optimizer is off, or the checkpoint is sharded), optimizer
    restoration from a record that has the entries the live objects need
    returns, hands the iteration through, loads the record's ['optimizer']
    entry into the live optimizer and the record's scheduler state into the
    live scheduler, ['lr_scheduler'] taking precedence over
    ['opt_param_scheduler'] when both are there; nothing else changes. *)
Theorem restore_optimizer_from_record `{H : Helpers} sd load_dir checkpoint_name
    is_dist_ckpt iteration w :
  a_finetune (w_args w) = false →
  a_no_load_optim (w_args w) = false →
  a_use_distributed_optimizer (w_args w) && negb is_dist_ckpt = false →
  (is_Some (w_optimizer w) → is_Some (sd !! "optimizer")) →
  (is_Some (w_scheduler w) → is_Some (record_scheduler sd)) →
  ∃ w', restore_optimizer (VDict sd) load_dir checkpoint_name is_dist_ckpt
          iteration false w
        = Ok (iteration, false) w'
    ∧ w_optimizer w'
      = (λ o, mkOptimizer (default VNone (sd !! "optimizer"))
                (opt_param_state o) (opt_reloads o)) <$> w_optimizer w
    ∧ w_scheduler w' = (λ _, default VNone (record_scheduler sd)) <$> w_scheduler w
    ∧ w_args w' = w_args w ∧ w_proc w' = w_proc w ∧ w_fs w' = w_fs w
    ∧ w_modules w' = w_modules w ∧ w_rng w' = w_rng w ∧ w_model w' = w_model w
    ∧ w_trace w' = w_trace w.
Proof.
  intros Hft Hnl Hdo Hopt Hsch.
  unfold restore_optimizer. unfold bind at 1. unfold get_args.
  unfold bind at 1. unfold get_world. rewrite Hft, Hnl, Hdo. cbn [negb andb].
  unfold record_scheduler in *.
  unfold try_except, bind, lift, getitem, contains, ret,
    optimizer_load_state_dict, scheduler_load_state_dict, modify.
  destruct (w_optimizer w) as [o |] eqn:Ho.
  - destruct Hopt as [ov Hov]; [by eexists |]. rewrite Hov.
    destruct (w_scheduler w) as [s |] eqn:Hs.
    + destruct (sd !! "lr_scheduler") as [lr |] eqn:Hlr.
      * rewrite bool_decide_true by eauto. cbn. rewrite ?Ho, ?Hs.
        eexists. split; [reflexivity |]. cbn. rewrite ?Ho, ?Hs. by split_and!.
      * rewrite bool_decide_false by (intros [? ?]; congruence).
        destruct Hsch as [sv Hsv]; [by eexists |]. rewrite Hsv. cbn.
        rewrite ?Ho, ?Hs. eexists. split; [reflexivity |]. cbn. rewrite ?Ho, ?Hs. by split_and!.
    + cbn. rewrite ?Ho. eexists. split; [reflexivity |]. cbn. rewrite ?Hs. by split_and!.
  - destruct (w_scheduler w) as [s |] eqn:Hs.
    + destruct (sd !! "lr_scheduler") as [lr |] eqn:Hlr.
      * rewrite bool_decide_true by eauto. cbn. rewrite ?Hs.
        eexists. split; [reflexivity |]. cbn. rewrite ?Ho. by split_and!.
      * rewrite bool_decide_false by (intros [? ?]; congruence).
        destruct Hsch as [sv Hsv]; [by eexists |]. rewrite Hsv. cbn.
        rewrite ?Hs. eexists. split; [reflexivity |]. cbn. rewrite ?Ho. by split_and!.
    + cbn. eexists. split; [reflexivity |]. cbn. rewrite ?Ho, ?Hs. by split_and!.
Qed.

Lemma optimizer_guidance_names_flag checkpoint_name :
  mentions (optimizer_guidance checkpoint_name) "--no-load-optim".
Proof.
  exists ("Unable to load optimizer from checkpoint " +:+ checkpoint_name
          +:+ ". Specify "),
         (" or --finetune to prevent attempting to load the optimizer state, exiting ...").
  unfold optimizer_guidance. rewrite !string_app_assoc. reflexivity.
Qed.

(** When optimizer restoration applies (no release, no finetune,
    [no_load_optim] off) and there is a live optimizer, a record without an
    ['optimizer'] entry (one saved under [no_save_optim], say) is fatal: the
    message naming [--no-load-optim] is printed and the process exits, the
    live optimizer and scheduler being left as they were. *)
Theorem optimizer_fatal_with_guidance `{H : Helpers} sd load_dir checkpoint_name
    is_dist_ckpt iteration w :
  a_finetune (w_args w) = false →
  a_no_load_optim (w_args w) = false →
  is_Some (w_optimizer w) →
  sd !! "optimizer" = None →
  restore_optimizer (VDict sd) load_dir checkpoint_name is_dist_ckpt iteration false w
  = Raise SystemExit
      (with_trace (w_trace w ++ [EPrint (optimizer_guidance checkpoint_name)]) w)
  ∧ mentions (optimizer_guidance checkpoint_name) "--no-load-optim".
Proof.
  intros Hft Hnl [o Ho] Hnone. split; [| apply optimizer_guidance_names_flag].
  unfold restore_optimizer. unfold bind at 1. unfold get_args.
  unfold bind at 1. unfold get_world. rewrite Hft, Hnl, Ho. cbn [negb andb].
  unfold try_except, bind, lift, getitem. rewrite Hnone. reflexivity.
Qed.


(** ** The argument check *)

(** The argument check runs once per process: after it has taken nonzero
    consumed-sample counters from a record (no finetune), every later
    argument check, on any record, raises [AssertionError] and leaves the
    world as it is. *)
Theorem check_arguments_only_once sd a w w1 :
  check_arguments (VDict sd) w = Ok tt w1 →
  a_finetune (w_args w) = false →
  sd !! "args" = Some (VArgs a) →
  a_consumed_train_samples a ≠ 0 ∨ a_consumed_valid_samples a ≠ 0 →
  ∀ sd', check_arguments sd' w1 = Raise AssertionError w1.
Proof.
  intros Hrun Hft Hargs Hnz sd'.
  unfold check_arguments in Hrun.
  unfold bind, get_args, py_assert, lift, contains, getitem, ret, raise,
    update_num_microbatches, emit, modify in Hrun.
  destruct (Z.eqb (a_consumed_train_samples (w_args w)) 0); [| discriminate Hrun].
  destruct (Z.eqb (a_consumed_valid_samples (w_args w)) 0); [| discriminate Hrun].
  rewrite Hargs, Hft in Hrun. rewrite bool_decide_true in Hrun by eauto.
  cbn in Hrun. injection Hrun as <-.
  unfold check_arguments, bind, get_args, py_assert, raise. cbn.
  destruct Hnz as [Hnz | Hnz]; apply Z.eqb_neq in Hnz; rewrite Hnz; [done |].
  by destruct (Z.eqb (a_consumed_train_samples a) 0).
Qed.

(** ** LoRA *)

(** With [lora] set a load that has found a record never restores a
    weight: once the iteration is set and the argument check has passed,
    the model stage raises [NotImplementedError]; by then the consumed-sample
    counters of [args] have been overwritten, and nothing else has changed
    but the trace. *)
Theorem lora_load_not_implemented `{H : Helpers} load_dir is_dist_ckpt sd
    checkpoint_name release strict w :
  a_lora (w_args w) = true →
  a_consumed_train_samples (w_args w) = 0 →
  a_consumed_valid_samples (w_args w) = 0 →
  (a_finetune (w_args w) || release = true ∨ is_Some (record_iteration sd)) →
  ∃ w', restore_state load_dir is_dist_ckpt (VDict sd) checkpoint_name release strict w
        = Raise (NotImplementedError "Lora not implement yet") w'
    ∧ only_counters_changed w w'.
Proof.
  intros Hlora Ht Hv Hit.
  assert (∃ it, set_iteration (VDict sd) checkpoint_name release w = Ok it w)
    as (it & Hset).
  { destruct (a_finetune (w_args w) || release) eqn:Hskip.
    - eexists. by apply set_iteration_skip.
    - destruct Hit as [? | [v Hv']]; [done |].
      pose proof (set_iteration_record sd checkpoint_name release w Hskip) as Hrec.
      rewrite Hv' in Hrec. by exists v. }
  unfold restore_state, bind, lift, dict_get, ret.
  rewrite Hset.
  destruct (check_arguments_ok sd w Ht Hv) as (w1 & -> & Hcnt).
  exists w1. split; [| exact Hcnt].
  unfold restore_model, bind, get_args.
  destruct Hcnt as (Hz & _).
  rewrite (zero_counters_lora _ _ Hz), Hlora. reflexivity.
Qed.

(** ** Zero2 and the sharded format *)

(** Whenever the format gate reports a sharded checkpoint it hands the
    loader both keyword arguments. *)
Lemma format_gate_sharded_kwargs `{H : Helpers} load_dir w kw w1 :
  format_gate load_dir w = Ok (kw, true) w1 →
  is_Some (kw_sharded_state_dict kw) ∧ is_Some (kw_exit_on_missing_checkpoint kw).
Proof.
  unfold format_gate. unfold bind at 1. unfold get_args at 1.
  destruct (a_auto_detect_ckpt_format (w_args w) || a_use_dist_ckpt (w_args w));
    [| unfold ret; intros [=]].
  unfold bind at 1.
  destruct (_load_base_checkpoint load_dir true _ w) as [[[sd name] rel] w0 | e w0];
    [| intros [=]].
  unfold bind at 1. unfold check_is_distributed_checkpoint at 1.
  destruct (is_distributed_checkpoint w0 name); [| unfold ret; intros [=]].
  unfold bind at 1. destruct (lift (getitem sd "args") w0) as [ckpt_args w2 | e w2];
    [| intros [=]].
  unfold bind at 1. destruct (lift (ckpt_tp_pp_of ckpt_args) w2) as [tp_pp w3 | e w3];
    [| intros [=]].
  unfold bind at 1. unfold get_world at 1.
  unfold bind at 1.
  match goal with
  | |- context [match ?c w3 with _ => _ end] => destruct (c w3) as [rng w4 | e w4]
  end; [| intros [=]].
  match goal with
  | |- context [if ?b then raise _ else _] => destruct b
  end; [unfold raise; intros [=] |].
  unfold bind at 1.
  match goal with
  | |- context [generate_state_dict ?a ?m ?o ?s ?r ?d ?i ?k w4] =>
      destruct (generate_state_dict a m o s r d i k w4) as [sharded w5 | e w5]
  end; [| intros [=]].
  unfold ret. intros [= <- _]. cbn. eauto.
Qed.

(** A Zero2 run cannot load a sharded checkpoint: the keyword arguments the
    format gate collects for a sharded checkpoint are passed on to
    [_load_zero2_checkpoint], which accepts neither, so the call raises
    [TypeError] before anything is read. *)
Theorem zero2_rejects_sharded_checkpoint `{H : Helpers} load_dir w kw w1 :
  format_gate load_dir w = Ok (kw, true) w1 →
  a_use_zero2 (w_args w1) = true →
  read_record load_dir kw w1 = Raise TypeError w1.
Proof.
  intros Hgate Hz.
  destruct (format_gate_sharded_kwargs _ _ _ _ Hgate) as [[sharded Hs] [e He]].
  unfold read_record, bind, get_args. rewrite Hz, Hs. reflexivity.
Qed.

(** ** The Zero2 load path: failures and the legacy retry *)

Lemma torch_load_world path w : world_of (torch_load path w) = w.
Proof.
  unfold torch_load. destruct (w_fs w !! path) as [[| obj needs |] |]; try done.
  by destruct (resolvable w needs).
Qed.

Lemma load_optimizer_state_list_world names w :
  world_of (load_optimizer_state_list names w) = w.
Proof.
  induction names as [| p rest IH]; [done |].
  simpl. unfold bind at 1. pose proof (torch_load_world p w) as Hp.
  destruct (torch_load p w) as [v w1 | e w1]; simpl in Hp; subst w1; [| done].
  unfold bind. destruct (load_optimizer_state_list rest w) as [vs w2 | e w2];
    simpl in IH; by subst w2.
Qed.

(** Reading the model file and the shards changes nothing, whether it
    succeeds or fails. *)
Lemma zero2_read_world names path w :
  world_of ((let* state_dict := torch_load path in
             load_zero2_optimizer names state_dict) w) = w.
Proof.
  unfold bind at 1. pose proof (torch_load_world path w) as Hp.
  destruct (torch_load path w) as [v w1 | e w1]; simpl in Hp; subst w1; [| done].
  unfold load_zero2_optimizer, bind.
  pose proof (load_optimizer_state_list_world names w) as Hl.
  destruct (load_optimizer_state_list names w) as [vs w2 | e w2];
    simpl in Hl; subst w2; [| done].
  unfold lift. by destruct (setitem v "optimizer" (VList vs)).
Qed.

(** [_load_zero2_checkpoint] up to the read: with the tracker file there,
    the step resolved and the checkpoint not sharded, what remains is the
    guarded read in the world with the loading message printed. *)
Lemma zero2_load_head `{H : Helpers} load_dir checkpoint_step w iteration release w1 :
  is_file w (get_checkpoint_tracker_filename load_dir) = true →
  resolves_step load_dir checkpoint_step w iteration release w1 →
  is_distributed_checkpoint w1
    (get_checkpoint_name (w_proc w1) load_dir iteration release true) = false →
  _load_zero2_checkpoint load_dir checkpoint_step w
  = (let* state_dict :=
       zero2_guarded_read
         (get_checkpoint_name (w_proc w1) load_dir iteration release false)
         (get_zero2_checkpoint_names (w_proc w1) load_dir iteration release) in
     ret (state_dict,
          get_checkpoint_name (w_proc w1) load_dir iteration release true, release))
      (with_trace
         (w_trace w1 ++ [EPrint (zero2_loading_message load_dir iteration release)])
         w1).
Proof.
  intros Htracker Hstep Hdist.
  assert (Hhead : ∀ B (k : Z * bool → M B),
    bind (match checkpoint_step with
          | Some step => ret (step, false)
          | None => read_metadata (get_checkpoint_tracker_filename load_dir)
          end) k w
    = k (iteration, release) w1).
  { intros B k. unfold bind. destruct checkpoint_step as [step |]; simpl in Hstep.
    - destruct Hstep as (-> & -> & ->). done.
    - by rewrite Hstep. }
  unfold _load_zero2_checkpoint.
  unfold bind at 1. unfold isfile. rewrite Htracker. cbn [negb].
  rewrite Hhead.
  unfold bind at 1. unfold get_proc.
  unfold bind at 1. unfold check_is_distributed_checkpoint. rewrite Hdist.
  unfold bind at 1. unfold py_assert at 1. cbn [negb]. unfold ret at 1.
  unfold bind at 1.
  replace ((if release
            then print_rank_0 (" loading release " +:+ "" +:+ "checkpoint from " +:+ load_dir)
            else print_rank_0 (" loading " +:+ "" +:+ "checkpoint from " +:+ load_dir
                               +:+ " at iteration " +:+ pretty iteration)) w1)
    with (Ok tt (with_trace
                   (w_trace w1 ++ [EPrint (zero2_loading_message load_dir iteration release)])
                   w1))
    by (unfold zero2_loading_message; by destruct release).
  reflexivity.
Qed.

Lemma torch_load_with_trace path t w :
  torch_load path (with_trace t w)
  = match torch_load path w with
    | Ok v _ => Ok v (with_trace t w)
    | Raise e _ => Raise e (with_trace t w)
    end.
Proof.
  unfold torch_load. change (w_fs (with_trace t w)) with (w_fs w).
  destruct (w_fs w !! path) as [[| obj needs |] |]; try done.
  change (resolvable (with_trace t w) needs) with (resolvable w needs).
  by destruct (resolvable w needs).
Qed.

Lemma load_optimizer_state_list_with_trace names t w :
  load_optimizer_state_list names (with_trace t w)
  = match load_optimizer_state_list names w with
    | Ok v _ => Ok v (with_trace t w)
    | Raise e _ => Raise e (with_trace t w)
    end.
Proof.
  induction names as [| p rest IH]; [done |].
  simpl. unfold bind. rewrite torch_load_with_trace.
  pose proof (torch_load_world p w) as Hp.
  destruct (torch_load p w) as [v w1 | e w1]; simpl in Hp; subst w1; [| done].
  rewrite IH.
  pose proof (load_optimizer_state_list_world rest w) as Hl.
  destruct (load_optimizer_state_list rest w) as [vs w2 | e w2];
    simpl in Hl; by subst w2.
Qed.

(** The read does not look at the trace. *)
Lemma zero2_read_with_trace names path t w :
  (let* state_dict := torch_load path in
   load_zero2_optimizer names state_dict) (with_trace t w)
  = match (let* state_dict := torch_load path in
           load_zero2_optimizer names state_dict) w with
    | Ok v _ => Ok v (with_trace t w)
    | Raise e _ => Raise e (with_trace t w)
    end.
Proof.
  unfold load_zero2_optimizer, bind. rewrite torch_load_with_trace.
  pose proof (torch_load_world path w) as Hp.
  destruct (torch_load path w) as [v w1 | e w1]; simpl in Hp; subst w1; [| done].
  rewrite load_optimizer_state_list_with_trace.
  pose proof (load_optimizer_state_list_world names w) as Hl.
  destruct (load_optimizer_state_list names w) as [vs w2 | e w2];
    simpl in Hl; subst w2; [| done].
  unfold lift. by destruct (setitem v "optimizer" (VList vs)).
Qed.

(** A Zero2 load whose read of the model file and the optimizer shards
    fails with anything but [ModuleNotFoundError] (a missing model or shard
    file, a file that does not unpickle, a record that is no dictionary) lets
    no exception out: it prints that the checkpoint could not be loaded,
    prints the exception (as some text), and exits; the files and the
    module registry are as the resolution of the step left them. *)
Theorem zero2_load_failure_exits `{H : Helpers} load_dir checkpoint_step w
    iteration release w1 e w1' :
  is_file w (get_checkpoint_tracker_filename load_dir) = true →
  resolves_step load_dir checkpoint_step w iteration release w1 →
  is_distributed_checkpoint w1
    (get_checkpoint_name (w_proc w1) load_dir iteration release true) = false →
  (let* state_dict :=
     torch_load (get_checkpoint_name (w_proc w1) load_dir iteration release false) in
   load_zero2_optimizer
     (get_zero2_checkpoint_names (w_proc w1) load_dir iteration release) state_dict) w1
  = Raise e w1' →
  e ≠ ModuleNotFoundError →
  ∃ shown,
    _load_zero2_checkpoint load_dir checkpoint_step w
    = Raise SystemExit
        (with_trace
           (w_trace w1 ++ [EPrint (zero2_loading_message load_dir iteration release);
                           EPrint "could not load the checkpoint";
                           EPrint shown]) w1).
Proof.
  intros Htracker Hstep Hdist Hread Hne. exists (exn_str e).
  rewrite (zero2_load_head load_dir checkpoint_step w iteration release w1
             Htracker Hstep Hdist).
  unfold bind at 1. unfold zero2_guarded_read, try_except.
  rewrite zero2_read_with_trace, Hread.
  destruct e; try congruence;
    unfold bind, print_rank_0, emit, modify, sys_exit, raise;
    f_equal; rewrite !with_trace_twice; cbn [w_trace with_trace];
    by rewrite <- !app_assoc.
Qed.

(** The legacy retry, when it succeeds: if the first read fails with
    [ModuleNotFoundError] and the load nevertheless returns, the three alias
    names are absent from the module registry afterwards (also when one of
    them was registered before the load), every other name is bound as
    before, and the files are untouched. *)
Theorem zero2_legacy_retry_cleans_registry `{H : Helpers} load_dir checkpoint_step w
    iteration release w1 w1' result w' :
  is_file w (get_checkpoint_tracker_filename load_dir) = true →
  resolves_step load_dir checkpoint_step w iteration release w1 →
  is_distributed_checkpoint w1
    (get_checkpoint_name (w_proc w1) load_dir iteration release true) = false →
  (let* state_dict :=
     torch_load (get_checkpoint_name (w_proc w1) load_dir iteration release false) in
   load_zero2_optimizer
     (get_zero2_checkpoint_names (w_proc w1) load_dir iteration release) state_dict) w1
  = Raise ModuleNotFoundError w1' →
  _load_zero2_checkpoint load_dir checkpoint_step w = Ok result w' →
  (∀ alias, alias ∈ legacy_aliases.*1 → w_modules w' !! alias = None)
  ∧ (∀ name, name ∉ legacy_aliases.*1 → w_modules w' !! name = w_modules w1 !! name)
  ∧ w_fs w' = w_fs w1.
Proof.
  intros Htracker Hstep Hdist Hread.
  rewrite (zero2_load_head load_dir checkpoint_step w iteration release w1
             Htracker Hstep Hdist).
  unfold bind at 1. unfold zero2_guarded_read, try_except.
  rewrite zero2_read_with_trace, Hread.
  set (wp := with_trace _ w1).
  assert (Hmods : w_modules wp = w_modules w1) by done.
  assert (Hfs : w_fs wp = w_fs w1) by done.
  clearbody wp.
  unfold bind at 1. unfold alias_module at 1.
  destruct (w_modules wp !! "megatron.legacy.fp16_deprecated.loss_scaler")
    as [scaler |] eqn:Hscaler; [| intros [=]].
  unfold bind at 1. unfold alias_module at 1. cbn [w_modules with_modules].
  rewrite lookup_insert_ne by done. rewrite Hscaler.
  unfold bind at 1. unfold alias_module at 1. cbn [w_modules with_modules].
  rewrite !lookup_insert_ne by done.
  destruct (w_modules wp !! "megatron.legacy.model") as [legacy |] eqn:Hlegacy;
    [| intros [=]].
  match goal with
  | |- context [bind (torch_load ?p) ?k ?wa] =>
      set (aliased := wa);
      pose proof (zero2_read_world
                    (get_zero2_checkpoint_names (w_proc w1) load_dir iteration release)
                    p aliased) as Hworld
  end.
  unfold bind at 1 in Hworld. unfold bind at 1.
  destruct (torch_load _ aliased) as [sd wa | e wa]; [| intros [=]].
  unfold bind at 1.
  destruct (load_zero2_optimizer _ sd wa) as [sd' wb | e wb]; [| intros [=]].
  simpl in Hworld. subst wb.
  unfold bind, pop_module, modify, ret. intros [= _ <-].
  cbn [w_modules w_fs with_modules aliased]. rewrite Hmods, Hfs.
  split_and!; [| | done].
  - intros alias Hin. apply list_elem_of_In in Hin. simpl in Hin.
    destruct Hin as [<- | [<- | [<- | []]]]; by simplify_map_eq.
  - intros name Hnot.
    assert (name ≠ "fp16.loss_scaler" ∧ name ≠ "megatron.fp16.loss_scaler"
            ∧ name ≠ "megatron.model") as (? & ? & ?).
    { split_and!; intros ->; apply Hnot, list_elem_of_In; simpl; tauto. }
    by simplify_map_eq.
Qed.

(** ** A complete load, and the round trip *)















(** ** Release, finetune and the iteration (C3) *)

(** C3 (as amended).  Let the read of the record have returned a record and
    the loader's release flag.  In a release load (the flag is set) or a
    finetune load, once the argument check and the model stage pass (live
    counters zero, LoRA off, the record has the entries of the live stages),
    [load_checkpoint] returns iteration 0 with the record's FLOPs counter (0
    when it has none), and neither the optimizer's state, nor the scheduler,
    nor any generator, nor any switch of [args] is changed, whatever
    [no_load_optim] and [no_load_rng] say.  Otherwise the iteration step
    yields the record's ['iteration'] entry, else its ['total_iters'] entry,
    and when the record has neither, [load_checkpoint] prints that the
    iteration cannot be loaded and exits, before anything is restored. *)
Theorem release_finetune_and_iteration `{H : Helpers} load_arg strict w
    load_dir is_dist_ckpt sd checkpoint_name release w1 :
  load_record load_arg w
    = Ok (load_dir, is_dist_ckpt, (VDict sd, checkpoint_name, release)) w1 →
  (a_finetune (w_args w1) || release = true →
   a_consumed_train_samples (w_args w1) = 0 →
   a_consumed_valid_samples (w_args w1) = 0 →
   a_lora (w_args w1) = false →
   model_entries_present (w_model w1) sd →
   ∃ w', load_checkpoint load_arg strict w
         = Ok (VInt 0,
               default (VInt 0) (sd !! "num_floating_point_operations_so_far")) w'
         ∧ untouched_restorables w1 w')
  ∧ (a_finetune (w_args w1) || release = false →
     match sd !! "iteration", sd !! "total_iters" with
     | Some v, _ | None, Some v =>
         set_iteration (VDict sd) checkpoint_name release w1 = Ok v w1
     | None, None =>
         load_checkpoint load_arg strict w
         = Raise SystemExit
             (with_trace
                (w_trace w1 ++
                 [EPrint ("A metadata file exists but unable to load "
                          +:+ "iteration from checkpoint " +:+ checkpoint_name
                          +:+ ", exiting")]) w1)
     end).
Proof.
  intros Hrec. split.
  - intros Hskip Ht Hv Hlora Hentries.
    by eapply release_or_finetune_run.
  - intros Hskip.
    pose proof (set_iteration_record sd checkpoint_name release w1 Hskip) as Hset.
    unfold record_iteration in Hset.
    destruct (sd !! "iteration") as [v |] eqn:Hit; [exact Hset |].
    destruct (sd !! "total_iters") as [v |] eqn:Hti; [exact Hset |].
    by eapply load_without_iteration_run.
Qed.

(** C3, a run: a finetune load of the checkpoint saved at iteration 5
    returns [(0, 1000)] and leaves the freshly seeded generators alone. *)
Lemma finetune_load_returns_zero :
  ∃ w', load_checkpoint (H := SpecHelpers.helpers) a_load true
          (RoundTripExample.restarted (set_finetune Examples.plain_args true))
        = Ok (VInt 0, VInt 1000) w'
    ∧ w_rng w' = w_rng (RoundTripExample.restarted Examples.plain_args).
Proof.
  destruct (release_finetune_and_iteration (H := SpecHelpers.helpers) a_load true
              (RoundTripExample.restarted (set_finetune Examples.plain_args true))
              "/ckpt" false RoundTripExample.record "/ckpt/iter_5/model_tp0_pp0.pt" false
              (RoundTripExample.restarted (set_finetune Examples.plain_args true)))
    as [Hfinetune _].
  - vm_compute. reflexivity.
  - destruct Hfinetune as (w' & Hrun & Hrng & _); try reflexivity.
    + eexists. split; [reflexivity |]. vm_compute. eauto.
    + exists w'. split; [| exact Hrng].
      rewrite Hrun. vm_compute. reflexivity.
Defined.

(** C3, where the claim fails as stated.  A record without an iteration
    field is no release checkpoint to the code, which takes the release flag
    from the loader: with a tracker that holds a number such a record makes
    the load exit.  And a finetune load does not return at all when LoRA is
    set. *)
Lemma release_and_finetune_loads_that_fail :
  (FurtherExamples.no_iteration_record !! "iteration" = None
   ∧ ∃ w', load_checkpoint (H := SpecHelpers.helpers) a_load true
             FurtherExamples.no_iteration = Raise SystemExit w')
  ∧ (∃ w', load_checkpoint (H := SpecHelpers.helpers) a_load true
             (RoundTripExample.restarted FurtherExamples.finetune_lora_args)
           = Raise (NotImplementedError "Lora not implement yet") w').
Proof.
  split_and!.
  - vm_compute. reflexivity.
  - exists (world_of (load_checkpoint (H := SpecHelpers.helpers) a_load true
                        FurtherExamples.no_iteration)).
    vm_compute. reflexivity.
  - exists (world_of (load_checkpoint (H := SpecHelpers.helpers) a_load true
                        (RoundTripExample.restarted FurtherExamples.finetune_lora_args))).
    vm_compute. reflexivity.
Qed.

(** ** The round trip (C1) *)



(** ** A Zero2 load directory without checkpoint *)

(** On the Zero2 path with the format gate off and no pretrained source, a
    load directory without tracker file makes [load_checkpoint] return
    [(0, 0)] after two warnings; nothing but the trace changes: the live
    model, optimizer, scheduler, generators, [args] and files are as
    before. *)
Theorem zero2_missing_tracker_starts_from_scratch `{H : Helpers} load_arg strict w :
  a_pretrained_checkpoint (w_args w) = None →
  a_use_zero2 (w_args w) = true →
  a_auto_detect_ckpt_format (w_args w) = false →
  a_use_dist_ckpt (w_args w) = false →
  is_file w (get_checkpoint_tracker_filename (load_arg (w_args w))) = false →
  ∃ warnings,
    load_checkpoint load_arg strict w
    = Ok (VInt 0, VInt 0) (with_trace (w_trace w ++ warnings) w)
    ∧ Forall (λ e, ∃ msg, e = EPrint msg) warnings.
Proof.
  intros Hpre Hz2 Hauto Hdist Hfile.
  exists [EPrint ("WARNING: could not find the metadata file "
                  +:+ get_checkpoint_tracker_filename (load_arg (w_args w))
                  +:+ " ");
          EPrint "    will not load any checkpoints and will start from random"].
  split.
  - unfold load_checkpoint, load_record, resolve_load_dir, format_gate,
      read_record. unfold bind, get_args. rewrite Hpre. unfold ret at 1.
    rewrite Hauto, Hdist. simpl. rewrite Hz2. simpl.
    unfold _load_zero2_checkpoint. unfold bind, isfile. rewrite Hfile. simpl.
    unfold ret. f_equal.
    destruct w; unfold with_trace; simpl. rewrite <- app_assoc. reflexivity.
  - repeat constructor; eauto.
Qed.

Lemma zero2_empty_directory_run :
  ∃ w1, load_checkpoint (H := SpecHelpers.helpers) a_load true
          (Examples.fresh_world Zero2Example.args Zero2Example.proc)
        = Ok (VInt 0, VInt 0) w1.
Proof.
  destruct (zero2_missing_tracker_starts_from_scratch (H := SpecHelpers.helpers)
              a_load true
              (Examples.fresh_world Zero2Example.args Zero2Example.proc)
              eq_refl eq_refl eq_refl eq_refl eq_refl)
    as (warnings & Hrun & _).
  eexists. exact Hrun.
Defined.

(** ** Runs of the further properties *)

Lemma save_checkpoint_and_time_frame_run :
  ∃ w', save_checkpoint_and_time (H := SpecHelpers.helpers) 5 (VInt 1000)
          (Examples.fresh_world Examples.plain_args Examples.sole_process) = Ok tt w'.
Proof.
  destruct (save_checkpoint_and_time_frame (H := SpecHelpers.helpers) 5 (VInt 1000)
              (Examples.fresh_world Examples.plain_args Examples.sole_process)
              [Wrapped DDP (Wrapped Float16Module (Bare (VBlob 10)))] eq_refl)
    as (w' & Hrun & _).
  by exists w'.
Defined.

Lemma save_checkpoint_idle_rank_run :
  ∃ w', save_checkpoint (H := SpecHelpers.helpers) 5 (VInt 1000)
          (Examples.fresh_world Examples.no_save_optim_args FurtherExamples.idle_proc)
        = Ok tt w'
    ∧ w_fs w' = ∅.
Proof.
  apply (save_checkpoint_idle_rank (H := SpecHelpers.helpers) 5 (VInt 1000)
           (Examples.fresh_world Examples.no_save_optim_args FurtherExamples.idle_proc)
           [Wrapped DDP (Wrapped Float16Module (Bare (VBlob 10)))]);
    first [reflexivity | discriminate].
Defined.

Lemma save_zero2_optimizer_in_shard_run :
  ∃ w' (sd : gmap string Value),
    save_state (H := SpecHelpers.helpers) 7 (VInt 0)
      (Examples.fresh_world Zero2Example.args Zero2Example.proc) = Ok tt w'
    ∧ sd !! "optimizer" = None.
Proof.
  destruct (save_zero2_optimizer_in_shard (H := SpecHelpers.helpers) 7 (VInt 0)
              (Examples.fresh_world Zero2Example.args Zero2Example.proc)
              [Wrapped DDP (Wrapped Float16Module (Bare (VBlob 10)))]
              Examples.live_optimizer)
    as (w' & sd & Hrun & _ & Hnone & _); try reflexivity.
  - vm_compute. discriminate.
  - by exists w', sd.
Defined.

Lemma restore_optimizer_from_record_run :
  ∃ w', restore_optimizer (H := SpecHelpers.helpers) (VDict FurtherExamples.older_record)
          "/ckpt" "/ckpt/iter_5/model_tp0_pp0.pt" false (VInt 5) false
          (Examples.fresh_world Examples.plain_args Examples.sole_process)
        = Ok (VInt 5, false) w'
    ∧ w_scheduler w' = Some (VBlob 41).
Proof.
  destruct (restore_optimizer_from_record (H := SpecHelpers.helpers)
              FurtherExamples.older_record "/ckpt" "/ckpt/iter_5/model_tp0_pp0.pt"
              false (VInt 5)
              (Examples.fresh_world Examples.plain_args Examples.sole_process))
    as (w' & Hrun & _ & Hsched & _); try reflexivity.
  - intros _. vm_compute. by eexists.
  - intros _. vm_compute. by eexists.
  - exists w'. split; [exact Hrun |]. rewrite Hsched. vm_compute. reflexivity.
Defined.

Lemma optimizer_fatal_with_guidance_run :
  ∃ w', restore_optimizer (H := SpecHelpers.helpers) (VDict Zero2Example.record)
          "/ckpt" "/ckpt/iter_7/model_tp0_pp0.pt" false (VInt 7) false
          (Examples.fresh_world Examples.plain_args Examples.sole_process)
        = Raise SystemExit w'.
Proof.
  destruct (optimizer_fatal_with_guidance (H := SpecHelpers.helpers)
              Zero2Example.record "/ckpt" "/ckpt/iter_7/model_tp0_pp0.pt" false (VInt 7)
              (Examples.fresh_world Examples.plain_args Examples.sole_process))
    as [Hrun _]; try reflexivity.
  - vm_compute. by eexists.
  - by eexists.
Defined.


Lemma check_arguments_only_once_run :
  ∃ w1, check_arguments (VDict FurtherExamples.trained_record)
          (Examples.fresh_world Examples.plain_args Examples.sole_process) = Ok tt w1
    ∧ check_arguments (VDict FurtherExamples.trained_record) w1
      = Raise AssertionError w1.
Proof.
  exists (world_of (check_arguments (VDict FurtherExamples.trained_record)
                      (Examples.fresh_world Examples.plain_args Examples.sole_process))).
  split; [vm_compute; reflexivity |].
  apply (check_arguments_only_once FurtherExamples.trained_record
           (FurtherExamples.args_with false false false false 1000)
           (Examples.fresh_world Examples.plain_args Examples.sole_process)).
  - vm_compute. reflexivity.
  - reflexivity.
  - vm_compute. reflexivity.
  - left. discriminate.
Defined.

Lemma lora_load_not_implemented_run :
  ∃ w', restore_state (H := SpecHelpers.helpers) "/ckpt" false
          (VDict FurtherExamples.trained_record) "/ckpt/iter_5/model_tp0_pp0.pt"
          false true
          (Examples.fresh_world (FurtherExamples.args_with false false false true 0)
             Examples.sole_process)
        = Raise (NotImplementedError "Lora not implement yet") w'.
Proof.
  destruct (lora_load_not_implemented (H := SpecHelpers.helpers) "/ckpt" false
              FurtherExamples.trained_record "/ckpt/iter_5/model_tp0_pp0.pt" false true
              (Examples.fresh_world (FurtherExamples.args_with false false false true 0)
                 Examples.sole_process))
    as (w' & Hrun & _); try reflexivity.
  - right. vm_compute. by eexists.
  - by exists w'.
Defined.

Lemma zero2_rejects_sharded_checkpoint_run :
  ∃ kw w1,
    format_gate (H := SpecHelpers.helpers) "/ckpt" FurtherExamples.zero2_on_sharded
    = Ok (kw, true) w1
    ∧ read_record (H := SpecHelpers.helpers) "/ckpt" kw w1 = Raise TypeError w1.
Proof.
  exists FurtherExamples.gate_kwargs, FurtherExamples.gate_world.
  split; [vm_compute; reflexivity |].
  apply (zero2_rejects_sharded_checkpoint (H := SpecHelpers.helpers) "/ckpt"
           FurtherExamples.zero2_on_sharded).
  - vm_compute. reflexivity.
  - reflexivity.
Defined.

Lemma zero2_load_failure_exits_run :
  ∃ w', _load_zero2_checkpoint (H := SpecHelpers.helpers) "/ckpt" None
          FurtherExamples.zero2_without_model
        = Raise SystemExit w'.
Proof.
  destruct (zero2_load_failure_exits (H := SpecHelpers.helpers) "/ckpt" None
              FurtherExamples.zero2_without_model 7 false
              FurtherExamples.zero2_without_model
              (FileNotFoundError "/ckpt/iter_7/model_tp0_pp0.pt")
              FurtherExamples.zero2_without_model)
    as (shown & Hrun).
  - vm_compute. reflexivity.
  - vm_compute. reflexivity.
  - vm_compute. reflexivity.
  - vm_compute. reflexivity.
  - discriminate.
  - eexists. exact Hrun.
Defined.

Lemma zero2_legacy_retry_cleans_registry_run :
  ∃ result w',
    _load_zero2_checkpoint (H := SpecHelpers.helpers) "/ckpt" None
      FurtherExamples.zero2_legacy = Ok result w'
    ∧ w_modules w' !! "megatron.model" = None.
Proof.
  exists FurtherExamples.legacy_result, FurtherExamples.legacy_world.
  split; [vm_compute; reflexivity |].
  destruct (zero2_legacy_retry_cleans_registry (H := SpecHelpers.helpers) "/ckpt" None
              FurtherExamples.zero2_legacy 7 false FurtherExamples.zero2_legacy
              FurtherExamples.zero2_legacy
              FurtherExamples.legacy_result FurtherExamples.legacy_world)
    as (Habsent & _).
  - vm_compute. reflexivity.
  - vm_compute. reflexivity.
  - vm_compute. reflexivity.
  - vm_compute. reflexivity.
  - vm_compute. reflexivity.
  - apply Habsent. apply list_elem_of_In. simpl. tauto.
Defined.
